(** * china-festival-mcp: the cache layer and the holiday queries

    A shallow embedding of [src/utils/cache.py] (the TTL cache with its
    size bound, counters and disk persistence) and of the holiday tools of
    [src/server_fastmcp.py] and [scripts/holiday_query.py], followed by the
    properties the specification states about them.

    Conventions of the embedding.
    - [time.time()] is an explicit argument: every reading of the clock
      that a method performs is a parameter of its model, in the order of
      the readings.  Time stamps and TTLs are integers of one common unit.
    - A method that runs under [with self._lock] is one atomic state
      transformer [SimpleCache -> result * SimpleCache].
    - A Python [dict] keeps insertion order, and [min] over its keys
      returns the first minimal key of that order, so [_cache] is an
      insertion-ordered association list with unique keys ([PyDict]).
    - Counters are Python integers that are only ever incremented: [nat]. *)

From Stdlib Require Import ZArith QArith Lia Ascii String DecimalString.
From stdpp Require Import base option list sorting strings gmap.

Local Open Scope Z_scope.

(** ** Python dictionaries, in insertion order *)

Module PyDict.
Section dict.
Context {K A : Type} `{EqDecision K}.

(** [d.get(k)] / [d[k]] *)
Fixpoint dict_get (k : K) (d : list (K * A)) : option A :=
  match d with
  | [] => None
  | (k', a) :: d' => if decide (k' = k) then Some a else dict_get k d'
  end.

(** [k in d] *)
Definition dict_in (k : K) (d : list (K * A)) : bool :=
  bool_decide (is_Some (dict_get k d)).

(** [d[k] = a]: an existing key keeps its position, a new key goes last. *)
Fixpoint dict_set (k : K) (a : A) (d : list (K * A)) : list (K * A) :=
  match d with
  | [] => [(k, a)]
  | (k', a') :: d' =>
      if decide (k' = k) then (k, a) :: d' else (k', a') :: dict_set k a d'
  end.

(** [del d[k]] *)
Fixpoint dict_del (k : K) (d : list (K * A)) : list (K * A) :=
  match d with
  | [] => []
  | (k', a') :: d' =>
      if decide (k' = k) then dict_del k d' else (k', a') :: dict_del k d'
  end.

(** [d.keys()] *)
Definition dict_keys (d : list (K * A)) : list K := d.*1.

(** The representation invariant of a dictionary: keys are unique. *)
Definition dict_wf (d : list (K * A)) : Prop := NoDup (dict_keys d).

(** [min(xs, key=f)] on a non-empty iterable [x :: xs]: the first element
    whose key is minimal. *)
Definition py_min {B : Type} (f : B -> Z) (x : B) (xs : list B) : B :=
  foldl (fun best y => if f y <? f best then y else best) x xs.
End dict.
End PyDict.
Import PyDict.

(** ** [cache.py]: [SimpleCache] *)

(** One value of [self._cache]: the dict built by [set]. *)
Record Entry (V : Type) : Type := mkEntry {
  value : V;
  expires : Z;
  created : Z;
  last_accessed : Z;
  access_count : Z
}.
Arguments mkEntry {V}.
Arguments value {V}.
Arguments expires {V}.
Arguments created {V}.
Arguments last_accessed {V}.
Arguments access_count {V}.

Record SimpleCache (V : Type) : Type := mkCache {
  _cache : list (string * Entry V);
  default_ttl : Z;
  max_size : Z;
  _hits : nat;
  _misses : nat;
  _sets : nat;
  _deletes : nat
}.
Arguments mkCache {V}.
Arguments _cache {V}.
Arguments default_ttl {V}.
Arguments max_size {V}.
Arguments _hits {V}.
Arguments _misses {V}.
Arguments _sets {V}.
Arguments _deletes {V}.

(** The dict returned by [get_stats]. *)
Record Stats : Type := mkStats {
  total_entries : nat;
  active_entries : nat;
  expired_entries : nat;
  st_max_size : Z;
  hits : nat;
  misses : nat;
  sets : nat;
  deletes : nat;
  hit_rate : Q;
  memory_usage_estimate : nat
}.

(** Python's true division [a / b] on integers: [ZeroDivisionError] when
    [b] is zero, the quotient otherwise (as an exact rational; the rounding
    of the float result is not modelled). *)
Definition py_truediv (a b : nat) : option Q :=
  match b with
  | O => None
  | S _ => Some (inject_Z (Z.of_nat a) / inject_Z (Z.of_nat b))%Q
  end.

(** [len(s)] of a string: the number of its characters, which are the
    bytes of the UTF-8 encoding that do not continue a character. *)
Fixpoint py_len (s : string) : nat :=
  match s with
  | EmptyString => O
  | String c s' =>
      let n := nat_of_ascii c in
      ((if (128 <=? n) && (n <? 192) then 0 else 1) + py_len s')%nat
  end.

Module Cache.
Section simple_cache.
Context {V : Type}.
(** [len(str(v))] of a cached value, used by the memory estimate only. *)
Variable str_len : V -> nat.

Definition with_cache (c : SimpleCache V) (d : list (string * Entry V)) :=
  mkCache d (default_ttl c) (max_size c)
          (_hits c) (_misses c) (_sets c) (_deletes c).

(** [__init__] *)
Definition init (default_ttl max_size : Z) : SimpleCache V :=
  mkCache [] default_ttl max_size 0 0 0 0.

(** [get]: [now] is the clock read by the expiry test, [now'] the one
    stored in [last_accessed]. *)
Definition get (now now' : Z) (key : string) (c : SimpleCache V)
  : option V * SimpleCache V :=
  match dict_get key (_cache c) with
  | Some entry =>
      if now <? expires entry then
        let entry' := mkEntry (value entry) (expires entry) (created entry)
                              now' (access_count entry) in
        (Some (value entry),
         mkCache (dict_set key entry' (_cache c)) (default_ttl c) (max_size c)
                 (S (_hits c)) (_misses c) (_sets c) (_deletes c))
      else
        (None,
         mkCache (dict_del key (_cache c)) (default_ttl c) (max_size c)
                 (_hits c) (S (_misses c)) (_sets c) (S (_deletes c)))
  | None =>
      (None,
       mkCache (_cache c) (default_ttl c) (max_size c)
               (_hits c) (S (_misses c)) (_sets c) (_deletes c))
  end.

(** The key function of [_evict_oldest]: [self._cache[k]['last_accessed']].
    A key of [keys()] is always bound, the default is never reached. *)
Definition age_of (d : list (string * Entry V)) (k : string) : Z :=
  from_option last_accessed 0 (dict_get k d).

Definition oldest_key (d : list (string * Entry V)) : option string :=
  match dict_keys d with
  | [] => None
  | k :: ks => Some (py_min (age_of d) k ks)
  end.

(** [_evict_oldest] *)
Definition _evict_oldest (c : SimpleCache V) : SimpleCache V :=
  match oldest_key (_cache c) with
  | None => c
  | Some k =>
      mkCache (dict_del k (_cache c)) (default_ttl c) (max_size c)
              (_hits c) (_misses c) (_sets c) (S (_deletes c))
  end.

(** [set]: [ttl = None] selects [default_ttl]. *)
Definition set (now : Z) (key : string) (v : V) (ttl : option Z)
    (c : SimpleCache V) : SimpleCache V :=
  let ttl := default (default_ttl c) ttl in
  let c1 :=
    if (max_size c <=? Z.of_nat (length (_cache c)))
       && negb (dict_in key (_cache c))
    then _evict_oldest c else c in
  let entry := mkEntry v (now + ttl) now now 0 in
  mkCache (dict_set key entry (_cache c1)) (default_ttl c1) (max_size c1)
          (_hits c1) (_misses c1) (S (_sets c1)) (_deletes c1).

(** [delete] *)
Definition delete (key : string) (c : SimpleCache V) : bool * SimpleCache V :=
  if dict_in key (_cache c) then
    (true,
     mkCache (dict_del key (_cache c)) (default_ttl c) (max_size c)
             (_hits c) (_misses c) (_sets c) (S (_deletes c)))
  else (false, c).

(** [clear] *)
Definition clear (c : SimpleCache V) : SimpleCache V :=
  mkCache [] (default_ttl c) (max_size c)
          (_hits c) (_misses c) (_sets c)
          (_deletes c + length (_cache c))%nat.

Definition is_expired (now : Z) (e : Entry V) : bool := expires e <=? now.

(** [cleanup] *)
Definition cleanup (now : Z) (c : SimpleCache V) : nat * SimpleCache V :=
  let expired_keys :=
    (filter (fun p => is_expired now p.2 = true) (_cache c)).*1 in
  let d := foldl (fun d k => dict_del k d) (_cache c) expired_keys in
  (length expired_keys,
   mkCache d (default_ttl c) (max_size c)
           (_hits c) (_misses c) (_sets c)
           (_deletes c + length expired_keys)%nat).

(** [_estimate_memory_usage] *)
Definition _estimate_memory_usage (c : SimpleCache V) : nat :=
  foldl (fun total p =>
           (total + py_len p.1 * 2 + str_len (value p.2) * 2 + 64)%nat)
        0%nat (_cache c).

(** [get_stats]; [None] stands for an escaping [ZeroDivisionError]. *)
Definition get_stats (now : Z) (c : SimpleCache V) : option Stats :=
  let total := length (_cache c) in
  let expired :=
    length (filter (fun p => is_expired now p.2 = true) (_cache c)) in
  rate ← (if bool_decide (0 < _hits c + _misses c)%nat
          then py_truediv (_hits c) (_hits c + _misses c)
          else Some 0%Q);
  Some (mkStats total (total - expired)%nat expired (max_size c)
                (_hits c) (_misses c) (_sets c) (_deletes c)
                rate (_estimate_memory_usage c)).
End simple_cache.
End Cache.

(** ** [cache.py]: [PersistentCache]

    The file system is part of the state: the directory at [cache_dir] is
    the list of its [*.cache] entries by name, in the order [glob] yields
    them.  Two calls of the file system can raise out of the methods,
    because nothing catches them there: [Path.mkdir] in [__init__], and
    [unlink] in [_load_from_disk] and in [delete].  Whether they succeed
    is a parameter of the model.  Everything [_save_to_disk] does is
    wrapped in [try ... except Exception: pass]. *)

(** What reading one [*.cache] entry gives: [open] fails ([Unreadable],
    also for a sub-directory of that name); [json.load], ['key'],
    ['entry'] or the comparison with ['expires'] fails ([Corrupt]); or the
    file holds a key and its entry. *)
Inductive FileContent (V : Type) : Type :=
  | Unreadable
  | Corrupt
  | Stored (key : string) (entry : Entry V).
Arguments Unreadable {V}.
Arguments Corrupt {V}.
Arguments Stored {V}.

Record PersistentCache (V : Type) : Type := mkPersistent {
  mem : SimpleCache V;
  (** [cache_dir]: [None] while the directory does not exist, otherwise
      its [*.cache] entries. *)
  cache_dir : option (list (string * FileContent V))
}.
Arguments mkPersistent {V}.
Arguments mem {V}.
Arguments cache_dir {V}.

Module Persistent.
Section persistent_cache.
Context {V : Type}.

(** Whether [Path.mkdir(exist_ok=True)] succeeds where [cache_dir] is no
    directory yet: it raises when the parent is missing, when the path is a
    regular file and when the permission is denied. *)
Variable can_mkdir : bool.

(** Whether [unlink] of the entry of that name succeeds: it raises on a
    sub-directory and in a directory that cannot be written. *)
Variable can_unlink : string -> bool.

(** One iteration of the loop of [_load_from_disk], on the entry
    [cache_file]; the state is [self._cache] and the directory.  [None] is
    the exception of an [unlink] that fails: in the [except] handler
    nothing catches it, and when the [unlink] of an expired file raises
    inside the [try], the handler calls [unlink] again, which raises
    again. *)
Definition load_file (current_time : Z)
    (st : list (string * Entry V) * list (string * FileContent V))
    (cache_file : string * FileContent V)
  : option (list (string * Entry V) * list (string * FileContent V)) :=
  match cache_file.2 with
  | Stored key entry =>
      if current_time <? expires entry
      then Some (dict_set key entry st.1, st.2)
      else if can_unlink cache_file.1
           then Some (st.1, dict_del cache_file.1 st.2)
           else None
  | Unreadable | Corrupt =>
      if can_unlink cache_file.1
      then Some (st.1, dict_del cache_file.1 st.2)
      else None
  end.

(** The loop [for cache_file in self.cache_dir.glob("*.cache")]: an
    exception ends it. *)
Fixpoint load_files (current_time : Z)
    (st : list (string * Entry V) * list (string * FileContent V))
    (files : list (string * FileContent V))
  : option (list (string * Entry V) * list (string * FileContent V)) :=
  match files with
  | [] => Some st
  | cache_file :: rest =>
      st' ← load_file current_time st cache_file;
      load_files current_time st' rest
  end.

(** [_load_from_disk]; [None] is an exception. *)
Definition _load_from_disk (current_time : Z) (p : PersistentCache V)
  : option (PersistentCache V) :=
  match cache_dir p with
  | None => Some p
  | Some files =>
      st ← load_files current_time (_cache (mem p), files) files;
      Some (mkPersistent (Cache.with_cache (mem p) st.1) (Some st.2))
  end.

(** [Path.mkdir(exist_ok=True)]: the directory afterwards, [None] when it
    raises. *)
Definition mkdir (dir : option (list (string * FileContent V)))
  : option (list (string * FileContent V)) :=
  match dir with
  | Some files => Some files
  | None => if can_mkdir then Some [] else None
  end.

(** [__init__]: [disk] is the directory found at [cache_dir], [None] when
    there is none.  [None] is an exception: the caller gets no cache. *)
Definition init (current_time : Z)
    (disk : option (list (string * FileContent V)))
    (default_ttl max_size : Z) : option (PersistentCache V) :=
  files ← mkdir disk;
  _load_from_disk current_time
    (mkPersistent (Cache.init default_ttl max_size) (Some files)).

(** [_get_file_path]: the name of the file of a key (the md5 digest of the
    key, with the suffix [.cache]). *)
Variable file_of_key : string -> string.

(** What a later read finds in a file once [json.dump] has been run on
    [{'key': key, 'entry': entry}]: [Stored key entry'] with the JSON image
    [entry'] of the entry, or [Corrupt] when [dump] raised after [open] had
    truncated the file. *)
Variable dumped : string -> Entry V -> FileContent V.

(** Whether [open(file_path, 'w')] succeeds; it fails in a directory that
    does not exist. *)
Variable can_write : string -> bool.

(** [_save_to_disk]: every exception is swallowed. *)
Definition _save_to_disk (key : string) (p : PersistentCache V)
  : PersistentCache V :=
  match dict_get key (_cache (mem p)) with
  | Some entry =>
      let file_path := file_of_key key in
      match cache_dir p with
      | Some files =>
          if can_write file_path
          then mkPersistent (mem p)
                 (Some (dict_set file_path (dumped key entry) files))
          else p
      | None => p
      end
  | None => p
  end.

(** [PersistentCache.set] *)
Definition set (now : Z) (key : string) (v : V) (ttl : option Z)
    (p : PersistentCache V) : PersistentCache V :=
  _save_to_disk key (mkPersistent (Cache.set now key v ttl (mem p)) (cache_dir p)).

(** [PersistentCache.delete]: the value returned, [None] when [unlink]
    raises, and the state afterwards; [super().delete] has removed the
    entry from memory before the file is touched.  [file_path.exists()] is
    the file being listed. *)
Definition delete (key : string) (p : PersistentCache V)
  : option bool * PersistentCache V :=
  let (result, m) := Cache.delete key (mem p) in
  if result then
    let file_path := file_of_key key in
    match cache_dir p with
    | Some files =>
        if dict_in file_path files then
          if can_unlink file_path
          then (Some true, mkPersistent m (Some (dict_del file_path files)))
          else (None, mkPersistent m (Some files))
        else (Some true, mkPersistent m (Some files))
    | None => (Some true, mkPersistent m None)
    end
  else (Some false, mkPersistent m (cache_dir p)).
End persistent_cache.
End Persistent.

(** ** Python library functions the holiday tools call *)

Module Py.
Local Open Scope string_scope.
Local Open Scope Z_scope.

(** *** [datetime.date]: the proleptic Gregorian calendar of
    [Lib/_pydatetime.py] *)
Record date : Type := mkDate { year : Z; month : Z; day : Z }.

Definition _is_leap (y : Z) : bool :=
  (y mod 4 =? 0) && (negb (y mod 100 =? 0) || (y mod 400 =? 0)).

Definition _days_before_year (y : Z) : Z :=
  let y := y - 1 in y * 365 + y / 4 - y / 100 + y / 400.

Definition _DAYS_IN_MONTH : list Z :=
  [-1; 31; 28; 31; 30; 31; 30; 31; 31; 30; 31; 30; 31].
Definition _DAYS_BEFORE_MONTH : list Z :=
  [-1; 0; 31; 59; 90; 120; 151; 181; 212; 243; 273; 304; 334].

Definition _days_in_month (y m : Z) : Z :=
  if (m =? 2) && _is_leap y then 29
  else nth (Z.to_nat m) _DAYS_IN_MONTH 0.

Definition _days_before_month (y m : Z) : Z :=
  nth (Z.to_nat m) _DAYS_BEFORE_MONTH 0
  + (if (2 <? m) && _is_leap y then 1 else 0).

Definition _ymd2ord (y m d : Z) : Z :=
  _days_before_year y + _days_before_month y m + d.

(** [_check_date_fields]: whether [date(y, m, d)] is accepted. *)
Definition valid_date (y m d : Z) : bool :=
  (1 <=? y) && (y <=? 9999) && (1 <=? m) && (m <=? 12)
  && (1 <=? d) && (d <=? _days_in_month y m).

Definition toordinal (a : date) : Z := _ymd2ord (year a) (month a) (day a).

(** [date.weekday()]: Monday is 0, Sunday is 6. *)
Definition weekday (a : date) : Z := (toordinal a + 6) mod 7.

(** [a > b] on dates compares [(year, month, day)]. *)
Definition date_gt (a b : date) : bool :=
  (year b <? year a)
  || ((year b =? year a)
      && ((month b <? month a)
          || ((month b =? month a) && (day b <? day a)))).

(** [(a - b).days] *)
Definition days_between (a b : date) : Z := toordinal a - toordinal b.

(** *** [datetime.strptime(s, "%Y-%m-%d")]

    A string is the string of the bytes of its UTF-8 encoding, and a digit
    is an ASCII digit.  The format compiles to the regular expression
    [(\d\d\d\d)-(1[0-2]|0[1-9]|[1-9])-(3[01]|[12]\d|0[1-9]|[1-9]| [1-9])],
    which has to consume the whole string, and the three numbers have to
    form a date.  On an ASCII string ([isascii]) [strptime] and [int] are
    what Python computes.  On other strings they reject, where Python
    accepts the decimal digits and the blanks of other scripts as well: the
    statements use them on ASCII strings, or where they accept, which only
    ASCII strings make them do. *)
Definition digit (c : ascii) : option Z :=
  let n := Z.of_nat (nat_of_ascii c) in
  if (48 <=? n) && (n <=? 57) then Some (n - 48) else None.

(** [%m]: [1[0-2]|0[1-9]|[1-9]] *)
Definition parse_m (s : string) : option Z :=
  match s with
  | String a "" =>
      da ← digit a; if 1 <=? da then Some da else None
  | String a (String b "") =>
      da ← digit a; db ← digit b;
      if (da =? 1) && (db <=? 2) then Some (10 + db)
      else if (da =? 0) && (1 <=? db) then Some db
      else None
  | _ => None
  end.

(** [%d]: [3[01]|[12]\d|0[1-9]|[1-9]| [1-9]] *)
Definition parse_d (s : string) : option Z :=
  match s with
  | String a "" =>
      da ← digit a; if 1 <=? da then Some da else None
  | String a (String b "") =>
      db ← digit b;
      if Ascii.eqb a " " then (if 1 <=? db then Some db else None)
      else
        da ← digit a;
        if (da =? 3) && (db <=? 1) then Some (30 + db)
        else if (1 <=? da) && (da <=? 2) then Some (10 * da + db)
        else if (da =? 0) && (1 <=? db) then Some db
        else None
  | _ => None
  end.

(** [s.split('-')], as its first piece and the remainder after the first
    dash ([None] when there is no dash). *)
Fixpoint split_dash (s : string) : string * option string :=
  match s with
  | "" => ("", None)
  | String c s' =>
      if Ascii.eqb c "-" then ("", Some s')
      else let r := split_dash s' in (String c r.1, r.2)
  end.

Definition strptime (s : string) : option date :=
  match s with
  | String y1 (String y2 (String y3 (String y4 (String dash rest)))) =>
      d1 ← digit y1; d2 ← digit y2; d3 ← digit y3; d4 ← digit y4;
      if Ascii.eqb dash "-" then
        let md := split_dash rest in
        m ← parse_m md.1;
        ds ← md.2;
        d ← parse_d ds;
        let y := 1000 * d1 + 100 * d2 + 10 * d3 + d4 in
        if valid_date y m d then Some (mkDate y m d) else None
      else None
  | _ => None
  end.

(** *** [int(s)] on a string

    Optional blanks around (space, tab, newline, vertical tab, form feed,
    carriage return), an optional sign, then decimal digits, where single
    underscores may separate digits; [None] is [ValueError]. *)
Definition is_space (c : ascii) : bool :=
  let n := nat_of_ascii c in
  (((9 <=? n) && (n <=? 13)) || (n =? 32))%nat.

Fixpoint lstrip (s : string) : string :=
  match s with
  | String c s' => if is_space c then lstrip s' else s
  | "" => ""
  end.

Definition is_digit (c : ascii) : bool :=
  match digit c with Some _ => true | None => false end.

(** The digits of a literal whose blanks and sign are gone; [prev] tells
    whether the previous character was a digit. *)
Fixpoint int_digits (acc : Z) (prev : bool) (s : string) : option Z :=
  match s with
  | "" => if prev then Some acc else None
  | String c s' =>
      match digit c with
      | Some d => int_digits (10 * acc + d) true s'
      | None =>
          if Ascii.eqb c "_" && prev then
            match s' with
            | String c' _ =>
                if is_digit c' then int_digits acc false s' else None
            | "" => None
            end
          else if is_space c && prev then
            (if String.eqb (lstrip s') "" then Some acc else None)
          else None
      end
  end.

(** The number of digits of a literal: CPython refuses to convert more
    than 4300 of them ([sys.int_info.default_max_str_digits]). *)
Fixpoint count_digits (s : string) : Z :=
  match s with
  | "" => 0
  | String c s' => (if is_digit c then 1 else 0) + count_digits s'
  end.

Definition int (s : string) : option Z :=
  if 4300 <? count_digits s then None
  else
    match lstrip s with
    | String c s' =>
        if Ascii.eqb c "-" then Z.opp <$> int_digits 0 false s'
        else if Ascii.eqb c "+" then int_digits 0 false s'
        else int_digits 0 false (String c s')
    | "" => None
    end.

(** [s.isascii()] *)
Fixpoint isascii (s : string) : bool :=
  match s with
  | "" => true
  | String c s' => (nat_of_ascii c <? 128)%nat && isascii s'
  end.

(** *** [str(n)] and the format [{n:02d}] of an integer *)
Definition str_int (n : Z) : string :=
  DecimalString.NilZero.string_of_int (Z.to_int n).

(** Sign-aware zero padding to width two. *)
Definition format_02d (n : Z) : string :=
  if (0 <=? n) && (n <? 10) then String "0" (str_int n) else str_int n.

(** [f"{year}-{month:02d}-{day:02d}"] *)
Definition format_date (year month day : Z) : string :=
  str_int year ++ "-" ++ format_02d month ++ "-" ++ format_02d day.
End Py.

(** ** The yearly feed and the answers of the tools *)

(** One element of the feed's ['days'] list.  It is a JSON object read
    with [.get] and [[...]], so every key may be missing ([None]).  The
    records are typed, as in the specification: a value that is there has
    the type of its field (a string for [date], [name] and [note], a
    boolean for [isOffDay], a list of records for ['days']).  A value of
    another type, JSON [null] included, is not a record of the model. *)
Module Feed.
Record DayRecord : Type := mkDay {
  date : option string;
  isOffDay : option bool;
  name : option string;
  note : option string
}.

(** The JSON object of one year: its ['days'] list, when the key is
    there, and whether it has any other key. *)
Record YearData : Type := mkYear {
  other_keys : bool;
  days : option (list DayRecord)
}.
End Feed.
Import Feed (DayRecord, YearData, mkDay, mkYear).

(** [bool(holiday_data)] of a dict: it has at least one key. *)
Definition truthy (d : YearData) : bool :=
  Feed.other_keys d || bool_decide (is_Some (Feed.days d)).

(** [not holiday_data], where the data may be [None]. *)
Definition unusable (o : option YearData) : bool :=
  match o with
  | Some d => negb (truthy d)
  | None => true
  end.

(** [holiday_data.get('days', [])] *)
Definition days_of (d : YearData) : list DayRecord := default [] (Feed.days d).

(** [day.get('isOffDay', False)] *)
Definition off_day (day : DayRecord) : bool := default false (Feed.isOffDay day).

(** The truth value of [day.get('name')]: present and not empty. *)
Definition has_name (day : DayRecord) : bool :=
  match Feed.name day with
  | Some s => negb (String.eqb s "")
  | None => false
  end.

(** The two mirrors a year is requested from. *)
Inductive Source : Type := PRIMARY_DATA_SOURCE | BACKUP_DATA_SOURCE.

(** The error objects the tools return, by their message. *)
Inductive ToolError : Type :=
  | NoHolidayData      (* 无节假日数据 *)
  | CannotGetData      (* 无法获取节假日数据 *)
  | NoNextHoliday      (* 未找到下一个节假日 *)
  | NoFutureHoliday    (* 未找到未来的节假日 *)
  | BadDateFormat      (* 日期格式错误，请使用YYYY-MM-DD格式 *)
  | QueryFailed.       (* 查询失败: ... , from the outer [except Exception] *)

Definition error_text (e : ToolError) : string :=
  match e with
  | NoHolidayData => "无节假日数据"
  | CannotGetData => "无法获取节假日数据"
  | NoNextHoliday => "未找到下一个节假日"
  | NoFutureHoliday => "未找到未来的节假日"
  | BadDateFormat => "日期格式错误，请使用YYYY-MM-DD格式"
  | QueryFailed => "查询失败: "
  end.

(** The kinds of failure of the specification, and the kind each message
    reports. *)
Inductive ErrorKind : Type :=
  | DataUnavailable | NoUpcomingHoliday | InvalidInput | InternalFault.

Definition error_kind (e : ToolError) : ErrorKind :=
  match e with
  | NoHolidayData | CannotGetData => DataUnavailable
  | NoNextHoliday | NoFutureHoliday => NoUpcomingHoliday
  | BadDateFormat => InvalidInput
  | QueryFailed => InternalFault
  end.

Inductive result (A : Type) : Type :=
  | Ok (a : A)
  | Err (e : ToolError).
Arguments Ok {A}.
Arguments Err {A}.

(** The answer of [holiday_info]; the script's has no [weekday_name_en]. *)
Record HolidayInfo : Type := mkInfo {
  hi_date : string;
  hi_name : string;
  hi_type : string;
  hi_is_holiday : bool;
  hi_is_work_day : bool;
  hi_note : string;
  hi_weekday_name_en : option string
}.

(** One element of ['holidays']; the script copies [day.get('date')], which
    may be [None], and has no [weekday_name_en]. *)
Record HolidayItem : Type := mkItem {
  it_date : option string;
  it_name : string;
  it_note : string;
  it_weekday_name_en : option string
}.

Record YearHolidays : Type := mkYearHolidays {
  yh_year : Z;
  yh_holidays : list HolidayItem;
  yh_total_count : nat
}.

Record NextHoliday : Type := mkNext {
  nh_date : option string;
  nh_name : string;
  nh_note : string;
  nh_days_until : Z;
  nh_weekday_name_en : option string
}.

Definition weekdays_en : list string :=
  ["Monday"; "Tuesday"; "Wednesday"; "Thursday";
   "Friday"; "Saturday"; "Sunday"]%string.

(** [weekdays_en[date_obj.weekday()]] *)
Definition weekday_name (d : Py.date) : string :=
  nth (Z.to_nat (Py.weekday d)) weekdays_en ""%string.

(** The first [day] of the loop [for day in days: if day.get('date') ==
    date: date_info = day; break]. *)
Fixpoint find_date (date : string) (days : list DayRecord) : option DayRecord :=
  match days with
  | [] => None
  | day :: rest =>
      if bool_decide (Feed.date day = Some date) then Some day
      else find_date date rest
  end.

(** The two branches of [holiday_info] / [get_holiday_info] after the
    search, up to [weekday_name_en]. *)
Definition info_of_record (date : string) (date_info : DayRecord)
    (wd : option string) : HolidayInfo :=
  let is_holiday := off_day date_info in
  mkInfo date (default ""%string (Feed.name date_info))
         (if is_holiday then "holiday" else "work")%string
         is_holiday (negb is_holiday)
         (default ""%string (Feed.note date_info)) wd.

Definition info_of_weekday (date : string) (date_obj : Py.date)
    (wd : option string) : HolidayInfo :=
  let is_weekend := 5 <=? Py.weekday date_obj in
  mkInfo date "普通日"%string "normal"%string is_weekend (negb is_weekend)
         (if is_weekend then "周末" else "工作日")%string wd.

(** The answer of the work-day tools: ['work_days'] has the elements of
    ['holidays']. *)
Record YearWorkDays : Type := mkYearWorkDays {
  yw_year : Z;
  yw_work_days : list HolidayItem;
  yw_total_count : nat
}.

(** The answer of the server's [get_weekday]. *)
Record WeekdayInfo : Type := mkWeekdayInfo {
  wi_date : string;
  wi_weekday_index : Z;
  wi_weekday_name_cn : string;
  wi_weekday_name_en : string;
  wi_is_weekend : bool
}.

(** The answer of the script's [is_holiday]. *)
Record IsHoliday : Type := mkIsHoliday {
  ih_date : string;
  ih_is_holiday : bool;
  ih_is_work_day : bool;
  ih_type : string;
  ih_name : string
}.

(** The answer of the script's [get_holiday_countdown]. *)
Record Countdown : Type := mkCountdown {
  cd_next_holiday : string;
  cd_date : option string;
  cd_days_until : Z;
  cd_note : string
}.

Definition weekdays_cn : list string :=
  ["星期一"; "星期二"; "星期三"; "星期四";
   "星期五"; "星期六"; "星期日"]%string.

(** ** [server_fastmcp.py]: the holiday tools of the MCP server

    [http src year] is what one GET of the year's file from mirror [src]
    gives: [Some data] for status 200 with a JSON body, [None] for any other
    status or an exception.  The module-level [_holiday_cache] is threaded
    through every tool as a map from the year. *)

Module Server.
Section tools.
Variable http : Source -> Z -> option YearData.

(** The loop [for url in urls] of [fetch_holiday_data]. *)
Fixpoint try_urls (year : Z) (urls : list Source) (cache : gmap Z YearData)
  : option YearData * gmap Z YearData :=
  match urls with
  | [] => (None, cache)
  | url :: rest =>
      match http url year with
      | Some data => (Some data, <[year := data]> cache)
      | None => try_urls year rest cache
      end
  end.

Definition fetch_holiday_data (year : Z) (cache : gmap Z YearData)
  : option YearData * gmap Z YearData :=
  match cache !! year with
  | Some data => (Some data, cache)
  | None => try_urls year [PRIMARY_DATA_SOURCE; BACKUP_DATA_SOURCE] cache
  end.

(** [holiday_info(date)]; [now_str] is [datetime.now().strftime(...)].
    A missing or empty [date] is replaced by [now_str]. *)
Definition holiday_info (now_str : string) (date : option string)
    (cache : gmap Z YearData) : result HolidayInfo * gmap Z YearData :=
  let date :=
    match date with
    | Some s => if String.eqb s "" then now_str else s
    | None => now_str
    end in
  match Py.strptime date with
  | None => (Err BadDateFormat, cache)
  | Some date_obj =>
      let weekday_name_en := weekday_name date_obj in
      match Py.int (Py.split_dash date).1 with
      | None => (Err QueryFailed, cache)
      | Some year =>
          let (holiday_data, cache) := fetch_holiday_data year cache in
          match holiday_data with
          | Some data =>
              if truthy data then
                match find_date date (days_of data) with
                | Some date_info =>
                    (Ok (info_of_record date date_info (Some weekday_name_en)),
                     cache)
                | None =>
                    (Ok (info_of_weekday date date_obj (Some weekday_name_en)),
                     cache)
                end
              else (Err CannotGetData, cache)
          | None => (Err CannotGetData, cache)
          end
      end
  end.

(** The element [current_year_holidays] appends for [day]; [None] when
    [day['date']] raises [KeyError].  A date that does not parse only
    empties [weekday_name_en]. *)
Definition holiday_item (day : DayRecord) : option HolidayItem :=
  let weekday_name_en :=
    match Feed.date day ≫= Py.strptime with
    | Some date_obj => weekday_name date_obj
    | None => ""%string
    end in
  d ← Feed.date day;
  Some (mkItem (Some d) (default ""%string (Feed.name day))
               (default ""%string (Feed.note day)) (Some weekday_name_en)).

(** The loop of [current_year_holidays]; [None] is an exception. *)
Fixpoint collect_holidays (days : list DayRecord) : option (list HolidayItem) :=
  match days with
  | [] => Some []
  | day :: rest =>
      if off_day day && has_name day then
        item ← holiday_item day;
        items ← collect_holidays rest;
        Some (item :: items)
      else collect_holidays rest
  end.

(** [current_year_holidays()]; [current_year] is [datetime.now().year]. *)
Definition current_year_holidays (current_year : Z) (cache : gmap Z YearData)
  : result YearHolidays * gmap Z YearData :=
  let (holiday_data, cache) := fetch_holiday_data current_year cache in
  match holiday_data with
  | Some data =>
      if truthy data then
        match collect_holidays (days_of data) with
        | Some holidays =>
            (Ok (mkYearHolidays current_year holidays (length holidays)), cache)
        | None => (Err QueryFailed, cache)
        end
      else (Err CannotGetData, cache)
  | None => (Err CannotGetData, cache)
  end.

(** The first loop of [next_holiday], over this year's days: the outer
    [None] is an exception of [day['date']] or of [strptime]. *)
Fixpoint scan_current (today : Py.date) (days : list DayRecord)
  : option (option DayRecord) :=
  match days with
  | [] => Some None
  | day :: rest =>
      if off_day day && has_name day then
        holiday_date ← Feed.date day ≫= Py.strptime;
        if Py.date_gt holiday_date today then Some (Some day)
        else scan_current today rest
      else scan_current today rest
  end.

(** The second loop, over next year's days. *)
Fixpoint scan_next (days : list DayRecord) : option DayRecord :=
  match days with
  | [] => None
  | day :: rest =>
      if off_day day && has_name day then Some day else scan_next rest
  end.

(** The answer built from the record found; [None] is an exception. *)
Definition next_answer (today : Py.date) (next_holiday_info : DayRecord)
  : option NextHoliday :=
  d ← Feed.date next_holiday_info;
  holiday_date ← Py.strptime d;
  n ← Feed.name next_holiday_info;
  Some (mkNext (Some d) n (default ""%string (Feed.note next_holiday_info))
               (Py.days_between holiday_date today)
               (Some (weekday_name holiday_date))).

Definition answer_or_fail (today : Py.date) (found : option DayRecord)
  : result NextHoliday :=
  match found with
  | None => Err NoNextHoliday
  | Some next_holiday_info =>
      match next_answer today next_holiday_info with
      | Some r => Ok r
      | None => Err QueryFailed
      end
  end.

(** [next_holiday()]; [today] is [datetime.now().date()]. *)
Definition next_holiday (today : Py.date) (cache : gmap Z YearData)
  : result NextHoliday * gmap Z YearData :=
  let current_year := Py.year today in
  let (holiday_data, cache) := fetch_holiday_data current_year cache in
  match holiday_data with
  | Some data =>
      if truthy data then
        match scan_current today (days_of data) with
        | None => (Err QueryFailed, cache)
        | Some (Some next_holiday_info) =>
            (answer_or_fail today (Some next_holiday_info), cache)
        | Some None =>
            let (next_year_data, cache) :=
              fetch_holiday_data (current_year + 1) cache in
            let found :=
              match next_year_data with
              | Some data' =>
                  if truthy data' then scan_next (days_of data') else None
              | None => None
              end in
            (answer_or_fail today found, cache)
        end
      else (Err CannotGetData, cache)
  | None => (Err CannotGetData, cache)
  end.
(** The loop of [current_year_work_days], with its test
    [not day.get('isOffDay', True) and day.get('name')]: a record counts
    when [isOffDay] is there and false, and the name is not empty. *)
Fixpoint collect_work_days (days : list DayRecord) : option (list HolidayItem) :=
  match days with
  | [] => Some []
  | day :: rest =>
      if negb (default true (Feed.isOffDay day)) && has_name day then
        item ← holiday_item day;
        items ← collect_work_days rest;
        Some (item :: items)
      else collect_work_days rest
  end.

(** [current_year_work_days()] *)
Definition current_year_work_days (current_year : Z) (cache : gmap Z YearData)
  : result YearWorkDays * gmap Z YearData :=
  let (holiday_data, cache) := fetch_holiday_data current_year cache in
  match holiday_data with
  | Some data =>
      if truthy data then
        match collect_work_days (days_of data) with
        | Some work_days =>
            (Ok (mkYearWorkDays current_year work_days (length work_days)), cache)
        | None => (Err QueryFailed, cache)
        end
      else (Err CannotGetData, cache)
  | None => (Err CannotGetData, cache)
  end.

(** [get_weekday(year, month, day)]: [datetime(year, month, day)] raises
    on what is no date, and the tool then answers with its error. *)
Definition get_weekday (year month day : Z) : result WeekdayInfo :=
  if Py.valid_date year month day then
    let date_obj := Py.mkDate year month day in
    let weekday_index := Py.weekday date_obj in
    Ok (mkWeekdayInfo (Py.format_date year month day)
                      (weekday_index + 1)
                      (nth (Z.to_nat weekday_index) weekdays_cn ""%string)
                      (nth (Z.to_nat weekday_index) weekdays_en ""%string)
                      (5 <=? weekday_index))
  else Err QueryFailed.
End tools.
End Server.

(** ** [scripts/holiday_query.py]: the same queries as a script tool

    The script keeps two module-level dicts, [holiday_cache] and
    [cache_expiry]; the clock of [pendulum.now] counts seconds, and every
    reading of it is an argument. *)

Record ScriptCache : Type := mkScriptCache {
  holiday_cache : gmap Z YearData;
  cache_expiry : gmap Z Z
}.

Module Script.
Section tools.
Variable http : Source -> Z -> option YearData.

Fixpoint try_urls (current_time year : Z) (urls : list Source)
    (st : ScriptCache) : option YearData * ScriptCache :=
  match urls with
  | [] => (None, st)
  | url :: rest =>
      match http url year with
      | Some data =>
          (Some data,
           mkScriptCache (<[year := data]> (holiday_cache st))
                         (<[year := current_time + 24 * 3600]> (cache_expiry st)))
      | None => try_urls current_time year rest st
      end
  end.

Definition fetch_holiday_data (current_time year : Z) (st : ScriptCache)
  : option YearData * ScriptCache :=
  let miss :=
    try_urls current_time year [PRIMARY_DATA_SOURCE; BACKUP_DATA_SOURCE] st in
  match holiday_cache st !! year, cache_expiry st !! year with
  | Some data, Some expiry =>
      if current_time <? expiry then (Some data, st) else miss
  | _, _ => miss
  end.

(** [if holiday_data:] *)
Definition usable_days (o : option YearData) : list DayRecord :=
  match o with
  | Some data => if truthy data then days_of data else []
  | None => []
  end.

(** [get_date_year]: [current_year] is only read when [int] raises. *)
Definition get_date_year (current_year : Z) (date_str : string) : Z :=
  default current_year (Py.int (Py.split_dash date_str).1).

(** [get_holiday_info(date_str)] *)
Definition get_holiday_info (current_time current_year : Z)
    (date_str : string) (st : ScriptCache) : result HolidayInfo * ScriptCache :=
  let year := get_date_year current_year date_str in
  let (holiday_data, st) := fetch_holiday_data current_time year st in
  match holiday_data with
  | Some data =>
      if truthy data then
        match find_date date_str (days_of data) with
        | Some date_info => (Ok (info_of_record date_str date_info None), st)
        | None =>
            match Py.strptime date_str with
            | Some date_obj => (Ok (info_of_weekday date_str date_obj None), st)
            | None => (Err QueryFailed, st)
            end
        end
      else (Err NoHolidayData, st)
  | None => (Err NoHolidayData, st)
  end.

Definition holiday_item (day : DayRecord) : HolidayItem :=
  mkItem (Feed.date day) (default ""%string (Feed.name day))
         (default ""%string (Feed.note day)) None.

(** [get_current_year_holidays()]; [year] is [get_current_year()]. *)
Definition get_current_year_holidays (current_time year : Z)
    (st : ScriptCache) : result YearHolidays * ScriptCache :=
  let (holiday_data, st) := fetch_holiday_data current_time year st in
  match holiday_data with
  | Some data =>
      if truthy data then
        let holidays :=
          holiday_item <$> filter (fun day => off_day day = true) (days_of data) in
        (Ok (mkYearHolidays year holidays (length holidays)), st)
      else (Err CannotGetData, st)
  | None => (Err CannotGetData, st)
  end.

(** The loop [for holiday in all_holidays] of [get_next_holiday]; the
    outer [None] is the [TypeError] of comparing [None] with a string. *)
Fixpoint scan (current_date : string) (all_holidays : list DayRecord)
  : option (option DayRecord) :=
  match all_holidays with
  | [] => Some None
  | holiday :: rest =>
      holiday_date ← Feed.date holiday;
      if String.ltb current_date holiday_date then Some (Some holiday)
      else scan current_date rest
  end.

Definition next_answer (current_date : string) (next_holiday : DayRecord)
  : option NextHoliday :=
  d ← Feed.date next_holiday;
  holiday_date ← Py.strptime d;
  current_date_obj ← Py.strptime current_date;
  Some (mkNext (Some d) (default ""%string (Feed.name next_holiday))
               (default ""%string (Feed.note next_holiday))
               (Py.days_between holiday_date current_date_obj) None).

(** [get_next_holiday()]: [current_date] is the formatted
    [pendulum.now], [current_year] is [get_current_year()], and [t1],
    [t2] are the clocks of the two fetches. *)
Definition get_next_holiday (current_date : string) (current_year t1 t2 : Z)
    (st : ScriptCache) : result NextHoliday * ScriptCache :=
  let (holiday_data, st) := fetch_holiday_data t1 current_year st in
  let (next_year_data, st) := fetch_holiday_data t2 (current_year + 1) st in
  let all_holidays :=
    filter (fun day => off_day day = true) (usable_days holiday_data)
    ++ filter (fun day => off_day day = true) (usable_days next_year_data) in
  match scan current_date all_holidays with
  | None => (Err QueryFailed, st)
  | Some None => (Err NoFutureHoliday, st)
  | Some (Some next_holiday) =>
      match next_answer current_date next_holiday with
      | Some r => (Ok r, st)
      | None => (Err QueryFailed, st)
      end
  end.
(** [is_holiday(date_str)] *)
Definition is_holiday (current_time current_year : Z) (date_str : string)
    (st : ScriptCache) : result IsHoliday * ScriptCache :=
  let (holiday_info, st) := get_holiday_info current_time current_year date_str st in
  match holiday_info with
  | Err e => (Err e, st)
  | Ok info =>
      (Ok (mkIsHoliday date_str (hi_is_holiday info) (hi_is_work_day info)
                       (hi_type info) (hi_name info)), st)
  end.

(** [get_current_year_work_days()]: a missing [isOffDay] counts as false. *)
Definition get_current_year_work_days (current_time year : Z)
    (st : ScriptCache) : result YearWorkDays * ScriptCache :=
  let (holiday_data, st) := fetch_holiday_data current_time year st in
  match holiday_data with
  | Some data =>
      if truthy data then
        let work_days :=
          holiday_item
            <$> filter (fun day => negb (off_day day) && has_name day = true)
                       (days_of data) in
        (Ok (mkYearWorkDays year work_days (length work_days)), st)
      else (Err CannotGetData, st)
  | None => (Err CannotGetData, st)
  end.

(** [get_holiday_countdown()] *)
Definition get_holiday_countdown (current_date : string) (current_year t1 t2 : Z)
    (st : ScriptCache) : result Countdown * ScriptCache :=
  let (next_holiday_info, st) :=
    get_next_holiday current_date current_year t1 t2 st in
  match next_holiday_info with
  | Err e => (Err e, st)
  | Ok r =>
      (Ok (mkCountdown (nh_name r) (nh_date r) (nh_days_until r) (nh_note r)), st)
  end.
End tools.
End Script.

(** ** [cache.py]: the decorator [cache_result]

    [_global_cache] is the memory cache ([CACHE_TYPE] is ['memory'] unless
    the environment says otherwise).  A cached value is a Python value, so
    [None] is one of them: the cache holds [option R], and [func] returns
    [None] for Python's [None].  [default_key] is the key built from the
    function's name and the printed arguments. *)

Module CacheAside.
Section cache_result.
Context {A R : Type}.
Variable CACHE_ENABLED : bool.
Variable CACHE_TTL : Z.
Variable default_key : A -> string.
(** The arguments of the decorator, and the decorated function. *)
Variable ttl : option Z.
Variable key_func : option (A -> string).
Variable enabled : bool.
Variable func : A -> option R.

(** [ttl or CACHE_TTL]: a [ttl] of [0] is falsy. *)
Definition ttl_or_default : Z :=
  match ttl with
  | Some t => if t =? 0 then CACHE_TTL else t
  | None => CACHE_TTL
  end.

Definition cache_key (args : A) : string :=
  match key_func with
  | Some f => f args
  | None => default_key args
  end.

(** [wrapper]: the value returned, whether [func] was called, and
    the cache afterwards.  [t_get] and [t_get'] are the clocks of the
    [get], [t_set] the clock of the [set]. *)
Definition wrapper (t_get t_get' t_set : Z) (args : A)
    (cache : SimpleCache (option R))
  : option R * bool * SimpleCache (option R) :=
  if negb CACHE_ENABLED || negb enabled then (func args, true, cache)
  else
    let key := cache_key args in
    let (cached_result, cache) := Cache.get t_get t_get' key cache in
    match cached_result with
    | Some (Some r) => (Some r, false, cache)
    | Some None | None =>
        let result := func args in
        (result, true, Cache.set t_set key result (Some ttl_or_default) cache)
    end.
End cache_result.
End CacheAside.

(** ** Histories of a cache, and the vocabulary of the statements *)

(** One call on a [SimpleCache], with the clock readings it makes. *)
Inductive Op (V : Type) : Type :=
  | OpSet (now : Z) (key : string) (v : V) (ttl : option Z)
  | OpGet (now now' : Z) (key : string)
  | OpDelete (key : string)
  | OpClear
  | OpCleanup (now : Z).
Arguments OpSet {V}.
Arguments OpGet {V}.
Arguments OpDelete {V}.
Arguments OpClear {V}.
Arguments OpCleanup {V}.

Definition step {V : Type} (c : SimpleCache V) (op : Op V) : SimpleCache V :=
  match op with
  | OpSet now key v ttl => Cache.set now key v ttl c
  | OpGet now now' key => (Cache.get now now' key c).2
  | OpDelete key => (Cache.delete key c).2
  | OpClear => Cache.clear c
  | OpCleanup now => (Cache.cleanup now c).2
  end.

(** The store after the calls [ops], made in order. *)
Definition run {V : Type} (ops : list (Op V)) (c : SimpleCache V) : SimpleCache V :=
  foldl step c ops.

(** [len(self._cache)] *)
Definition size {V : Type} (c : SimpleCache V) : Z := Z.of_nat (length (_cache c)).

(** The four counters of a store. *)
Definition counters {V : Type} (c : SimpleCache V) : nat * nat * nat * nat :=
  (_hits c, _misses c, _sets c, _deletes c).

(** [e] is an oldest entry of [d]: no entry was accessed before it. *)
Definition oldest_in {V : Type} (d : list (string * Entry V)) (e : Entry V) : Prop :=
  forall k' e', dict_get k' d = Some e' -> last_accessed e <= last_accessed e'.

(** The entry [set] stores. *)
Definition fresh_entry {V : Type} (now : Z) (v : V) (ttl : Z) : Entry V :=
  mkEntry v (now + ttl) now now 0.

(** The entry a hit of [get] leaves: only [last_accessed] changes. *)
Definition touched {V : Type} (now' : Z) (e : Entry V) : Entry V :=
  mkEntry (value e) (expires e) (created e) now' (access_count e).

(** The invariant of a store of capacity [ms]. *)
Definition cache_inv {V : Type} (ms : Z) (c : SimpleCache V) : Prop :=
  dict_wf (_cache c) /\ max_size c = ms /\ size c <= ms.

(** The stores and histories the statements are tried on. *)
Definition two_sets : list (Op nat) :=
  [OpSet 0 "a" 1%nat None; OpSet 5 "b" 2%nat (Some 60)].

Definition one_set : list (Op nat) := [OpSet 0 "a" 1%nat None].

(** Two entries stored at the same time: neither was accessed before the
    other. *)
Definition two_sets_tie : list (Op nat) :=
  [OpSet 0 "a" 1%nat None; OpSet 0 "b" 2%nat None].

Definition store_ab : SimpleCache nat := run two_sets (Cache.init 3600 2).

(** A store whose counters show three hits and one miss. *)
Definition store_3_1 : SimpleCache nat := mkCache [] 3600 10 3 1 0 0.

(** ** The vocabulary of the persistence statement *)

(** The file holds a record that has not expired at [now]. *)
Definition live {V : Type} (now : Z) (f : string * FileContent V) : bool :=
  match f.2 with
  | Stored _ entry => now <? expires entry
  | Unreadable | Corrupt => false
  end.

(** The entry of [f] when it is a live record stored under [k]. *)
Definition live_under {V : Type} (now : Z) (k : string)
    (f : string * FileContent V) : option (Entry V) :=
  match f.2 with
  | Stored key entry =>
      if bool_decide (key = k) && (now <? expires entry) then Some entry else None
  | Unreadable | Corrupt => None
  end.

(** The last live record of the directory listing stored under [k]. *)
Definition last_live {V : Type} (now : Z) (k : string)
    (files : list (string * FileContent V)) : option (Entry V) :=
  last (omap (live_under now k) files).

(** The keys of the records of a directory, file by file. *)
Definition stored_keys {V : Type} (files : list (string * FileContent V))
  : list string :=
  omap (fun f => match f.2 with
                 | Stored key _ => Some key
                 | Unreadable | Corrupt => None
                 end) files.

(** A directory with a live record, an expired one, a corrupt file and an
    unreadable one; the clock of the load is [100]. *)
Definition disk0 : list (string * FileContent nat) :=
  [("1f.cache"%string, Stored "year:2024" (mkEntry 24%nat 500 0 0 0));
   ("2a.cache"%string, Stored "year:2023" (mkEntry 23%nat 90 0 0 0));
   ("3c.cache"%string, Corrupt);
   ("4d.cache"%string, Unreadable)].

(** ** The vocabulary of the holiday statements *)

(** A record the specification calls a holiday: [isOffDay == true] and a
    non-empty [name]. *)
Definition is_holiday_record (day : DayRecord) : bool :=
  off_day day && has_name day.

(** The calendar date of a record, when its [date] is there and parses. *)
Definition parsed_date (day : DayRecord) : option Py.date :=
  Feed.date day ≫= Py.strptime.

(** A holiday record whose date is strictly after [today]. *)
Definition upcoming (today : Py.date) (day : DayRecord) : bool :=
  is_holiday_record day
  && match parsed_date day with
     | Some d => Py.date_gt d today
     | None => false
     end.

(** The script's reading of the same: an off day, named or not, whose date
    string is above the string of today. *)
Definition upcoming_str (current_date : string) (day : DayRecord) : bool :=
  off_day day
  && match Feed.date day with
     | Some s => String.ltb current_date s
     | None => false
     end.

(** [x] is the first element of [l] that satisfies [P]. *)
Definition first_such {A : Type} (P : A -> bool) (l : list A) (x : A) : Prop :=
  exists l1 l2, l = l1 ++ x :: l2 /\ P x = true /\ forall y, y ∈ l1 -> P y = false.

(** No element of [l] satisfies [P]. *)
Definition none_such {A : Type} (P : A -> bool) (l : list A) : Prop :=
  forall y, y ∈ l -> P y = false.

(** [a] is dated strictly before [b]. *)
Definition earlier (a b : DayRecord) : Prop :=
  exists da db, parsed_date a = Some da /\ parsed_date b = Some db
                /\ Py.date_gt db da = true.

(** The invariant of a year's list: dates ascend strictly. *)
Definition ascending (days : list DayRecord) : Prop := StronglySorted earlier days.

(** The holiday records of [days] all have a date that parses. *)
Definition holidays_dated (days : list DayRecord) : Prop :=
  forall day, day ∈ days -> is_holiday_record day = true -> is_Some (parsed_date day).

(** The off days of [days] all have a [date]. *)
Definition off_days_dated (days : list DayRecord) : Prop :=
  forall day, day ∈ days -> off_day day = true -> is_Some (Feed.date day).

(** [r] reports the record [day], counted from [today]. *)
Definition reports (today : Py.date) (day : DayRecord) (r : NextHoliday) : Prop :=
  nh_date r = Feed.date day
  /\ nh_name r = default ""%string (Feed.name day)
  /\ nh_note r = default ""%string (Feed.note day)
  /\ exists d, parsed_date day = Some d
               /\ nh_days_until r = Py.toordinal d - Py.toordinal today.

(** [{date, name, note}] of a record and of an element of ['holidays']. *)
Definition record_fields (day : DayRecord) : option string * string * string :=
  (Feed.date day, default ""%string (Feed.name day),
   default ""%string (Feed.note day)).

Definition item_fields (it : HolidayItem) : option string * string * string :=
  (it_date it, it_name it, it_note it).

(** The dates of the elements ascend strictly. *)
Definition items_ascending (items : list HolidayItem) : Prop :=
  StronglySorted
    (fun a b => exists da db, it_date a ≫= Py.strptime = Some da
                              /\ it_date b ≫= Py.strptime = Some db
                              /\ Py.date_gt db da = true) items.

(** *** Sample feeds *)

Definition feed_2024 : YearData :=
  mkYear true
    (Some [mkDay (Some "2024-01-01") (Some true) (Some "元旦") None;
           mkDay (Some "2024-02-04") (Some false) (Some "春节") None;
           mkDay (Some "2024-10-05") (Some true) (Some "") None;
           mkDay (Some "2024-10-06") (Some true) (Some "国庆节") None]%string).

Definition feed_2025 : YearData :=
  mkYear true
    (Some [mkDay (Some "2025-01-01") (Some true) (Some "元旦") None;
           mkDay (Some "2025-01-26") (Some false) (Some "春节") None]%string).

(** Both mirrors answer for 2024 and 2025 only. *)
Definition http_24_25 (src : Source) (year : Z) : option YearData :=
  if year =? 2024 then Some feed_2024
  else if year =? 2025 then Some feed_2025
  else None.

(** No mirror answers. *)
Definition http_down (src : Source) (year : Z) : option YearData := None.

(** Both mirrors answer for 2025 only. *)
Definition http_2025_only (src : Source) (year : Z) : option YearData :=
  if year =? 2025 then Some feed_2025 else None.

Definition empty_script_cache : ScriptCache := mkScriptCache ∅ ∅.

Definition empty_cache : gmap Z YearData := ∅.

(** The sixteenth of June 2024, and the National Day record of [feed_2024]. *)
Definition june_16 : Py.date := Py.mkDate 2024 6 16.

Definition national_day : DayRecord :=
  mkDay (Some "2024-10-06"%string) (Some true) (Some "国庆节"%string) None.

Definition december_30 : Py.date := Py.mkDate 2024 12 30.

Definition new_year_2025 : DayRecord :=
  mkDay (Some "2025-01-01"%string) (Some true) (Some "元旦"%string) None.

(** The server's cache once the year 2024 is fetched. *)
Definition cache_2024 : gmap Z YearData := <[2024 := feed_2024]> empty_cache.

(** [each_element H tac]: [H : y ∈ l] for a list [l] that computes to its
    elements; [tac] closes the goal for each of them. *)
Ltac each_element H tac :=
  cbn in H;
  repeat (apply elem_of_cons in H as [->|H]; [tac|]);
  by apply elem_of_nil in H.

(** ** The vocabulary of the further statements *)

(** The calls of [get] and of [set] in a history. *)
Definition is_get {V : Type} (op : Op V) : bool :=
  match op with
  | OpGet _ _ _ => true
  | _ => false
  end.

Definition is_set {V : Type} (op : Op V) : bool :=
  match op with
  | OpSet _ _ _ _ => true
  | _ => false
  end.

Definition n_gets {V : Type} (ops : list (Op V)) : nat :=
  length (filter (fun op => is_get op = true) ops).

Definition n_sets {V : Type} (ops : list (Op V)) : nat :=
  length (filter (fun op => is_set op = true) ops).

(** A record the work-day tools list: the server wants [isOffDay] there
    and false, the script takes a missing [isOffDay] for false. *)
Definition is_work_record (day : DayRecord) : bool :=
  negb (default true (Feed.isOffDay day)) && has_name day.

Definition is_work_record_script (day : DayRecord) : bool :=
  negb (off_day day) && has_name day.

(** A cache directory for the statements on [PersistentCache]: the file
    names of the keys of [disk0], every file writable, and [json.dump]
    storing the entry as it is. *)
Definition sample_file_of_key (k : string) : string :=
  if String.eqb k "year:2024" then "1f.cache"
  else if String.eqb k "year:2023" then "2a.cache"
  else (k ++ ".cache")%string.

Definition sample_dumped (k : string) (e : Entry nat) : FileContent nat :=
  Stored k e.

Definition sample_can_write (f : string) : bool := true.

(** The files of [disk0] a load at time [100] leaves. *)
Definition disk0_live : list (string * FileContent nat) :=
  [("1f.cache"%string, Stored "year:2024" (mkEntry 24%nat 500 0 0 0))].

(** Every entry of the directory can be unlinked, or none can. *)
Definition unlink_ok (f : string) : bool := true.

Definition unlink_denied (f : string) : bool := false.

(** A persistent cache of capacity one, as a construction over [disk0]
    leaves it. *)
Definition persistent0 : PersistentCache nat :=
  mkPersistent
    (mkCache [("year:2024"%string, mkEntry 24%nat 500 0 0 0)] 3600 1 0 0 0 0)
    (Some disk0_live).

(** A decorated function for the statements on [cache_result]: it answers
    [None] at [0], and [constant_key] gives every call the same key. *)
Definition half (n : nat) : option nat :=
  match n with
  | O => None
  | S _ => Some (Nat.div2 n)
  end.

Definition constant_key (n : nat) : string := "half".

Definition empty_store : SimpleCache (option nat) := Cache.init 3600 10.

(** The answer of the server's [holiday_info] without the field the script
    does not have. *)
Definition without_weekday (info : HolidayInfo) : HolidayInfo :=
  mkInfo (hi_date info) (hi_name info) (hi_type info) (hi_is_holiday info)
         (hi_is_work_day info) (hi_note info) None.

(** Checks on printed numbers, run over the years, months and days of the
    calendar: [str(y)] is four digits that read [y]; it is at most three
    characters; [{m:02d}-{d:02d}] splits and parses back to [m] and [d]. *)
Definition prints_four_digits (y : Z) : bool :=
  match Py.str_int y with
  | String a (String b (String c (String e EmptyString))) =>
      match Py.digit a, Py.digit b, Py.digit c, Py.digit e with
      | Some da, Some db, Some dc, Some de =>
          1000 * da + 100 * db + 10 * dc + de =? y
      | _, _, _, _ => false
      end
  | _ => false
  end.

Definition prints_fewer_digits (y : Z) : bool :=
  match Py.str_int y with
  | String _ EmptyString
  | String _ (String _ EmptyString)
  | String _ (String _ (String _ EmptyString)) => true
  | _ => false
  end.

Definition month_day_parse (m d : Z) : bool :=
  let md := Py.split_dash (Py.format_02d m ++ "-" ++ Py.format_02d d)%string in
  bool_decide (Py.parse_m md.1 = Some m)
  && bool_decide (md.2 ≫= Py.parse_d = Some d).

(** What [get_weekday(2024, 10, 1)] answers. *)
Definition october_1_weekday : WeekdayInfo :=
  mkWeekdayInfo "2024-10-01" 2 "星期二" "Tuesday" false.

Definition prints_two_digits (n : Z) : bool :=
  match Py.format_02d n with
  | String a (String b EmptyString) =>
      match Py.digit a, Py.digit b with
      | Some da, Some db => 10 * da + db =? n
      | _, _ => false
      end
  | _ => false
  end.

(** A date string as [pendulum] and the feed write it: the print
    [YYYY-MM-DD] of a calendar date with a four-digit year. *)
Definition canonical_date (s : string) (a : Py.date) : Prop :=
  Py.valid_date (Py.year a) (Py.month a) (Py.day a) = true
  /\ 1000 <= Py.year a
  /\ s = Py.format_date (Py.year a) (Py.month a) (Py.day a).

(** The off days of [days] all have a date written that way. *)
Definition off_days_canonical (days : list DayRecord) : Prop :=
  forall day, day ∈ days -> off_day day = true ->
    exists s a, Feed.date day = Some s /\ canonical_date s a.

(** * Properties *)

(** ** Dictionaries *)

Section dict_facts.
Context {K A : Type} `{EqDecision K}.
Implicit Types (k : K) (a : A) (d : list (K * A)).

Lemma dict_get_set_eq k a d : dict_get k (dict_set k a d) = Some a.
Proof.
  induction d as [|[k' a'] d IH]; simpl.
  - by rewrite decide_True.
  - destruct (decide (k' = k)) as [->|Hne]; simpl.
    + by rewrite decide_True.
    + by rewrite decide_False.
Qed.

Lemma dict_get_set_ne k k' a d :
  k ≠ k' -> dict_get k' (dict_set k a d) = dict_get k' d.
Proof.
  intros Hne. induction d as [|[k0 a0] d IH]; simpl.
  - by rewrite decide_False.
  - destruct (decide (k0 = k)) as [->|Hne0]; simpl.
    + by rewrite !decide_False.
    + by rewrite IH.
Qed.

Lemma dict_get_del_eq k d : dict_get k (dict_del k d) = None.
Proof.
  induction d as [|[k0 a0] d IH]; simpl; [done|].
  destruct (decide (k0 = k)) as [->|Hne]; simpl; [done|].
  by rewrite decide_False.
Qed.

Lemma dict_get_del_ne k k' d :
  k ≠ k' -> dict_get k' (dict_del k d) = dict_get k' d.
Proof.
  intros Hne. induction d as [|[k0 a0] d IH]; simpl; [done|].
  destruct (decide (k0 = k)) as [->|Hne0]; simpl.
  - by rewrite decide_False.
  - by rewrite IH.
Qed.

Lemma dict_get_Some_keys k a d : dict_get k d = Some a -> k ∈ dict_keys d.
Proof.
  induction d as [|[k0 a0] d IH]; simpl; [done|].
  destruct (decide (k0 = k)) as [->|Hne]; intros Hg.
  - apply list_elem_of_here.
  - apply list_elem_of_further, IH, Hg.
Qed.

Lemma dict_keys_get k d : k ∈ dict_keys d -> is_Some (dict_get k d).
Proof.
  induction d as [|[k0 a0] d IH]; simpl.
  - intros Hin. by apply elem_of_nil in Hin.
  - intros Hin. destruct (decide (k0 = k)) as [->|Hne]; [by eexists|].
    apply elem_of_cons in Hin as [->|Hin]; [done|]. by apply IH.
Qed.

Lemma dict_in_true k d : dict_in k d = true <-> k ∈ dict_keys d.
Proof.
  unfold dict_in. rewrite bool_decide_eq_true. split.
  - intros [a Ha]. by eapply dict_get_Some_keys.
  - apply dict_keys_get.
Qed.

Lemma dict_in_false k d : dict_in k d = false <-> dict_get k d = None.
Proof.
  unfold dict_in. rewrite bool_decide_eq_false, eq_None_not_Some. done.
Qed.

Lemma dict_get_None_keys k d : dict_get k d = None <-> k ∉ dict_keys d.
Proof.
  rewrite <- dict_in_false, <- dict_in_true. destruct (dict_in k d); naive_solver.
Qed.

Lemma dict_keys_set_in k a d :
  k ∈ dict_keys d -> dict_keys (dict_set k a d) = dict_keys d.
Proof.
  unfold dict_keys. induction d as [|[k0 a0] d IH]; simpl.
  - intros Hin. by apply elem_of_nil in Hin.
  - intros Hin. destruct (decide (k0 = k)) as [->|Hne]; simpl; [done|].
    apply elem_of_cons in Hin as [->|Hin]; [done|]. f_equal. by apply IH.
Qed.

Lemma dict_set_notin k a d :
  k ∉ dict_keys d -> dict_set k a d = d ++ [(k, a)].
Proof.
  induction d as [|[k0 a0] d IH]; simpl; [done|].
  intros Hnin. apply not_elem_of_cons in Hnin as [Hne Hnin].
  rewrite decide_False by done. by rewrite IH.
Qed.

Lemma dict_keys_del k d :
  dict_keys (dict_del k d) = filter (fun k' => k' ≠ k) (dict_keys d).
Proof.
  unfold dict_keys. induction d as [|[k0 a0] d IH]; simpl; [done|].
  rewrite filter_cons. simpl.
  destruct (decide (k0 = k)) as [->|Hne].
  - rewrite decide_False by naive_solver. done.
  - rewrite decide_True by done. simpl. by f_equal.
Qed.

Lemma dict_del_notin k d : k ∉ dict_keys d -> dict_del k d = d.
Proof.
  induction d as [|[k0 a0] d IH]; simpl; [done|].
  intros Hnin. apply not_elem_of_cons in Hnin as [Hne Hnin].
  rewrite decide_False by done. by rewrite IH.
Qed.

Lemma dict_wf_nil : dict_wf ([] : list (K * A)).
Proof. apply NoDup_nil_2. Qed.

Lemma dict_wf_set k a d : dict_wf d -> dict_wf (dict_set k a d).
Proof.
  unfold dict_wf. intros Hwf.
  destruct (decide (k ∈ dict_keys d)) as [Hin|Hnin].
  - by rewrite dict_keys_set_in.
  - rewrite dict_set_notin by done. unfold dict_keys. rewrite fmap_app. simpl.
    apply NoDup_app. split_and!; [done| |apply NoDup_singleton].
    intros x Hx Hx'. apply list_elem_of_singleton in Hx' as ->. done.
Qed.

Lemma dict_wf_del k d : dict_wf d -> dict_wf (dict_del k d).
Proof.
  unfold dict_wf. rewrite dict_keys_del. apply NoDup_filter.
Qed.

Lemma dict_wf_cons_inv k a d : dict_wf ((k, a) :: d) -> (k ∉ dict_keys d) /\ dict_wf d.
Proof. unfold dict_wf, dict_keys. simpl. apply NoDup_cons. Qed.

Lemma length_dict_set_in k a d :
  k ∈ dict_keys d -> length (dict_set k a d) = length d.
Proof.
  intros Hin. pose proof (f_equal length (dict_keys_set_in k a d Hin)) as Hk.
  unfold dict_keys in Hk. by rewrite !length_fmap in Hk.
Qed.

Lemma length_dict_set_notin k a d :
  k ∉ dict_keys d -> length (dict_set k a d) = S (length d).
Proof.
  intros Hnin. rewrite dict_set_notin by done. rewrite length_app. simpl. lia.
Qed.

Lemma length_dict_del_le k d : (length (dict_del k d) <= length d)%nat.
Proof.
  induction d as [|[k0 a0] d IH]; simpl; [done|].
  destruct (decide (k0 = k)); simpl; lia.
Qed.

Lemma length_dict_del_in k d :
  dict_wf d -> k ∈ dict_keys d -> S (length (dict_del k d)) = length d.
Proof.
  induction d as [|[k0 a0] d IH]; simpl.
  - intros _ Hin. by apply elem_of_nil in Hin.
  - intros Hwf Hin. apply dict_wf_cons_inv in Hwf as [Hnin Hwf].
    destruct (decide (k0 = k)) as [->|Hne]; simpl.
    + by rewrite dict_del_notin.
    + apply elem_of_cons in Hin as [->|Hin]; [done|]. by rewrite IH.
Qed.

(** [min] returns an element of its argument whose key no other
    element's key is below. *)
Lemma py_min_elem {B} (f : B -> Z) (x : B) (xs : list B) :
  py_min f x xs ∈ x :: xs.
Proof.
  unfold py_min. revert x. induction xs as [|y ys IH]; intros x; simpl.
  - apply list_elem_of_here.
  - destruct (f y <? f x).
    + apply list_elem_of_further, IH.
    + specialize (IH x). apply elem_of_cons in IH as [->|Hin].
      * apply list_elem_of_here.
      * by do 2 apply list_elem_of_further.
Qed.

Lemma py_min_le {B} (f : B -> Z) (x : B) (xs : list B) (y : B) :
  y ∈ x :: xs -> f (py_min f x xs) <= f y.
Proof.
  unfold py_min.
  assert (Hbest : forall xs x, f (foldl (fun best y => if f y <? f best then y else best) x xs) <= f x).
  { clear. induction xs as [|z zs IH]; intros x; simpl; [lia|].
    destruct (Z.ltb_spec (f z) (f x)); [|done].
    specialize (IH z). lia. }
  revert x. induction xs as [|z zs IH]; intros x Hin; simpl.
  - apply list_elem_of_singleton in Hin as ->. lia.
  - apply elem_of_cons in Hin as [->|Hin].
    + destruct (Z.ltb_spec (f z) (f x)).
      * specialize (Hbest zs z). lia.
      * apply Hbest.
    + destruct (Z.ltb_spec (f z) (f x)).
      * apply IH, Hin.
      * apply elem_of_cons in Hin as [->|Hin].
        -- specialize (Hbest zs x). lia.
        -- apply IH. by apply list_elem_of_further.
Qed.
End dict_facts.


(** ** Dictionaries and selections of their items *)

Section dict_filter_facts.
Context {K A : Type} `{EqDecision K}.
Implicit Types (k : K) (a : A) (d : list (K * A)).

Lemma dict_get_elem k a d : dict_wf d -> dict_get k d = Some a <-> (k, a) ∈ d.
Proof.
  induction d as [|[k0 a0] d IH]; intros Hwf; simpl.
  - split; [done|]. intros Hin. by apply elem_of_nil in Hin.
  - apply dict_wf_cons_inv in Hwf as [Hnin Hwf].
    destruct (decide (k0 = k)) as [->|Hne].
    + split.
      * intros [= ->]. apply list_elem_of_here.
      * intros Hin. apply elem_of_cons in Hin as [[= ->]|Hin]; [done|].
        exfalso. apply Hnin. apply list_elem_of_fmap. by exists (k, a).
    + rewrite IH by done. split.
      * intros Hin. by apply list_elem_of_further.
      * intros Hin. apply elem_of_cons in Hin as [[= -> ->]|Hin]; done.
Qed.

Lemma dict_del_filter k d : dict_del k d = filter (fun p => p.1 ≠ k) d.
Proof.
  induction d as [|[k0 a0] d IH]; simpl; [done|].
  rewrite filter_cons. simpl. destruct (decide (k0 = k)) as [->|Hne].
  - rewrite decide_False; [done|]. intros Hn. by apply Hn.
  - rewrite decide_True by done. by rewrite IH.
Qed.

Lemma foldl_dict_del_filter (ks : list K) d :
  foldl (fun d k => dict_del k d) d ks = filter (fun p => p.1 ∉ ks) d.
Proof.
  revert d. induction ks as [|k ks IH]; intros d; simpl.
  - induction d as [|p d IHd]; [done|].
    rewrite filter_cons, decide_True by apply not_elem_of_nil. by rewrite <- IHd.
  - rewrite IH, dict_del_filter, list_filter_filter.
    apply list_filter_iff. intros p. rewrite not_elem_of_cons.
    split; intros [? ?]; by split.
Qed.

Lemma dict_wf_filter (P : K * A -> Prop) `{!forall p, Decision (P p)} d :
  dict_wf d -> dict_wf (filter P d).
Proof.
  unfold dict_wf, dict_keys. induction d as [|[k a] d IH]; [done|].
  rewrite filter_cons. simpl. intros [Hnin Hnd]%NoDup_cons.
  case_decide; [|by apply IH]. simpl. apply NoDup_cons. split; [|by apply IH].
  intros Hin. apply Hnin. apply list_elem_of_fmap in Hin as ([k' a'] & -> & Hin).
  apply list_elem_of_filter in Hin as [_ Hin]. apply list_elem_of_fmap.
  by exists (k', a').
Qed.

Lemma dict_get_filter (P : K * A -> Prop) `{!forall p, Decision (P p)} k a d :
  dict_wf d ->
  dict_get k (filter P d) = Some a <-> dict_get k d = Some a /\ P (k, a).
Proof.
  intros Hwf. rewrite dict_get_elem by by apply dict_wf_filter.
  rewrite dict_get_elem by done. rewrite list_elem_of_filter.
  split; intros [? ?]; by split.
Qed.

Lemma filter_ext_elem (P1 P2 : A -> Prop)
    `{!forall x, Decision (P1 x), !forall x, Decision (P2 x)} (l : list A) :
  (forall x, x ∈ l -> P1 x <-> P2 x) -> filter P1 l = filter P2 l.
Proof.
  induction l as [|x l IH]; intros Hext; [done|].
  rewrite !filter_cons.
  assert (Hl : filter P1 l = filter P2 l).
  { apply IH. intros y Hy. apply Hext. by apply list_elem_of_further. }
  pose proof (Hext x (list_elem_of_here _ _)) as Hx.
  repeat case_decide; try tauto; by rewrite Hl.
Qed.

Lemma length_filter_split (P : A -> bool) (l : list A) :
  (length (filter (fun x => P x = true) l)
   + length (filter (fun x => P x = false) l) = length l)%nat.
Proof.
  induction l as [|x l IH]; [done|].
  rewrite !filter_cons. destruct (P x) eqn:Hx; repeat case_decide; try done;
    simpl; lia.
Qed.

(** [min] returns the first of the elements whose key is least. *)
Lemma py_min_first {B} (f : B -> Z) (x : B) (xs : list B) :
  exists l1 l2,
    x :: xs = l1 ++ py_min f x xs :: l2
    /\ (forall z, z ∈ l1 -> f (py_min f x xs) < f z)
    /\ (forall z, z ∈ l2 -> f (py_min f x xs) <= f z).
Proof.
  unfold py_min.
  set (step := fun best y => if f y <? f best then y else best).
  assert (Hgen : forall xs pre b,
    (forall z, z ∈ pre -> f b < f z) ->
    forall post, (forall z, z ∈ post -> f b <= f z) ->
    exists l1 l2,
      pre ++ b :: post ++ xs = l1 ++ foldl step b xs :: l2
      /\ (forall z, z ∈ l1 -> f (foldl step b xs) < f z)
      /\ (forall z, z ∈ l2 -> f (foldl step b xs) <= f z)).
  { clear. induction xs as [|y ys IH]; intros pre b Hpre post Hpost; simpl.
    - exists pre, post. by rewrite app_nil_r.
    - unfold step at 2 4 6. destruct (Z.ltb_spec (f y) (f b)) as [Hlt|Hge].
      + destruct (IH (pre ++ b :: post) y) with (post := @nil B)
          as (l1 & l2 & Heq & H1 & H2).
        * intros z Hz. apply elem_of_app in Hz as [Hz|Hz].
          -- specialize (Hpre z Hz). lia.
          -- apply elem_of_cons in Hz as [->|Hz]; [done|].
             specialize (Hpost z Hz). lia.
        * intros z Hz. by apply elem_of_nil in Hz.
        * exists l1, l2. split; [|done]. rewrite <- Heq. simpl.
          by rewrite <- !app_assoc.
      + destruct (IH pre b Hpre (post ++ [y])) as (l1 & l2 & Heq & H1 & H2).
        * intros z Hz. apply elem_of_app in Hz as [Hz|Hz]; [by apply Hpost|].
          apply list_elem_of_singleton in Hz as ->. done.
        * exists l1, l2. split; [|done]. rewrite <- Heq.
          by rewrite <- !app_assoc. }
  destruct (Hgen xs [] x) with (post := @nil B) as (l1 & l2 & Heq & H1 & H2).
  - intros z Hz. by apply elem_of_nil in Hz.
  - intros z Hz. by apply elem_of_nil in Hz.
  - exists l1, l2. done.
Qed.
End dict_filter_facts.

(** Deleting a key that occurs once removes its item and nothing else. *)
Lemma dict_del_middle {A} (k : string) (a : A) (l1 l2 : list (string * A)) :
  k ∉ dict_keys l1 -> k ∉ dict_keys l2 ->
  dict_del k (l1 ++ (k, a) :: l2) = l1 ++ l2.
Proof.
  intros H1 H2. induction l1 as [|[k' a'] l1 IH]; simpl.
  - rewrite decide_True by done. by apply dict_del_notin.
  - unfold dict_keys in H1. simpl in H1. apply not_elem_of_cons in H1 as [Hne H1].
    rewrite decide_False by done. f_equal. by apply IH.
Qed.

(** ** [SimpleCache]: eviction and the size bound *)

Section cache_facts.
Context {V : Type}.
Implicit Types (c : SimpleCache V) (d : list (string * Entry V)) (e : Entry V).

Lemma age_of_get d k e : dict_get k d = Some e -> Cache.age_of d k = last_accessed e.
Proof. unfold Cache.age_of. by intros ->. Qed.

(** A non-empty dictionary has an oldest key, and its entry is one no
    other entry was accessed before. *)
Lemma oldest_key_spec d :
  d ≠ [] ->
  exists k e, Cache.oldest_key d = Some k /\ dict_get k d = Some e /\ oldest_in d e.
Proof.
  intros Hne. unfold Cache.oldest_key.
  destruct (dict_keys d) as [|k0 ks] eqn:Hkeys.
  { destruct d; [done|discriminate]. }
  set (k := py_min (Cache.age_of d) k0 ks).
  assert (Hin : k ∈ dict_keys d) by (rewrite Hkeys; apply py_min_elem).
  destruct (dict_keys_get _ _ Hin) as [e He].
  exists k, e. split_and!; [done..|].
  intros k' e' He'.
  rewrite <- (age_of_get d k e He), <- (age_of_get d k' e' He').
  apply py_min_le. rewrite <- Hkeys. by eapply dict_get_Some_keys.
Qed.

Lemma cache_inv_init dttl ms :
  0 <= ms -> cache_inv ms (Cache.init dttl ms : SimpleCache V).
Proof. intros Hms. split_and!; [apply dict_wf_nil|done|]. unfold size. simpl. lia. Qed.

Lemma foldl_dict_del_wf (ks : list string) d :
  dict_wf d ->
  dict_wf (foldl (fun d k => dict_del k d) d ks)
  /\ (length (foldl (fun d k => dict_del k d) d ks) <= length d)%nat.
Proof.
  revert d. induction ks as [|k ks IH]; intros d Hwf; simpl; [split; [done|lia]|].
  destruct (IH (dict_del k d) (dict_wf_del _ _ Hwf)) as [H1 H2]. split; [done|].
  pose proof (length_dict_del_le k d). lia.
Qed.

(** What [set] does to the dictionary, by the two cases of its test. *)
Lemma set_cache_present now key v ttl c :
  dict_in key (_cache c) = true ->
  Cache.set now key v ttl c =
    mkCache (dict_set key (fresh_entry now v (default (default_ttl c) ttl)) (_cache c))
            (default_ttl c) (max_size c) (_hits c) (_misses c)
            (S (_sets c)) (_deletes c).
Proof. intros Hin. unfold Cache.set. rewrite Hin, andb_false_r. done. Qed.

Lemma set_cache_room now key v ttl c :
  size c < max_size c ->
  Cache.set now key v ttl c =
    mkCache (dict_set key (fresh_entry now v (default (default_ttl c) ttl)) (_cache c))
            (default_ttl c) (max_size c) (_hits c) (_misses c)
            (S (_sets c)) (_deletes c).
Proof.
  intros Hlt. unfold Cache.set, size in *.
  destruct (Z.leb_spec (max_size c) (Z.of_nat (length (_cache c)))); [lia|done].
Qed.

Lemma set_cache_full now key v ttl c k :
  dict_in key (_cache c) = false ->
  max_size c <= size c ->
  Cache.oldest_key (_cache c) = Some k ->
  Cache.set now key v ttl c =
    mkCache (dict_set key (fresh_entry now v (default (default_ttl c) ttl))
                      (dict_del k (_cache c)))
            (default_ttl c) (max_size c) (_hits c) (_misses c)
            (S (_sets c)) (S (_deletes c)).
Proof.
  intros Hin Hfull Hk. unfold Cache.set, Cache._evict_oldest, size in *.
  rewrite Hin. destruct (Z.leb_spec (max_size c) (Z.of_nat (length (_cache c)))); [|lia].
  simpl. rewrite Hk. done.
Qed.

Lemma cache_inv_set ms now key v ttl c :
  1 <= ms -> cache_inv ms c -> cache_inv ms (Cache.set now key v ttl c).
Proof.
  intros Hms (Hwf & Hmax & Hsz). unfold size in *.
  destruct (dict_in key (_cache c)) eqn:Hin.
  - rewrite set_cache_present by done. split_and!; simpl; [by apply dict_wf_set|done|].
    unfold size. simpl. rewrite length_dict_set_in by by apply dict_in_true. done.
  - assert (Hnin : key ∉ dict_keys (_cache c)).
    { apply dict_get_None_keys. by apply dict_in_false. }
    destruct (Z.lt_ge_cases (size c) (max_size c)) as [Hroom|Hfull].
    + rewrite set_cache_room by done. split_and!; simpl; [by apply dict_wf_set|done|].
      unfold size in *. simpl. rewrite length_dict_set_notin by done. lia.
    + assert (Hne : _cache c ≠ []).
      { unfold size in Hfull. destruct (_cache c); [simpl in *; lia|done]. }
      destruct (oldest_key_spec _ Hne) as (k & e & Hk & He & _).
      rewrite (set_cache_full _ _ _ _ _ k) by done.
      split_and!; simpl; [by apply dict_wf_set, dict_wf_del|done|].
      unfold size. simpl.
      assert (Hnin' : key ∉ dict_keys (dict_del k (_cache c))).
      { rewrite dict_keys_del. intros Hf. apply list_elem_of_filter in Hf as [_ Hf]. done. }
      rewrite length_dict_set_notin by done.
      rewrite (length_dict_del_in k (_cache c)) by (by eauto using dict_get_Some_keys).
      done.
Qed.

Lemma cache_inv_step ms c (op : Op V) :
  1 <= ms -> cache_inv ms c -> cache_inv ms (step c op).
Proof.
  intros Hms Hinv. destruct op as [now key v ttl|now now' key|key| |now]; simpl.
  - by apply cache_inv_set.
  - destruct Hinv as (Hwf & Hmax & Hsz). unfold Cache.get.
    destruct (dict_get key (_cache c)) as [e|] eqn:Hg; [|done].
    destruct (now <? expires e); unfold cache_inv, size in *; simpl.
    + split_and!; [by apply dict_wf_set|done|].
      rewrite length_dict_set_in by (by eapply dict_get_Some_keys). done.
    + split_and!; [by apply dict_wf_del|done|].
      pose proof (length_dict_del_le key (_cache c)). lia.
  - destruct Hinv as (Hwf & Hmax & Hsz). unfold Cache.delete.
    destruct (dict_in key (_cache c)); unfold cache_inv, size in *; simpl; [|done].
    split_and!; [by apply dict_wf_del|done|].
    pose proof (length_dict_del_le key (_cache c)). lia.
  - destruct Hinv as (Hwf & Hmax & Hsz). unfold Cache.clear, cache_inv, size in *.
    simpl. split_and!; [apply dict_wf_nil|done|lia].
  - destruct Hinv as (Hwf & Hmax & Hsz). unfold Cache.cleanup, cache_inv, size in *.
    simpl.
    match goal with |- context [foldl _ _ ?ks] =>
      destruct (foldl_dict_del_wf ks (_cache c) Hwf) as [H1 H2] end.
    split_and!; [done..|lia].
Qed.

Lemma cache_inv_run ms (ops : list (Op V)) c :
  1 <= ms -> cache_inv ms c -> cache_inv ms (run ops c).
Proof.
  intros Hms. revert c. unfold run.
  induction ops as [|op ops IH]; intros c Hinv; simpl; [done|].
  by apply IH, cache_inv_step.
Qed.
(** The key [_evict_oldest] picks: the first key, in insertion order, whose
    entry has the least [last_accessed]; deleting it leaves the other items
    in their order. *)
Lemma oldest_key_first d :
  dict_wf d -> d ≠ [] ->
  exists l1 k e l2,
    d = l1 ++ (k, e) :: l2
    /\ Cache.oldest_key d = Some k
    /\ dict_del k d = l1 ++ l2
    /\ (forall p, p ∈ l1 -> last_accessed e < last_accessed p.2)
    /\ (forall p, p ∈ l2 -> last_accessed e <= last_accessed p.2).
Proof.
  intros Hwf Hne. unfold Cache.oldest_key.
  destruct (dict_keys d) as [|k0 ks] eqn:Hkeys.
  { destruct d; [done|discriminate]. }
  destruct (py_min_first (Cache.age_of d) k0 ks) as (l1k & l2k & Heq & Hlt & Hle).
  set (k := py_min (Cache.age_of d) k0 ks) in *.
  rewrite <- Hkeys in Heq. unfold dict_keys in Heq.
  apply fmap_app_inv in Heq as (l1 & l2' & Hl1 & Hl2 & Hd).
  symmetry in Hl2. apply fmap_cons_inv in Hl2 as ([k' e] & l2 & Hk & Hl2 & ->).
  simpl in Hk. subst k'.
  assert (Hage : forall p, p ∈ d -> Cache.age_of d p.1 = last_accessed p.2).
  { intros [kp ep] Hp. apply age_of_get. by apply dict_get_elem. }
  assert (Hk : Cache.age_of d k = last_accessed e).
  { apply (Hage (k, e)). rewrite Hd. apply elem_of_app. right. left. }
  assert (Hnd : (k ∉ dict_keys l1) /\ (k ∉ dict_keys l2)).
  { unfold dict_wf, dict_keys in Hwf. rewrite Hd, fmap_app, fmap_cons in Hwf.
    apply NoDup_app in Hwf as (_ & Hdisj & Hnd2). apply NoDup_cons in Hnd2 as [Hk2 _].
    split; [|done]. intros Hk1. apply (Hdisj k Hk1). left. }
  exists l1, k, e, l2. split_and!.
  - done.
  - done.
  - rewrite Hd. apply dict_del_middle; apply Hnd.
  - intros p Hp. rewrite <- Hk, <- Hage.
    + apply Hlt. rewrite Hl1. by apply list_elem_of_fmap_2.
    + rewrite Hd. apply elem_of_app. by left.
  - intros p Hp. rewrite <- Hk, <- Hage.
    + apply Hle. rewrite Hl2. by apply list_elem_of_fmap_2.
    + rewrite Hd. apply elem_of_app. right. by right.
Qed.
End cache_facts.

Section cache_claims.
Context {V : Type}.
Implicit Types (c : SimpleCache V) (d : list (string * Entry V)) (e : Entry V).

(** C3 (as amended).  For a capacity [cap >= 1], a store that starts
    empty never holds more than [cap] entries, whatever calls are made
    on it.  On such a store, [set] of a key that is present overwrites its
    entry in place and evicts nothing; [set] of a new key at capacity evicts
    exactly one entry and then appends the new entry, so the count is
    unchanged.  The entry evicted is one whose [last_accessed] no other
    entry's is below, and of several such the first in insertion order:
    the entries before it were all accessed strictly later. *)
Theorem set_respects_max_size (dttl cap : Z) (ops : list (Op V)) :
  1 <= cap ->
  let c := run ops (Cache.init dttl cap) in
  size c <= cap
  /\ forall now key v ttl,
       let c' := Cache.set now key v ttl c in
       let entry := fresh_entry now v (default (default_ttl c) ttl) in
       (dict_in key (_cache c) = true ->
          _cache c' = dict_set key entry (_cache c)
          /\ dict_keys (_cache c') = dict_keys (_cache c)
          /\ _deletes c' = _deletes c
          /\ dict_get key (_cache c') = Some entry
          /\ forall k', k' ≠ key -> dict_get k' (_cache c') = dict_get k' (_cache c))
       /\ (dict_in key (_cache c) = false -> cap <= size c ->
           exists l1 k_old e_old l2,
             _cache c = l1 ++ (k_old, e_old) :: l2
             /\ (forall p, p ∈ l1 -> last_accessed e_old < last_accessed p.2)
             /\ (forall p, p ∈ l2 -> last_accessed e_old <= last_accessed p.2)
             /\ _cache c' = l1 ++ l2 ++ [(key, entry)]
             /\ dict_get k_old (_cache c) = Some e_old
             /\ oldest_in (_cache c) e_old
             /\ _cache c' = dict_del k_old (_cache c) ++ [(key, entry)]
             /\ S (length (dict_del k_old (_cache c))) = length (_cache c)
             /\ size c' = size c
             /\ _deletes c' = S (_deletes c)
             /\ dict_get k_old (_cache c') = None
             /\ forall k', k' ≠ k_old -> k' ≠ key ->
                  dict_get k' (_cache c') = dict_get k' (_cache c)).
Proof.
  intros Hms c.
  assert (Hinv : cache_inv cap c).
  { apply cache_inv_run; [done|]. apply cache_inv_init. lia. }
  destruct Hinv as (Hwf & Hmax & Hsz). split; [done|].
  intros now key v ttl c' entry. split.
  - intros Hin. subst c'. rewrite set_cache_present by done. simpl.
    fold entry. split_and!; [done| |done| |].
    + apply dict_keys_set_in. by apply dict_in_true.
    + apply dict_get_set_eq.
    + intros k' Hne. by apply dict_get_set_ne.
  - intros Hin Hfull.
    assert (Hnin : key ∉ dict_keys (_cache c)).
    { apply dict_get_None_keys. by apply dict_in_false. }
    assert (Hne : _cache c ≠ []).
    { unfold size in Hfull. destruct (_cache c); [simpl in *; lia|done]. }
    destruct (oldest_key_first _ Hwf Hne)
      as (l1 & k & e & l2 & Hd & Hk & Hdel & Hlt & Hle).
    assert (He : dict_get k (_cache c) = Some e).
    { apply dict_get_elem; [done|]. rewrite Hd. apply elem_of_app. right. left. }
    assert (Hold : oldest_in (_cache c) e).
    { intros k' e' He'. apply dict_get_elem in He'; [|done]. rewrite Hd in He'.
      apply elem_of_app in He' as [He'|He'].
      - specialize (Hlt _ He'). simpl in Hlt. lia.
      - apply elem_of_cons in He' as [[= -> ->]|He']; [lia|].
        exact (Hle _ He'). }
    assert (Hkin : k ∈ dict_keys (_cache c)) by by eapply dict_get_Some_keys.
    assert (Hkk : k ≠ key) by (intros ->; done).
    assert (Hnin' : key ∉ dict_keys (dict_del k (_cache c))).
    { rewrite dict_keys_del. intros Hf. apply list_elem_of_filter in Hf as [_ Hf]. done. }
    exists l1, k, e, l2. subst c'.
    rewrite (set_cache_full _ _ _ _ _ k) by (rewrite ?Hmax; done). simpl. fold entry.
    rewrite dict_set_notin by done.
    pose proof (length_dict_del_in k (_cache c) Hwf Hkin) as Hlen.
    split_and!; [done|done|done| |done|done|done|done| |done| |].
    + by rewrite Hdel, <- app_assoc.
    + unfold size. simpl. rewrite length_app. simpl. lia.
    + rewrite <- dict_set_notin by done.
      rewrite dict_get_set_ne by done. apply dict_get_del_eq.
    + intros k' Hk1 Hk2. rewrite <- dict_set_notin by done.
      rewrite dict_get_set_ne by done. by apply dict_get_del_ne.
Qed.
(** The three cases of [get]. *)
Lemma get_hit (now now' : Z) (key : string) c e :
  dict_get key (_cache c) = Some e -> now < expires e ->
  Cache.get now now' key c
  = (Some (value e),
     mkCache (dict_set key (touched now' e) (_cache c)) (default_ttl c) (max_size c)
             (S (_hits c)) (_misses c) (_sets c) (_deletes c)).
Proof.
  intros Hg Hlt. unfold Cache.get. rewrite Hg.
  destruct (Z.ltb_spec now (expires e)); [done|lia].
Qed.

Lemma get_expired (now now' : Z) (key : string) c e :
  dict_get key (_cache c) = Some e -> expires e <= now ->
  Cache.get now now' key c
  = (None,
     mkCache (dict_del key (_cache c)) (default_ttl c) (max_size c)
             (_hits c) (S (_misses c)) (_sets c) (S (_deletes c))).
Proof.
  intros Hg Hle. unfold Cache.get. rewrite Hg.
  destruct (Z.ltb_spec now (expires e)); [lia|done].
Qed.

Lemma get_absent (now now' : Z) (key : string) c :
  dict_get key (_cache c) = None ->
  Cache.get now now' key c
  = (None,
     mkCache (_cache c) (default_ttl c) (max_size c)
             (_hits c) (S (_misses c)) (_sets c) (_deletes c)).
Proof. intros Hg. unfold Cache.get. by rewrite Hg. Qed.

(** C4 (as amended).  The side effects of [get], case by case.  On a hit
    (the key is bound and [now] is before its expiry) the value is returned,
    the entry's [last_accessed] becomes the second clock reading with every
    other field, [access_count] included, as it was, and only the hit
    counter grows.  On a bound but expired key the entry is deleted and the
    miss and delete counters grow by one.  On an unbound key only the miss
    counter grows.  A value that [get] returns is always the value of an
    entry that has not expired. *)
Theorem get_side_effects (now now' : Z) (key : string) c :
  let r := Cache.get now now' key c in
  (forall e, dict_get key (_cache c) = Some e -> now < expires e ->
     r.1 = Some (value e)
     /\ _cache r.2 = dict_set key (touched now' e) (_cache c)
     /\ dict_get key (_cache r.2) = Some (touched now' e)
     /\ dict_keys (_cache r.2) = dict_keys (_cache c)
     /\ (forall k', k' ≠ key -> dict_get k' (_cache r.2) = dict_get k' (_cache c))
     /\ counters r.2 = (S (_hits c), _misses c, _sets c, _deletes c))
  /\ (forall e, dict_get key (_cache c) = Some e -> expires e <= now ->
     r.1 = None
     /\ _cache r.2 = dict_del key (_cache c)
     /\ dict_get key (_cache r.2) = None
     /\ (forall k', k' ≠ key -> dict_get k' (_cache r.2) = dict_get k' (_cache c))
     /\ counters r.2 = (_hits c, S (_misses c), _sets c, S (_deletes c)))
  /\ (dict_get key (_cache c) = None ->
     r.1 = None
     /\ _cache r.2 = _cache c
     /\ counters r.2 = (_hits c, S (_misses c), _sets c, _deletes c))
  /\ (forall v, r.1 = Some v ->
     exists e, dict_get key (_cache c) = Some e /\ now < expires e /\ v = value e)
  /\ default_ttl r.2 = default_ttl c
  /\ max_size r.2 = max_size c.
Proof.
  intros r. split_and!.
  - intros e Hg Hlt. subst r. rewrite (get_hit _ _ _ _ e) by done. simpl.
    split_and!; [done..| | | |done].
    + apply dict_get_set_eq.
    + apply dict_keys_set_in. by eapply dict_get_Some_keys.
    + intros k' Hne. by apply dict_get_set_ne.
  - intros e Hg Hle. subst r. rewrite (get_expired _ _ _ _ e) by done. simpl.
    split_and!; [done..| | |done].
    + apply dict_get_del_eq.
    + intros k' Hne. by apply dict_get_del_ne.
  - intros Hg. subst r. by rewrite get_absent.
  - intros v Hv. subst r.
    destruct (dict_get key (_cache c)) as [e|] eqn:Hg.
    + destruct (Z.lt_ge_cases now (expires e)) as [Hlt|Hge].
      * rewrite (get_hit _ _ _ _ e) in Hv by done. injection Hv as <-. by exists e.
      * rewrite (get_expired _ _ _ _ e) in Hv by done. discriminate Hv.
    + rewrite get_absent in Hv by done. discriminate Hv.
  - subst r. unfold Cache.get.
    destruct (dict_get key (_cache c)) as [e|]; [|done].
    by destruct (now <? expires e).
  - subst r. unfold Cache.get.
    destruct (dict_get key (_cache c)) as [e|]; [|done].
    by destruct (now <? expires e).
Qed.

(** [get_stats] copies the miss counter. *)
Lemma get_stats_misses (str_len : V -> nat) (now : Z) c :
  misses <$> Cache.get_stats str_len now c = Some (_misses c).
Proof.
  unfold Cache.get_stats. case_bool_decide as Hpos; [|done].
  unfold py_truediv. by destruct (_hits c + _misses c)%nat eqn:Hsum; [lia|].
Qed.

(** C5.  After [set(k, v, ttl)] with a positive [ttl], made at time [t0],
    a [get(k)] before [t0 + ttl] returns [v]; a [get(k)] at or after
    [t0 + ttl] returns nothing, and the miss counter, as [get_stats] then
    reports it, is one more than before that [get]. *)
Theorem set_then_get (str_len : V -> nat) (k : string) (v : V)
    (ttl t0 t1 t1' now : Z) c :
  0 < ttl ->
  let c1 := Cache.set t0 k v (Some ttl) c in
  let r := Cache.get t1 t1' k c1 in
  (t1 < t0 + ttl -> r.1 = Some v)
  /\ (t0 + ttl <= t1 ->
      r.1 = None
      /\ dict_get k (_cache r.2) = None
      /\ misses <$> Cache.get_stats str_len now r.2 = Some (S (_misses c1))).
Proof.
  intros Httl c1 r.
  assert (Hg : dict_get k (_cache c1) = Some (fresh_entry t0 v ttl)).
  { subst c1. unfold Cache.set. simpl. apply dict_get_set_eq. }
  split.
  - intros Hlt. subst r. by rewrite (get_hit _ _ _ _ _ Hg Hlt).
  - intros Hle. subst r. rewrite (get_expired _ _ _ _ _ Hg Hle). simpl.
    split_and!; [done|apply dict_get_del_eq|].
    by rewrite get_stats_misses.
Qed.

(** C9.  [get_stats] never divides by zero: it always returns, and its
    [hit_rate] is the fraction [hits / (hits + misses)] when one of the two
    counters is positive and [0] when both are zero. *)
Theorem hit_rate_is_guarded (str_len : V -> nat) (now : Z) c :
  exists st,
    Cache.get_stats str_len now c = Some st
    /\ hits st = _hits c /\ misses st = _misses c
    /\ ((0 < _hits c \/ 0 < _misses c)%nat ->
        (hit_rate st == Z.of_nat (_hits c) # Pos.of_nat (_hits c + _misses c))%Q
        /\ py_truediv (_hits c) (_hits c + _misses c) = Some (hit_rate st))
    /\ (_hits c = 0%nat /\ _misses c = 0%nat -> hit_rate st = 0%Q).
Proof.
  unfold Cache.get_stats. case_bool_decide as Hpos; simpl.
  - unfold py_truediv. destruct (_hits c + _misses c)%nat as [|n] eqn:Hsum; [lia|].
    simpl. eexists. split_and!; [done..| |].
    + intros _. simpl. split; [|done].
      rewrite Qmake_Qdiv. f_equiv. f_equiv.
      rewrite <- Hsum. lia.
    + intros [Hh Hm]. lia.
  - eexists. split_and!; [done..| |done]. intros [?|?]; lia.
Qed.

(** C10.  [delete] of a key that is not bound returns [False] and changes
    nothing, neither the entries nor a counter.  [delete] of a bound key
    returns [True], removes that entry and no other, and adds one to the
    delete counter only. *)
Theorem delete_frame (key : string) c :
  (dict_get key (_cache c) = None -> Cache.delete key c = (false, c))
  /\ (forall e, dict_get key (_cache c) = Some e ->
      let r := Cache.delete key c in
      r.1 = true
      /\ _cache r.2 = dict_del key (_cache c)
      /\ dict_get key (_cache r.2) = None
      /\ (forall k', k' ≠ key -> dict_get k' (_cache r.2) = dict_get k' (_cache c))
      /\ dict_keys (_cache r.2) = filter (fun k' => k' ≠ key) (dict_keys (_cache c))
      /\ (dict_wf (_cache c) -> S (length (_cache r.2)) = length (_cache c))
      /\ counters r.2 = (_hits c, _misses c, _sets c, S (_deletes c))
      /\ default_ttl r.2 = default_ttl c
      /\ max_size r.2 = max_size c).
Proof.
  unfold Cache.delete, counters. split.
  - intros Hnone. apply dict_in_false in Hnone. by rewrite Hnone.
  - intros e He.
    assert (Hin : dict_in key (_cache c) = true).
    { apply dict_in_true. by eapply dict_get_Some_keys. }
    rewrite Hin. simpl. split_and!; try done.
    + apply dict_get_del_eq.
    + intros k' Hne. by apply dict_get_del_ne.
    + apply dict_keys_del.
    + intros Hwf. apply length_dict_del_in; [done|]. by apply dict_in_true.
Qed.
End cache_claims.

(** C3, the claim as written fails: with [max_size = 0] the very first
    [set] finds nothing to evict and stores its entry, so the store holds
    one entry, above the bound. *)
Lemma size_bound_fails_at_capacity_zero :
  let c := run one_set (Cache.init 3600 0) in
  ~ (size c <= max_size c).
Proof. vm_compute. intros H. apply H. reflexivity. Qed.

Lemma set_respects_max_size_witness :
  1 <= 2
  /\ size (run two_sets_tie (Cache.init 3600 2)) <= 2
  /\ _deletes (Cache.set 9 "a" 7%nat None (run two_sets_tie (Cache.init 3600 2)))
     = 0%nat
  /\ _cache (Cache.set 9 "c" 7%nat None (run two_sets_tie (Cache.init 3600 2)))
     = [("b"%string, fresh_entry 0 2%nat 3600); ("c"%string, fresh_entry 9 7%nat 3600)].
Proof.
  assert (H12 : 1 <= 2) by lia.
  pose proof (set_respects_max_size 3600 2 two_sets_tie H12) as [Hsize Hset].
  split; [exact H12|]. split; [exact Hsize|]. split.
  - destruct (Hset 9 "a"%string 7%nat None) as [Hpresent _].
    destruct (Hpresent eq_refl) as (_ & _ & Hdel & _). exact Hdel.
  - destruct (Hset 9 "c"%string 7%nat None) as [_ Hnew].
    destruct (Hnew eq_refl ltac:(vm_compute; discriminate))
      as (l1 & k & e & l2 & Hd & Hlt & _ & Hc & _).
    rewrite Hc. clear Hc Hnew Hset Hsize.
    change (_cache (run two_sets_tie (Cache.init 3600 2)))
      with [("a"%string, fresh_entry 0 1%nat 3600);
            ("b"%string, fresh_entry 0 2%nat 3600)] in Hd.
    destruct l1 as [|p1 l1].
    + simpl in Hd. inversion Hd. reflexivity.
    + exfalso. simpl in Hd. inversion Hd as [[Hp1 Hrest]]. subst p1.
      assert (Hin : ("a"%string, fresh_entry 0 1%nat 3600)
                    ∈ ("a"%string, fresh_entry 0 1%nat 3600) :: l1)
        by apply list_elem_of_here.
      specialize (Hlt _ Hin). simpl in Hlt.
      destruct l1 as [|p2 l1].
      * simpl in Hrest. inversion Hrest. subst. simpl in Hlt. lia.
      * simpl in Hrest. inversion Hrest as [[Hp2 Hnil]]. by destruct l1.
Defined.

(** ** The cache statements on concrete stores *)

(** C4, the claim as written fails: a hit leaves [access_count] at the
    [0] that [set] stored; nothing in [get] adds to it. *)
Lemma get_hit_keeps_access_count :
  let c := run one_set (Cache.init 3600 10) in
  let r := Cache.get 1 2 "a" c in
  r.1 = Some 1%nat
  /\ ~ (exists e e', dict_get "a"%string (_cache c) = Some e
                     /\ dict_get "a"%string (_cache r.2) = Some e'
                     /\ access_count e' = access_count e + 1).
Proof.
  split; [reflexivity|].
  intros (e & e' & He & He' & Hcount).
  vm_compute in He, He'. injection He as <-. injection He' as <-.
  vm_compute in Hcount. discriminate.
Qed.

Lemma get_side_effects_witness :
  (Cache.get 1 2 "a" store_ab).1 = Some 1%nat
  /\ counters (Cache.get 1 2 "a" store_ab).2 = (1%nat, 0%nat, 2%nat, 0%nat)
  /\ (Cache.get 65 66 "b" store_ab).1 = None
  /\ counters (Cache.get 65 66 "b" store_ab).2 = (0%nat, 1%nat, 2%nat, 1%nat)
  /\ counters (Cache.get 1 2 "zz" store_ab).2 = (0%nat, 1%nat, 2%nat, 0%nat).
Proof.
  pose proof (get_side_effects 1 2 "a"%string store_ab) as (Hhit & _).
  pose proof (get_side_effects 65 66 "b"%string store_ab) as (_ & Hexp & _).
  pose proof (get_side_effects 1 2 "zz"%string store_ab) as (_ & _ & Habs & _).
  destruct (Hhit (fresh_entry 0 1%nat 3600) eq_refl eq_refl) as (H1 & _ & _ & _ & _ & H2).
  destruct (Hexp (fresh_entry 5 2%nat 60) eq_refl ltac:(vm_compute; discriminate))
    as (H3 & _ & _ & _ & H4).
  destruct (Habs eq_refl) as (_ & _ & H5).
  exact (conj H1 (conj H2 (conj H3 (conj H4 H5)))).
Defined.

Lemma set_then_get_witness :
  0 < 60
  /\ (Cache.get 10 11 "k" (Cache.set 0 "k" 7%nat (Some 60) (Cache.init 3600 10))).1
     = Some 7%nat
  /\ (Cache.get 60 61 "k" (Cache.set 0 "k" 7%nat (Some 60) (Cache.init 3600 10))).1
     = None.
Proof.
  assert (H60 : 0 < 60) by reflexivity.
  pose proof (set_then_get (fun _ => 1%nat) "k"%string 7%nat 60 0 10 11 0
                (Cache.init 3600 10) H60) as [Hbefore _].
  pose proof (set_then_get (fun _ => 1%nat) "k"%string 7%nat 60 0 60 61 0
                (Cache.init 3600 10) H60) as [_ Hafter].
  split; [exact H60|]. split.
  - exact (Hbefore eq_refl).
  - exact (proj1 (Hafter ltac:(vm_compute; discriminate))).
Defined.

Lemma hit_rate_is_guarded_witness :
  exists st,
    Cache.get_stats (fun _ : nat => 1%nat) 0 store_3_1 = Some st
    /\ (hit_rate st == 3 # 4)%Q.
Proof.
  destruct (hit_rate_is_guarded (fun _ : nat => 1%nat) 0 store_3_1)
    as (st & Hst & _ & _ & Hrate & _).
  exists st. split; [exact Hst|].
  exact (proj1 (Hrate (or_introl (le_S _ _ (le_S _ _ (le_n 1)))))).
Defined.

Lemma delete_frame_witness :
  Cache.delete "zz" store_ab = (false, store_ab)
  /\ (Cache.delete "a" store_ab).1 = true
  /\ dict_keys (_cache (Cache.delete "a" store_ab).2) = ["b"%string]
  /\ counters (Cache.delete "a" store_ab).2 = (0%nat, 0%nat, 2%nat, 1%nat).
Proof.
  pose proof (delete_frame "zz"%string store_ab) as [Habsent _].
  pose proof (delete_frame "a"%string store_ab) as [_ Hpresent].
  destruct (Hpresent (fresh_entry 0 1%nat 3600) eq_refl)
    as (H1 & _ & _ & _ & H2 & _ & H3 & _).
  exact (conj (Habsent eq_refl) (conj H1 (conj H2 H3))).
Defined.

(** ** [PersistentCache]: what construction loads and deletes *)

Section persistent_facts.
Context {V : Type}.
Variable can_mkdir : bool.
Variable can_unlink : string -> bool.
Implicit Types (files : list (string * FileContent V)) (m : list (string * Entry V)).

(** One iteration: a live record is loaded, any other file is unlinked,
    and the iteration raises when that fails. *)
Lemma load_file_cases (now : Z) m dir (f : string * FileContent V) :
  Persistent.load_file can_unlink now (m, dir) f
  = if live now f
    then Some (match f.2 with
               | Stored key entry => dict_set key entry m
               | Unreadable | Corrupt => m
               end, dir)
    else if can_unlink f.1 then Some (m, dict_del f.1 dir) else None.
Proof.
  destruct f as [fname [| |key entry]]; unfold Persistent.load_file, live; simpl;
    try done.
Qed.

(** The loop returns when every file that is not live can be unlinked. *)
Lemma load_files_returns (now : Z) files
    (st : list (string * Entry V) * list (string * FileContent V)) :
  (forall f, f ∈ files -> live now f = false -> can_unlink f.1 = true) ->
  is_Some (Persistent.load_files can_unlink now st files).
Proof.
  revert st. induction files as [|f files IH]; intros [m dir] Hok; simpl.
  - by eexists.
  - rewrite load_file_cases.
    assert (Hrest : forall g, g ∈ files -> live now g = false -> can_unlink g.1 = true).
    { intros g Hg. apply Hok. by apply list_elem_of_further. }
    destruct (live now f) eqn:Hlive; simpl; [by apply IH|].
    rewrite (Hok f (list_elem_of_here _ _) Hlive). simpl. by apply IH.
Qed.


(** The directory after the loop: the files that are not live are gone. *)
Lemma load_files_dir (now : Z) (done todo : list (string * FileContent V)) m
    (st' : list (string * Entry V) * list (string * FileContent V)) :
  dict_wf (done ++ todo) ->
  Persistent.load_files can_unlink now
    (m, filter (fun f => live now f = true) done ++ todo) todo = Some st' ->
  st'.2 = filter (fun f => live now f = true) (done ++ todo).
Proof.
  revert done m. induction todo as [|f todo IH]; intros done m Hwf Hload.
  - simpl in Hload. injection Hload as <-. simpl. by rewrite !app_nil_r.
  - simpl in Hload. rewrite load_file_cases in Hload.
    assert (Hassoc : done ++ f :: todo = (done ++ [f]) ++ todo)
      by (by rewrite <- app_assoc).
    rewrite Hassoc in Hwf |- *.
    destruct (live now f) eqn:Hlive.
    + simpl in Hload.
      assert (Hdir : filter (fun f => live now f = true) done ++ f :: todo
                     = filter (fun f => live now f = true) (done ++ [f]) ++ todo).
      { rewrite filter_app, filter_cons, filter_nil, decide_True by done.
        by rewrite <- app_assoc. }
      rewrite Hdir in Hload. by apply (IH (done ++ [f])) in Hload.
    + destruct (can_unlink f.1); [|done]. simpl in Hload.
      assert (Hdir : dict_del f.1
                       (filter (fun f => live now f = true) done ++ f :: todo)
                     = filter (fun f => live now f = true) (done ++ [f]) ++ todo).
      { rewrite filter_app, filter_cons, filter_nil, decide_False by congruence.
        rewrite app_nil_r.
        destruct f as [fname content]. simpl.
        unfold dict_wf, dict_keys in Hwf.
        rewrite !fmap_app in Hwf. simpl in Hwf.
        apply NoDup_app in Hwf as (Hnd1 & Hdisj & _).
        apply NoDup_app in Hnd1 as (_ & Hdisj1 & _).
        apply dict_del_middle.
        * intros Hin. unfold dict_keys in Hin.
          apply list_elem_of_fmap in Hin as ([f' c'] & -> & Hin).
          apply list_elem_of_filter in Hin as [_ Hin].
          eapply Hdisj1; [|apply list_elem_of_here].
          apply list_elem_of_fmap. by exists (f', c').
        * intros Hin. eapply Hdisj; [|exact Hin].
          apply elem_of_app. right. apply list_elem_of_here. }
      rewrite Hdir in Hload. by apply (IH (done ++ [f])) in Hload.
Qed.

Lemma omap_cons {A B} (f : A -> option B) (x : A) (l : list A) :
  omap f (x :: l) = match f x with
                    | Some y => y :: omap f l
                    | None => omap f l
                    end.
Proof. done. Qed.

Lemma live_under_Some (now : Z) (k : string) (e : Entry V)
    (f : string * FileContent V) :
  live_under now k f = Some e <-> f.2 = Stored k e /\ now < expires e.
Proof.
  unfold live_under. destruct f as [fname [| |key entry]]; simpl;
    [split; [done|by intros [? _]]..|].
  case_bool_decide as Hk; destruct (Z.ltb_spec now (expires entry)); simpl;
    split; intros Hx; try done.
  - injection Hx as ->. by subst.
  - destruct Hx as [[= -> ->] _]. done.
  - destruct Hx as [[= -> ->] ?]. lia.
  - destruct Hx as [[= -> ->] ?]. done.
  - destruct Hx as [[= -> ->] ?]. done.
Qed.


(** The last live record stored under [k], from the first file on. *)
Lemma last_live_cons (now : Z) (k : string) (f : string * FileContent V) files :
  last_live now k (f :: files)
  = match last_live now k files with
    | Some e => Some e
    | None => live_under now k f
    end.
Proof.
  unfold last_live. rewrite omap_cons.
  destruct (live_under now k f) as [e|]; [|by destruct (last _)].
  rewrite last_cons. by destruct (last _).
Qed.

(** The memory after the loop, key by key: the last live record wins, and
    a key no live record is stored under keeps what it had. *)
Lemma load_files_mem (now : Z) (k : string) files m dir
    (st' : list (string * Entry V) * list (string * FileContent V)) :
  Persistent.load_files can_unlink now (m, dir) files = Some st' ->
  dict_get k st'.1
  = match last_live now k files with
    | Some e => Some e
    | None => dict_get k m
    end.
Proof.
  revert m dir. induction files as [|[fname content] files IH]; intros m dir Hload.
  - simpl in Hload. by injection Hload as <-.
  - simpl in Hload. rewrite load_file_cases in Hload. rewrite last_live_cons.
    unfold live, live_under in *. simpl in *.
    destruct content as [| |key entry]; simpl in *.
    + destruct (can_unlink fname); [|done]. simpl in Hload.
      rewrite (IH _ _ Hload). by destruct (last_live now k files).
    + destruct (can_unlink fname); [|done]. simpl in Hload.
      rewrite (IH _ _ Hload). by destruct (last_live now k files).
    + destruct (Z.ltb_spec now (expires entry)) as [Hlive|Hdead]; simpl in *.
      * rewrite (IH _ _ Hload).
        destruct (last_live now k files); [done|].
        case_bool_decide as Hk; simpl.
        -- subst key. apply dict_get_set_eq.
        -- by rewrite dict_get_set_ne.
      * rewrite andb_false_r.
        destruct (can_unlink fname); [|done]. simpl in Hload.
        rewrite (IH _ _ Hload). by destruct (last_live now k files).
Qed.

(** What a construction that returns leaves in the directory and in
    memory. *)
Lemma init_returned (now : Z) (disk : option (list (string * FileContent V)))
    (dttl cap : Z) (p : PersistentCache V) :
  Persistent.init can_mkdir can_unlink now disk dttl cap = Some p ->
  (dict_wf (default [] disk) ->
   cache_dir p = Some (filter (fun f => live now f = true) (default [] disk)))
  /\ (forall k, dict_get k (_cache (mem p)) = last_live now k (default [] disk))
  /\ counters (mem p) = (0%nat, 0%nat, 0%nat, 0%nat)
  /\ default_ttl (mem p) = dttl /\ max_size (mem p) = cap.
Proof.
  unfold Persistent.init, Persistent.mkdir, Persistent._load_from_disk.
  intros Hinit.
  assert (Hfiles : exists st,
            Persistent.load_files can_unlink now ([], default [] disk) (default [] disk)
            = Some st
            /\ p = mkPersistent (Cache.with_cache (Cache.init dttl cap) st.1)
                                (Some st.2)).
  { destruct disk as [files|]; simpl in *.
    - destruct (Persistent.load_files can_unlink now ([], files) files) as [st|];
        [|done]. simpl in Hinit. injection Hinit as <-. by exists st.
    - destruct can_mkdir; [|done]. simpl in Hinit. injection Hinit as <-.
      by exists ([], []). }
  destruct Hfiles as (st & Hload & ->). simpl. split_and!; [|  |done..].
  - intros Hwf. f_equal. exact (load_files_dir now [] (default [] disk) [] st Hwf Hload).
  - intros k. rewrite (load_files_mem now k _ _ _ _ Hload). simpl.
    by destruct (last_live now k (default [] disk)).
Qed.

(** The construction returns when the directory is there or can be made,
    and every file that is not live can be unlinked. *)
Lemma init_returns (now : Z) (disk : option (list (string * FileContent V)))
    (dttl cap : Z) :
  (disk = None -> can_mkdir = true) ->
  (forall f, f ∈ default [] disk -> live now f = false -> can_unlink f.1 = true) ->
  is_Some (Persistent.init can_mkdir can_unlink now disk dttl cap).
Proof.
  intros Hmk Hok.
  unfold Persistent.init, Persistent.mkdir, Persistent._load_from_disk.
  destruct disk as [files|]; simpl in *.
  - destruct (load_files_returns now files ([], files) Hok) as [st ->]. by eexists.
  - rewrite Hmk by done. simpl. by eexists.
Qed.

End persistent_facts.



(** ** Dates and date strings *)

Lemma digit_facts (c : ascii) (d : Z) :
  Py.digit c = Some d ->
  0 <= d <= 9
  /\ Ascii.eqb c "-" = false /\ Ascii.eqb c "+" = false
  /\ Py.is_space c = false.
Proof.
  destruct c as [[] [] [] [] [] [] [] []]; vm_compute; intros Hd;
    first [discriminate Hd
          | injection Hd as <-; repeat split; discriminate].
Qed.

Lemma weekday_range (d : Py.date) : 0 <= Py.weekday d <= 6.
Proof. unfold Py.weekday. pose proof (Z.mod_pos_bound (Py.toordinal d + 6) 7). lia. Qed.

(** A string [strptime] accepts starts with four digits and a dash, and
    the digits are the year of the date. *)
Lemma strptime_inv (s : string) (d : Py.date) :
  Py.strptime s = Some d ->
  exists y1 y2 y3 y4 rest d1 d2 d3 d4,
    s = String y1 (String y2 (String y3 (String y4 (String "-" rest))))
    /\ Py.digit y1 = Some d1 /\ Py.digit y2 = Some d2
    /\ Py.digit y3 = Some d3 /\ Py.digit y4 = Some d4
    /\ Py.year d = 1000 * d1 + 100 * d2 + 10 * d3 + d4.
Proof.
  destruct s as [|y1 [|y2 [|y3 [|y4 [|dash rest]]]]]; try discriminate.
  unfold Py.strptime.
  destruct (Py.digit y1) as [d1|] eqn:H1; [|discriminate].
  destruct (Py.digit y2) as [d2|] eqn:H2; [|discriminate].
  destruct (Py.digit y3) as [d3|] eqn:H3; [|discriminate].
  destruct (Py.digit y4) as [d4|] eqn:H4; [|discriminate].
  simpl. destruct (Ascii.eqb_spec dash "-") as [->|]; [|discriminate].
  destruct (Py.parse_m _) as [m|]; [|discriminate]. simpl.
  destruct ((Py.split_dash rest).2) as [ds|]; [|discriminate]. simpl.
  destruct (Py.parse_d ds) as [dd|]; [|discriminate]. simpl.
  destruct (Py.valid_date _ _ _); [|discriminate].
  intros [= <-]. by exists y1, y2, y3, y4, rest, d1, d2, d3, d4.
Qed.

Lemma strptime_year (s : string) (d : Py.date) :
  Py.strptime s = Some d -> Py.int (Py.split_dash s).1 = Some (Py.year d).
Proof.
  intros Hs.
  destruct (strptime_inv s d Hs)
    as (y1 & y2 & y3 & y4 & rest & d1 & d2 & d3 & d4 & -> & H1 & H2 & H3 & H4 & ->).
  destruct (digit_facts _ _ H1) as (_ & Hm1 & Hp1 & Hs1).
  destruct (digit_facts _ _ H2) as (_ & Hm2 & _).
  destruct (digit_facts _ _ H3) as (_ & Hm3 & _).
  destruct (digit_facts _ _ H4) as (_ & Hm4 & _).
  simpl. rewrite Hm1, Hm2, Hm3, Hm4. simpl.
  assert (Hcount : Py.count_digits (String y1 (String y2 (String y3 (String y4 ""))))
                   = 4).
  { unfold Py.count_digits, Py.is_digit. by rewrite H1, H2, H3, H4. }
  unfold Py.int. rewrite Hcount.
  change (4300 <? 4) with false. cbv iota.
  simpl. rewrite Hs1, Hm1, Hp1. simpl.
  rewrite H1, H2, H3, H4. f_equal. lia.
Qed.

(** ** The scans of the holiday tools *)

Section scans.
Implicit Types (day : DayRecord) (days : list DayRecord).

Lemma find_date_first (date : string) days day :
  first_such (fun d => bool_decide (Feed.date d = Some date)) days day ->
  find_date date days = Some day.
Proof.
  intros (l1 & l2 & -> & Hday & Hl1).
  induction l1 as [|x l1 IH]; simpl.
  - by rewrite Hday.
  - rewrite (Hl1 x) by apply list_elem_of_here.
    apply IH. intros y Hy. apply Hl1. by apply list_elem_of_further.
Qed.

Lemma find_date_none (date : string) days :
  none_such (fun d => bool_decide (Feed.date d = Some date)) days ->
  find_date date days = None.
Proof.
  intros Hnone. induction days as [|x days IH]; simpl; [done|].
  rewrite (Hnone x) by apply list_elem_of_here.
  apply IH. intros y Hy. apply Hnone. by apply list_elem_of_further.
Qed.

Lemma scan_current_first (today : Py.date) days day :
  holidays_dated days ->
  first_such (upcoming today) days day ->
  Server.scan_current today days = Some (Some day).
Proof.
  intros Hdated (l1 & l2 & -> & Hday & Hl1).
  induction l1 as [|x l1 IH]; simpl.
  - unfold upcoming, is_holiday_record in Hday.
    apply andb_prop in Hday as [-> Hgt]. unfold parsed_date in Hgt.
    destruct (Feed.date day ≫= Py.strptime) as [d|]; [|done]. simpl. by rewrite Hgt.
  - assert (IH' : Server.scan_current today (l1 ++ day :: l2) = Some (Some day)).
    { apply IH.
      - intros y Hy. apply Hdated. by apply list_elem_of_further.
      - intros y Hy. apply Hl1. by apply list_elem_of_further. }
    pose proof (Hl1 x (list_elem_of_here _ _)) as Hx.
    unfold upcoming in Hx. fold (is_holiday_record x).
    destruct (is_holiday_record x) eqn:Hh; [|done].
    destruct (Hdated x (list_elem_of_here _ _) Hh) as [d Hd].
    unfold parsed_date in Hd, Hx. rewrite Hd in Hx |- *. simpl in *.
    by rewrite Hx.
Qed.

Lemma scan_current_none (today : Py.date) days :
  holidays_dated days ->
  none_such (upcoming today) days ->
  Server.scan_current today days = Some None.
Proof.
  intros Hdated Hnone. induction days as [|x days IH]; simpl; [done|].
  assert (IH' : Server.scan_current today days = Some None).
  { apply IH.
    - intros y Hy. apply Hdated. by apply list_elem_of_further.
    - intros y Hy. apply Hnone. by apply list_elem_of_further. }
  pose proof (Hnone x (list_elem_of_here _ _)) as Hx.
  unfold upcoming in Hx. fold (is_holiday_record x).
  destruct (is_holiday_record x) eqn:Hh; [|done].
  destruct (Hdated x (list_elem_of_here _ _) Hh) as [d Hd].
  unfold parsed_date in Hd, Hx. rewrite Hd in Hx |- *. simpl in *.
  by rewrite Hx.
Qed.

Lemma scan_next_first days day :
  first_such is_holiday_record days day -> Server.scan_next days = Some day.
Proof.
  intros (l1 & l2 & -> & Hday & Hl1).
  induction l1 as [|x l1 IH]; simpl.
  - fold (is_holiday_record day). by rewrite Hday.
  - fold (is_holiday_record x). rewrite (Hl1 x) by apply list_elem_of_here.
    apply IH. intros y Hy. apply Hl1. by apply list_elem_of_further.
Qed.

Lemma scan_next_none days :
  none_such is_holiday_record days -> Server.scan_next days = None.
Proof.
  intros Hnone. induction days as [|x days IH]; simpl; [done|].
  fold (is_holiday_record x). rewrite (Hnone x) by apply list_elem_of_here.
  apply IH. intros y Hy. apply Hnone. by apply list_elem_of_further.
Qed.

(** The answer the server builds from a dated holiday record reports it. *)
Lemma answer_reports (today : Py.date) day :
  is_holiday_record day = true -> is_Some (parsed_date day) ->
  exists r, Server.answer_or_fail today (Some day) = Ok r /\ reports today day r.
Proof.
  intros Hh [d Hd]. unfold Server.answer_or_fail, Server.next_answer.
  unfold parsed_date in Hd.
  destruct (Feed.date day) as [s|] eqn:Hs; [|done]. simpl in Hd. simpl. rewrite Hd.
  unfold is_holiday_record, has_name in Hh. apply andb_prop in Hh as [_ Hn].
  destruct (Feed.name day) as [n|] eqn:Hname; [|done]. simpl.
  eexists. split; [done|]. unfold reports, parsed_date. simpl.
  rewrite Hs, Hname. simpl. split_and!; [done..|]. exists d. by rewrite Hd.
Qed.

(** In a list whose dates ascend, the first upcoming holiday is the
    earliest one. *)
Lemma first_upcoming_is_earliest (today : Py.date) days day :
  ascending days ->
  first_such (upcoming today) days day ->
  forall day', day' ∈ days -> upcoming today day' = true ->
               day' = day \/ earlier day day'.
Proof.
  intros Hasc (l1 & l2 & -> & Hday & Hl1) day' Hin Hup.
  apply elem_of_app in Hin as [Hin|Hin].
  - rewrite (Hl1 _ Hin) in Hup. done.
  - apply elem_of_cons in Hin as [->|Hin]; [by left|]. right.
    apply StronglySorted_app_1_r in Hasc.
    apply StronglySorted_inv in Hasc as [_ Hall].
    rewrite Forall_forall in Hall. by apply Hall.
Qed.
End scans.

(** ** [lookupDay] *)

Section lookup.
Variable http : Source -> Z -> option YearData.

Lemma server_holiday_info_resolved (now_str date : string) (date_obj : Py.date)
    (cache : gmap Z YearData) (data : YearData) :
  Py.strptime date = Some date_obj ->
  (Server.fetch_holiday_data http (Py.year date_obj) cache).1 = Some data ->
  truthy data = true ->
  (Server.holiday_info http now_str (Some date) cache).1
  = match find_date date (days_of data) with
    | Some date_info =>
        Ok (info_of_record date date_info (Some (weekday_name date_obj)))
    | None => Ok (info_of_weekday date date_obj (Some (weekday_name date_obj)))
    end.
Proof.
  intros Hparse Hfetch Htruthy. unfold Server.holiday_info.
  assert (Heq : String.eqb date "" = false).
  { apply String.eqb_neq. intros ->. discriminate Hparse. }
  rewrite Heq, Hparse, (strptime_year _ _ Hparse).
  destruct (Server.fetch_holiday_data http (Py.year date_obj) cache) as [o cache'].
  simpl in Hfetch. subst o. rewrite Htruthy.
  by destruct (find_date date (days_of data)).
Qed.

Lemma script_holiday_info_resolved (current_time current_year : Z) (date : string)
    (date_obj : Py.date) (st : ScriptCache) (data : YearData) :
  Py.strptime date = Some date_obj ->
  (Script.fetch_holiday_data http current_time (Py.year date_obj) st).1 = Some data ->
  truthy data = true ->
  (Script.get_holiday_info http current_time current_year date st).1
  = match find_date date (days_of data) with
    | Some date_info => Ok (info_of_record date date_info None)
    | None => Ok (info_of_weekday date date_obj None)
    end.
Proof.
  intros Hparse Hfetch Htruthy. unfold Script.get_holiday_info, Script.get_date_year.
  rewrite (strptime_year _ _ Hparse). simpl.
  destruct (Script.fetch_holiday_data http current_time (Py.year date_obj) st) as [o st'].
  simpl in Hfetch. subst o. rewrite Htruthy, Hparse.
  by destruct (find_date date (days_of data)).
Qed.

(** The classification of the two branches, field by field. *)
Lemma info_of_record_fields (date : string) (day : DayRecord) (wd : option string) :
  let info := info_of_record date day wd in
  hi_date info = date
  /\ hi_name info = match Feed.name day with Some n => n | None => ""%string end
  /\ hi_note info = match Feed.note day with Some n => n | None => ""%string end
  /\ (Feed.isOffDay day = Some true ->
      hi_type info = "holiday"%string
      /\ hi_is_holiday info = true /\ hi_is_work_day info = false)
  /\ (Feed.isOffDay day ≠ Some true ->
      hi_type info = "work"%string
      /\ hi_is_holiday info = false /\ hi_is_work_day info = true).
Proof.
  unfold info_of_record, off_day. simpl. split_and!.
  - done.
  - by destruct (Feed.name day).
  - by destruct (Feed.note day).
  - by intros ->.
  - intros Hoff. by destruct (Feed.isOffDay day) as [[]|].
Qed.

Lemma info_of_weekday_fields (date : string) (date_obj : Py.date)
    (wd : option string) :
  let info := info_of_weekday date date_obj wd in
  hi_date info = date
  /\ hi_name info = "普通日"%string
  /\ hi_type info = "normal"%string
  /\ (5 <= Py.weekday date_obj ->
      hi_is_holiday info = true /\ hi_is_work_day info = false
      /\ hi_note info = "周末"%string)
  /\ (Py.weekday date_obj <= 4 ->
      hi_is_holiday info = false /\ hi_is_work_day info = true
      /\ hi_note info = "工作日"%string).
Proof.
  unfold info_of_weekday. simpl. split_and!; [done..| |].
  - intros Hw. by destruct (Z.leb_spec 5 (Py.weekday date_obj)); [|lia].
  - intros Hw. by destruct (Z.leb_spec 5 (Py.weekday date_obj)); [lia|].
Qed.

(** The search of the two tools, on a list given with its elements. *)
Lemma find_date_at (date : string) (l1 l2 : list DayRecord) (day : DayRecord) :
  Feed.date day = Some date ->
  (forall y, y ∈ l1 -> Feed.date y ≠ Some date) ->
  find_date date (l1 ++ day :: l2) = Some day.
Proof.
  intros Hday Hl1. apply find_date_first. exists l1, l2.
  split_and!; [done|by apply bool_decide_eq_true|].
  intros y Hy. apply bool_decide_eq_false. by apply Hl1.
Qed.

Lemma find_date_nowhere (date : string) (days : list DayRecord) :
  (forall y, y ∈ days -> Feed.date y ≠ Some date) ->
  find_date date days = None.
Proof.
  intros Hnone. apply find_date_none. intros y Hy.
  apply bool_decide_eq_false. by apply Hnone.
Qed.

Lemma days_resolved (data : YearData) (days : list DayRecord) :
  Feed.days data = Some days -> truthy data = true /\ days_of data = days.
Proof.
  intros Hd. unfold truthy, days_of. rewrite Hd. split; [|done].
  apply orb_true_iff. right. apply bool_decide_eq_true. by eexists.
Qed.

(** C6.  For a date string that is a calendar date and whose year's data
    is resolved with its list of records, the server's [holiday_info] and
    the script's [get_holiday_info] both answer from the first record of
    the list that carries exactly that date: with the record's name and
    note, as type [holiday] and a day off when its [isOffDay] is true, and
    as type [work] and a work day when [isOffDay] is false or missing.
    When no record carries the date they do not fail: the answer has the
    name 普通日 and the type [normal], and is a day off on Saturday and
    Sunday ([weekday() >= 5]) and a work day from Monday to Friday. *)
Theorem lookup_day_classifies (date : string) (date_obj : Py.date) :
  Py.strptime date = Some date_obj ->
  (forall now_str cache data days,
     (Server.fetch_holiday_data http (Py.year date_obj) cache).1 = Some data ->
     Feed.days data = Some days ->
     let r := (Server.holiday_info http now_str (Some date) cache).1 in
     (forall l1 day l2,
        days = l1 ++ day :: l2 ->
        Feed.date day = Some date ->
        (forall y, y ∈ l1 -> Feed.date y ≠ Some date) ->
        exists info,
          r = Ok info
          /\ hi_date info = date
          /\ hi_name info = match Feed.name day with Some n => n | None => ""%string end
          /\ hi_note info = match Feed.note day with Some n => n | None => ""%string end
          /\ (Feed.isOffDay day = Some true ->
              hi_type info = "holiday"%string
              /\ hi_is_holiday info = true /\ hi_is_work_day info = false)
          /\ (Feed.isOffDay day ≠ Some true ->
              hi_type info = "work"%string
              /\ hi_is_holiday info = false /\ hi_is_work_day info = true))
     /\ ((forall y, y ∈ days -> Feed.date y ≠ Some date) ->
         exists info,
           r = Ok info
           /\ hi_date info = date
           /\ hi_name info = "普通日"%string
           /\ hi_type info = "normal"%string
           /\ (5 <= Py.weekday date_obj ->
               hi_is_holiday info = true /\ hi_is_work_day info = false
               /\ hi_note info = "周末"%string)
           /\ (Py.weekday date_obj <= 4 ->
               hi_is_holiday info = false /\ hi_is_work_day info = true
               /\ hi_note info = "工作日"%string)))
  /\ (forall current_time current_year st data days,
     (Script.fetch_holiday_data http current_time (Py.year date_obj) st).1 = Some data ->
     Feed.days data = Some days ->
     let r := (Script.get_holiday_info http current_time current_year date st).1 in
     (forall l1 day l2,
        days = l1 ++ day :: l2 ->
        Feed.date day = Some date ->
        (forall y, y ∈ l1 -> Feed.date y ≠ Some date) ->
        exists info,
          r = Ok info
          /\ hi_date info = date
          /\ hi_name info = match Feed.name day with Some n => n | None => ""%string end
          /\ hi_note info = match Feed.note day with Some n => n | None => ""%string end
          /\ (Feed.isOffDay day = Some true ->
              hi_type info = "holiday"%string
              /\ hi_is_holiday info = true /\ hi_is_work_day info = false)
          /\ (Feed.isOffDay day ≠ Some true ->
              hi_type info = "work"%string
              /\ hi_is_holiday info = false /\ hi_is_work_day info = true))
     /\ ((forall y, y ∈ days -> Feed.date y ≠ Some date) ->
         exists info,
           r = Ok info
           /\ hi_date info = date
           /\ hi_name info = "普通日"%string
           /\ hi_type info = "normal"%string
           /\ (5 <= Py.weekday date_obj ->
               hi_is_holiday info = true /\ hi_is_work_day info = false
               /\ hi_note info = "周末"%string)
           /\ (Py.weekday date_obj <= 4 ->
               hi_is_holiday info = false /\ hi_is_work_day info = true
               /\ hi_note info = "工作日"%string))).
Proof.
  intros Hparse. split.
  - intros now_str cache data days Hfetch Hdays r.
    destruct (days_resolved data days Hdays) as [Htruthy Hof].
    assert (Hr : r = match find_date date days with
                     | Some date_info =>
                         Ok (info_of_record date date_info
                               (Some (weekday_name date_obj)))
                     | None => Ok (info_of_weekday date date_obj
                                     (Some (weekday_name date_obj)))
                     end).
    { subst r. rewrite <- Hof.
      by apply server_holiday_info_resolved. }
    split.
    + intros l1 day l2 -> Hday Hl1. rewrite (find_date_at date l1 l2 day Hday Hl1) in Hr.
      eexists. split; [exact Hr|]. apply info_of_record_fields.
    + intros Hnone. rewrite (find_date_nowhere date days Hnone) in Hr.
      eexists. split; [exact Hr|]. apply info_of_weekday_fields.
  - intros current_time current_year st data days Hfetch Hdays r.
    destruct (days_resolved data days Hdays) as [Htruthy Hof].
    assert (Hr : r = match find_date date days with
                     | Some date_info => Ok (info_of_record date date_info None)
                     | None => Ok (info_of_weekday date date_obj None)
                     end).
    { subst r. rewrite <- Hof.
      by apply script_holiday_info_resolved. }
    split.
    + intros l1 day l2 -> Hday Hl1. rewrite (find_date_at date l1 l2 day Hday Hl1) in Hr.
      eexists. split; [exact Hr|]. apply info_of_record_fields.
    + intros Hnone. rewrite (find_date_nowhere date days Hnone) in Hr.
      eexists. split; [exact Hr|]. apply info_of_weekday_fields.
Qed.
End lookup.

Lemma lookup_day_classifies_witness :
  (exists info,
     (Server.holiday_info http_24_25 "2024-01-01" (Some "2024-06-16"%string)
                          empty_cache).1 = Ok info
     /\ hi_name info = "普通日"%string /\ hi_type info = "normal"%string
     /\ hi_is_holiday info = true /\ hi_is_work_day info = false)
  /\ (exists info,
     (Script.get_holiday_info http_24_25 0 2024 "2024-06-17"%string
                              empty_script_cache).1 = Ok info
     /\ hi_type info = "normal"%string
     /\ hi_is_holiday info = false /\ hi_is_work_day info = true)
  /\ (exists info,
     (Server.holiday_info http_24_25 "2024-01-01" (Some "2024-10-06"%string)
                          empty_cache).1 = Ok info
     /\ hi_name info = "国庆节"%string /\ hi_type info = "holiday"%string
     /\ hi_is_holiday info = true /\ hi_is_work_day info = false)
  /\ (exists info,
     (Script.get_holiday_info http_24_25 0 2024 "2024-02-04"%string
                              empty_script_cache).1 = Ok info
     /\ hi_name info = "春节"%string /\ hi_type info = "work"%string
     /\ hi_is_holiday info = false /\ hi_is_work_day info = true).
Proof.
  assert (Hserver : (Server.fetch_holiday_data http_24_25 2024 empty_cache).1
                    = Some feed_2024) by (vm_compute; reflexivity).
  assert (Hscript : (Script.fetch_holiday_data http_24_25 0 2024 empty_script_cache).1
                    = Some feed_2024) by (vm_compute; reflexivity).
  split_and!.
  - pose proof (lookup_day_classifies http_24_25 "2024-06-16"%string
                  june_16 eq_refl) as [Hs _].
    destruct (Hs "2024-01-01"%string empty_cache feed_2024 _ Hserver eq_refl)
      as [_ Habsent].
    destruct Habsent as (info & Hinfo & _ & Hname & Htype & Hweekend & _).
    { intros y Hy. each_element Hy ltac:(discriminate). }
    destruct (Hweekend ltac:(vm_compute; discriminate)) as (Hhol & Hwork & _).
    exists info. by split_and!.
  - pose proof (lookup_day_classifies http_24_25 "2024-06-17"%string
                  (Py.mkDate 2024 6 17) eq_refl) as [_ Hs].
    destruct (Hs 0 2024 empty_script_cache feed_2024 _ Hscript eq_refl)
      as [_ Habsent].
    destruct Habsent as (info & Hinfo & _ & _ & Htype & _ & Hweek).
    { intros y Hy. each_element Hy ltac:(discriminate). }
    destruct (Hweek ltac:(vm_compute; discriminate)) as (Hhol & Hwork & _).
    exists info. by split_and!.
  - pose proof (lookup_day_classifies http_24_25 "2024-10-06"%string
                  (Py.mkDate 2024 10 6) eq_refl) as [Hs _].
    destruct (Hs "2024-01-01"%string empty_cache feed_2024 _ Hserver eq_refl)
      as [Hfound _].
    destruct (Hfound
                [mkDay (Some "2024-01-01") (Some true) (Some "元旦") None;
                 mkDay (Some "2024-02-04") (Some false) (Some "春节") None;
                 mkDay (Some "2024-10-05") (Some true) (Some "") None]%string
                national_day [] eq_refl eq_refl)
      as (info & Hinfo & _ & Hname & _ & Hhol & _).
    { intros y Hy. each_element Hy ltac:(discriminate). }
    destruct (Hhol eq_refl) as (Htype & Hh & Hw).
    exists info. by split_and!.
  - pose proof (lookup_day_classifies http_24_25 "2024-02-04"%string
                  (Py.mkDate 2024 2 4) eq_refl) as [_ Hs].
    destruct (Hs 0 2024 empty_script_cache feed_2024 _ Hscript eq_refl)
      as [Hfound _].
    destruct (Hfound
                [mkDay (Some "2024-01-01") (Some true) (Some "元旦") None]%string
                (mkDay (Some "2024-02-04") (Some false) (Some "春节") None)%string
                [mkDay (Some "2024-10-05") (Some true) (Some "") None;
                 mkDay (Some "2024-10-06") (Some true) (Some "国庆节") None]%string
                eq_refl eq_refl)
      as (info & Hinfo & _ & Hname & _ & _ & Hwork).
    { intros y Hy. each_element Hy ltac:(discriminate). }
    destruct (Hwork ltac:(discriminate)) as (Htype & Hh & Hw).
    exists info. by split_and!.
Defined.

(** ** [listHolidaysForYear] *)

Section year_list.
Variable http : Source -> Z -> option YearData.
Implicit Types (day : DayRecord) (days : list DayRecord).

Lemma collect_holidays_fields days :
  (forall day, day ∈ days -> is_holiday_record day = true -> is_Some (Feed.date day)) ->
  exists items,
    Server.collect_holidays days = Some items
    /\ item_fields <$> items
       = record_fields <$> filter (fun d => is_holiday_record d = true) days.
Proof.
  induction days as [|x days IH]; intros Hdate.
  - by exists [].
  - destruct IH as (items & Hitems & Hfields).
    { intros y Hy. apply Hdate. by apply list_elem_of_further. }
    rewrite filter_cons.
    change (Server.collect_holidays (x :: days))
      with (if is_holiday_record x
            then item ← Server.holiday_item x;
                 items ← Server.collect_holidays days; Some (item :: items)
            else Server.collect_holidays days).
    case_decide as Hx.
    + destruct (Hdate x (list_elem_of_here _ _) Hx) as [s Hs].
      rewrite Hx. unfold Server.holiday_item. rewrite Hs. simpl. rewrite Hitems. simpl.
      eexists. split; [done|].
      rewrite !fmap_cons, Hfields. f_equal.
      unfold item_fields, record_fields. simpl. by rewrite Hs.
    + apply not_true_is_false in Hx. rewrite Hx. by exists items.
Qed.

(** Whatever a property of the dates, a sublist selected by [filter] and
    copied field by field inherits the order of the list. *)
Lemma filter_ascending (P : DayRecord -> Prop) `{!forall d, Decision (P d)} days :
  ascending days -> ascending (filter P days).
Proof.
  unfold ascending. induction 1 as [|x l Hl IH Hall]; [constructor|].
  rewrite filter_cons. destruct (decide (P x)); [|done].
  constructor; [done|]. apply Forall_forall. intros y Hy.
  apply list_elem_of_filter in Hy as [_ Hy].
  rewrite Forall_forall in Hall. by apply Hall.
Qed.

Lemma items_ascending_of_fields (items : list HolidayItem) days :
  item_fields <$> items = record_fields <$> days ->
  ascending days -> items_ascending items.
Proof.
  unfold ascending, items_ascending. intros Hf Hasc. revert items Hf.
  induction Hasc as [|x l Hl IH Hall]; intros items Hf.
  - destruct items; [constructor|discriminate].
  - destruct items as [|it items]; [discriminate|].
    rewrite !fmap_cons in Hf. injection Hf as Hdx _ _ Hrest.
    constructor; [by apply IH|].
    apply Forall_forall. intros it' Hin.
    apply list_elem_of_lookup in Hin as [i Hi].
    assert (Hlook : (record_fields <$> l) !! i = Some (item_fields it'))
      by by rewrite <- Hrest, list_lookup_fmap, Hi.
    rewrite list_lookup_fmap in Hlook.
    destruct (l !! i) as [d'|] eqn:Hd'; [|done].
    apply (inj Some) in Hlook.
    rewrite Forall_forall in Hall.
    destruct (Hall d') as (da & db & Ha & Hb & Hgt).
    { apply list_elem_of_lookup. by exists i. }
    assert (Hdd : it_date it' = Feed.date d')
      by (unfold item_fields, record_fields in Hlook; congruence).
    exists da, db. unfold parsed_date in Ha, Hb. by rewrite Hdx, Hdd.
Qed.

(** C7 (as amended).  When the year's data is resolved, the server's
    [current_year_holidays] returns the records with [isOffDay] true and a
    non-empty name, projected to date, name and note (it adds the English
    name of the weekday), in the order of the list; the script's
    [get_current_year_holidays] returns, likewise projected and ordered, the
    records with [isOffDay] true, named or not.  Neither sorts: the result
    ascends by date when the year's list does. *)
Theorem list_holidays_for_year (year : Z) :
  (forall cache data,
     (Server.fetch_holiday_data http year cache).1 = Some data ->
     truthy data = true ->
     (forall day, day ∈ days_of data -> is_holiday_record day = true ->
                  is_Some (Feed.date day)) ->
     exists yh,
       (Server.current_year_holidays http year cache).1 = Ok yh
       /\ yh_year yh = year
       /\ yh_total_count yh = length (yh_holidays yh)
       /\ item_fields <$> yh_holidays yh
          = record_fields
              <$> filter (fun d => is_holiday_record d = true) (days_of data)
       /\ (ascending (days_of data) -> items_ascending (yh_holidays yh)))
  /\ (forall current_time st data,
     (Script.fetch_holiday_data http current_time year st).1 = Some data ->
     truthy data = true ->
     exists yh,
       (Script.get_current_year_holidays http current_time year st).1 = Ok yh
       /\ yh_year yh = year
       /\ yh_total_count yh = length (yh_holidays yh)
       /\ item_fields <$> yh_holidays yh
          = record_fields <$> filter (fun d => off_day d = true) (days_of data)
       /\ (ascending (days_of data) -> items_ascending (yh_holidays yh))).
Proof.
  split.
  - intros cache data Hfetch Htruthy Hdate.
    unfold Server.current_year_holidays.
    destruct (Server.fetch_holiday_data http year cache) as [o cache'].
    simpl in Hfetch. subst o. rewrite Htruthy.
    destruct (collect_holidays_fields _ Hdate) as (items & -> & Hfields).
    eexists. simpl. split_and!; [done..|].
    intros Hasc. eapply items_ascending_of_fields; [exact Hfields|].
    by apply filter_ascending.
  - intros current_time st data Hfetch Htruthy.
    unfold Script.get_current_year_holidays.
    destruct (Script.fetch_holiday_data http current_time year st) as [o st'].
    simpl in Hfetch. subst o. rewrite Htruthy.
    assert (Hfields :
      item_fields <$> (Script.holiday_item
                         <$> filter (fun d => off_day d = true) (days_of data))
      = record_fields <$> filter (fun d => off_day d = true) (days_of data)).
    { rewrite <- list_fmap_compose. by apply list_fmap_ext. }
    eexists. simpl. split_and!; [done..|].
    intros Hasc. eapply items_ascending_of_fields; [exact Hfields|].
    by apply filter_ascending.
Qed.
End year_list.

(** C7, the claim as written fails on the script: an off day whose name
    is empty is listed. *)
Lemma script_lists_unnamed_off_days :
  exists yh,
    (Script.get_current_year_holidays http_24_25 0 2024 empty_script_cache).1 = Ok yh
    /\ item_fields <$> yh_holidays yh
       ≠ record_fields
           <$> filter (fun d => is_holiday_record d = true) (days_of feed_2024).
Proof. eexists. split; [vm_compute; reflexivity|]. vm_compute. discriminate. Qed.

Lemma list_holidays_for_year_witness :
  exists yh,
    (Server.current_year_holidays http_24_25 2024 empty_cache).1 = Ok yh
    /\ it_date <$> yh_holidays yh = [Some "2024-01-01"; Some "2024-10-06"]%string.
Proof.
  pose proof (list_holidays_for_year http_24_25 2024) as [Hserver _].
  destruct (Hserver empty_cache feed_2024 ltac:(vm_compute; reflexivity) eq_refl)
    as (yh & Hyh & _ & _ & Hfields & _).
  { intros day Hday Hh. each_element Hday ltac:(by eexists). }
  exists yh. split; [exact Hyh|].
  apply (f_equal (fmap (fun t : option string * string * string => t.1.1))) in Hfields.
  rewrite <- !list_fmap_compose in Hfields. exact Hfields.
Defined.

(** ** [nextHoliday] *)

Section next.
Variable http : Source -> Z -> option YearData.
Implicit Types (day : DayRecord) (days : list DayRecord).

Lemma script_scan_first (current_date : string) days day :
  off_days_dated days ->
  first_such (upcoming_str current_date) days day ->
  Script.scan current_date (filter (fun d => off_day d = true) days)
  = Some (Some day).
Proof.
  intros Hdated (l1 & l2 & -> & Hday & Hl1).
  unfold upcoming_str in Hday. apply andb_prop in Hday as [Hoff Hlt].
  induction l1 as [|x l1 IH].
  - simpl. rewrite filter_cons, decide_True by done. simpl.
    destruct (Feed.date day) as [s|]; [|done]. simpl. by rewrite Hlt.
  - assert (IH' : Script.scan current_date
                    (filter (fun d => off_day d = true) (l1 ++ day :: l2))
                  = Some (Some day)).
    { apply IH.
      - intros y Hy. apply Hdated. by apply list_elem_of_further.
      - intros y Hy. apply Hl1. by apply list_elem_of_further. }
    simpl. rewrite filter_cons. case_decide as Hx; [|done].
    pose proof (Hl1 x (list_elem_of_here _ _)) as Hup. unfold upcoming_str in Hup.
    rewrite Hx in Hup. simpl in Hup.
    destruct (Hdated x (list_elem_of_here _ _) Hx) as [s Hs].
    simpl. rewrite Hs in Hup |- *. simpl. by rewrite Hup.
Qed.

Lemma script_scan_none (current_date : string) days :
  off_days_dated days ->
  none_such (upcoming_str current_date) days ->
  Script.scan current_date (filter (fun d => off_day d = true) days) = Some None.
Proof.
  intros Hdated Hnone. induction days as [|x days IH]; [done|].
  assert (IH' : Script.scan current_date (filter (fun d => off_day d = true) days)
                = Some None).
  { apply IH.
    - intros y Hy. apply Hdated. by apply list_elem_of_further.
    - intros y Hy. apply Hnone. by apply list_elem_of_further. }
  rewrite filter_cons. case_decide as Hx; [|done].
  pose proof (Hnone x (list_elem_of_here _ _)) as Hup. unfold upcoming_str in Hup.
  rewrite Hx in Hup. simpl in Hup.
  destruct (Hdated x (list_elem_of_here _ _) Hx) as [s Hs].
  simpl. rewrite Hs in Hup |- *. simpl. by rewrite Hup.
Qed.

Lemma script_answer_reports (current_date : string) (today : Py.date) day :
  Py.strptime current_date = Some today ->
  is_Some (parsed_date day) ->
  exists r, Script.next_answer current_date day = Some r /\ reports today day r.
Proof.
  intros Htoday [d Hd]. unfold Script.next_answer. unfold parsed_date in Hd.
  destruct (Feed.date day) as [s|] eqn:Hs; [|done]. simpl in Hd. simpl.
  rewrite Hd, Htoday. simpl. eexists. split; [done|].
  unfold reports, parsed_date. simpl. rewrite Hs. simpl.
  split_and!; [done..|]. exists d. by rewrite Hd.
Qed.

(** C1 (as amended).  With this year's data resolved and its holiday
    records dated, the server's [next_holiday] reports the first record of
    this year's list that has [isOffDay] true, a non-empty name and a date
    strictly after today (the earliest such record when the list ascends);
    when the list has none, it resolves next year's data and reports the
    first record of that list with [isOffDay] true and a non-empty name,
    wherever it stands in the list.  The script's [get_next_holiday]
    resolves both years first, and reports the first record, over this
    year's list followed by next year's, that has [isOffDay] true and a date
    string above today's: it does not look at the name. *)
Theorem next_holiday_scans_in_order :
  (forall today cache data cache1,
     Server.fetch_holiday_data http (Py.year today) cache = (Some data, cache1) ->
     truthy data = true ->
     holidays_dated (days_of data) ->
     let r := (Server.next_holiday http today cache).1 in
     (forall day, first_such (upcoming today) (days_of data) day ->
        (exists a, r = Ok a /\ reports today day a)
        /\ (ascending (days_of data) ->
            forall day', day' ∈ days_of data -> upcoming today day' = true ->
                         day' = day \/ earlier day day'))
     /\ (none_such (upcoming today) (days_of data) ->
         forall data',
           (Server.fetch_holiday_data http (Py.year today + 1) cache1).1 = Some data' ->
           truthy data' = true ->
           (forall day, first_such is_holiday_record (days_of data') day ->
                        is_Some (parsed_date day) ->
                        exists a, r = Ok a /\ reports today day a)
           /\ (none_such is_holiday_record (days_of data') -> r = Err NoNextHoliday)))
  /\ (forall current_date today current_year t1 t2 st d1 st1 d2 st2,
     Py.strptime current_date = Some today ->
     Script.fetch_holiday_data http t1 current_year st = (d1, st1) ->
     Script.fetch_holiday_data http t2 (current_year + 1) st1 = (d2, st2) ->
     off_days_dated (Script.usable_days d1 ++ Script.usable_days d2) ->
     let r := (Script.get_next_holiday http current_date current_year t1 t2 st).1 in
     (forall day,
        first_such (upcoming_str current_date)
                   (Script.usable_days d1 ++ Script.usable_days d2) day ->
        is_Some (parsed_date day) ->
        exists a, r = Ok a /\ reports today day a)
     /\ (none_such (upcoming_str current_date)
                   (Script.usable_days d1 ++ Script.usable_days d2) ->
         r = Err NoFutureHoliday)).
Proof.
  split.
  - intros today cache data cache1 Hfetch Htruthy Hdated r. subst r.
    unfold Server.next_holiday. rewrite Hfetch, Htruthy. split.
    + intros day Hfirst.
      split; [|intros Hasc; exact (first_upcoming_is_earliest today _ day Hasc Hfirst)].
      rewrite (scan_current_first today _ day Hdated Hfirst). simpl.
      destruct Hfirst as (l1 & l2 & Hdays & Hup & _).
      unfold upcoming in Hup. apply andb_prop in Hup as [Hh Hgt].
      apply answer_reports; [done|]. by destruct (parsed_date day).
    + intros Hnone data' Hfetch' Htruthy'.
      rewrite (scan_current_none today _ Hdated Hnone).
      destruct (Server.fetch_holiday_data http (Py.year today + 1) cache1)
        as [o cache2]. simpl in Hfetch'. subst o. rewrite Htruthy'. simpl. split.
      * intros day Hfirst Hparse. rewrite (scan_next_first _ day Hfirst).
        destruct Hfirst as (l1 & l2 & Hdays & Hh & _). by apply answer_reports.
      * intros Hnone'. by rewrite (scan_next_none _ Hnone').
  - intros current_date today current_year t1 t2 st d1 st1 d2 st2
      Htoday Hf1 Hf2 Hdated r. subst r.
    unfold Script.get_next_holiday. rewrite Hf1, Hf2, <- filter_app. split.
    + intros day Hfirst Hparse.
      rewrite (script_scan_first current_date _ day Hdated Hfirst).
      destruct (script_answer_reports current_date today day Htoday Hparse)
        as (a & -> & Ha). by exists a.
    + intros Hnone. by rewrite (script_scan_none current_date _ Hdated Hnone).
Qed.

(** C2 (as amended).  The server's [next_holiday] returns the error
    无法获取节假日数据 (data unavailable) and no holiday as soon as no
    mirror answers for this year and this year is not cached: whatever the
    mirrors and the cache hold for next year, it does not ask for it and
    leaves the cache as it was.  The script's [get_next_holiday], when no
    mirror answers for this year or the next and neither year is cached,
    returns the error 未找到未来的节假日 (no upcoming holiday). *)
Theorem next_holiday_without_data (today : Py.date) (current_date : string)
    (t1 t2 : Z) (cache : gmap Z YearData) (st : ScriptCache) :
  (forall src, http src (Py.year today) = None) ->
  cache !! Py.year today = None ->
  Server.next_holiday http today cache = (Err CannotGetData, cache)
  /\ error_kind CannotGetData = DataUnavailable
  /\ ((forall src, http src (Py.year today + 1) = None) ->
      holiday_cache st !! Py.year today = None ->
      holiday_cache st !! (Py.year today + 1) = None ->
      Script.get_next_holiday http current_date (Py.year today) t1 t2 st
      = (Err NoFutureHoliday, st))
  /\ error_kind NoFutureHoliday = NoUpcomingHoliday.
Proof.
  intros Hdown Hc. split_and!; [|done| |done].
  - unfold Server.next_holiday, Server.fetch_holiday_data. rewrite Hc. simpl.
    by rewrite !Hdown.
  - intros Hdown' Hs Hs'.
    unfold Script.get_next_holiday, Script.fetch_holiday_data. rewrite Hs. simpl.
    rewrite !Hdown. rewrite Hs'. simpl. by rewrite !Hdown'.
Qed.
End next.

(** ** The holiday statements on the sample feeds *)

Lemma feed_2024_dated : holidays_dated (days_of feed_2024).
Proof.
  intros day Hday Hh.
  each_element Hday ltac:(first [by eexists | discriminate Hh]).
Defined.

Lemma national_day_is_first : first_such (upcoming june_16) (days_of feed_2024) national_day.
Proof.
  exists [mkDay (Some "2024-01-01") (Some true) (Some "元旦") None;
          mkDay (Some "2024-02-04") (Some false) (Some "春节") None;
          mkDay (Some "2024-10-05") (Some true) (Some "") None]%string, [].
  split; [reflexivity|]. split; [reflexivity|].
  intros y Hy. each_element Hy ltac:(reflexivity).
Defined.

(** C1, the claim as written fails on the script: from 2024-06-16 the
    first record with [isOffDay], a name and a later date is the one of
    2024-10-06, and the script reports the unnamed off day of 2024-10-05. *)
Lemma script_next_holiday_ignores_name :
  first_such (upcoming june_16) (days_of feed_2024) national_day
  /\ ~ (exists a,
          (Script.get_next_holiday http_24_25 "2024-06-16" 2024 0 0
                                   empty_script_cache).1 = Ok a
          /\ reports june_16 national_day a).
Proof.
  split; [exact national_day_is_first|].
  intros (a & Ha & Hdate & _). vm_compute in Ha. injection Ha as <-.
  vm_compute in Hdate. discriminate.
Qed.

Lemma next_holiday_scans_in_order_witness :
  (exists a, (Server.next_holiday http_24_25 june_16 empty_cache).1 = Ok a
             /\ reports june_16 national_day a)
  /\ (exists a, (Server.next_holiday http_24_25 december_30 empty_cache).1 = Ok a
                /\ reports december_30 new_year_2025 a).
Proof.
  pose proof (next_holiday_scans_in_order http_24_25) as [Hserver _].
  assert (Hfetch : Server.fetch_holiday_data http_24_25 2024 empty_cache
                   = (Some feed_2024, cache_2024)) by (vm_compute; reflexivity).
  assert (Hfetch' : (Server.fetch_holiday_data http_24_25 (2024 + 1) cache_2024).1
                    = Some feed_2025) by (vm_compute; reflexivity).
  split.
  - destruct (Hserver june_16 empty_cache feed_2024 cache_2024
                Hfetch eq_refl feed_2024_dated)
      as [Hfound _].
    exact (proj1 (Hfound national_day national_day_is_first)).
  - destruct (Hserver december_30 empty_cache feed_2024 cache_2024
                Hfetch eq_refl feed_2024_dated)
      as [_ Hnext].
    assert (Hnone : none_such (upcoming december_30) (days_of feed_2024)).
    { intros y Hy. each_element Hy ltac:(reflexivity). }
    destruct (Hnext Hnone feed_2025 Hfetch' eq_refl) as [Hfirst _].
    apply Hfirst; [|by eexists].
    exists [], [mkDay (Some "2025-01-26") (Some false) (Some "春节") None]%string.
    split; [reflexivity|]. split; [reflexivity|].
    intros y Hy. each_element Hy ltac:(reflexivity).
Defined.

(** C2, the claim as written fails on the script: with no data at all it
    answers with its no-upcoming-holiday error, not with data unavailable. *)
Lemma script_next_holiday_without_data :
  ~ (exists e,
       (Script.get_next_holiday http_down "2024-12-30" 2024 0 0
                                empty_script_cache).1 = Err e
       /\ error_kind e = DataUnavailable).
Proof.
  intros (e & He & Hkind). vm_compute in He. injection He as <-. discriminate.
Qed.

Lemma next_holiday_without_data_witness :
  (Server.fetch_holiday_data http_2025_only 2025 empty_cache).1 = Some feed_2025
  /\ Server.next_holiday http_2025_only december_30 empty_cache
     = (Err CannotGetData, empty_cache)
  /\ Script.get_next_holiday http_down "2024-12-30" 2024 0 0 empty_script_cache
     = (Err NoFutureHoliday, empty_script_cache).
Proof.
  assert (H24 : empty_cache !! 2024 = None) by reflexivity.
  assert (S24 : holiday_cache empty_script_cache !! 2024 = None) by reflexivity.
  assert (S25 : holiday_cache empty_script_cache !! (2024 + 1) = None) by reflexivity.
  split; [vm_compute; reflexivity|]. split.
  - exact (proj1 (next_holiday_without_data http_2025_only december_30
                    "2024-12-30"%string 0 0 empty_cache empty_script_cache
                    (fun _ => eq_refl) H24)).
  - destruct (next_holiday_without_data http_down december_30 "2024-12-30"%string
                0 0 empty_cache empty_script_cache (fun _ => eq_refl) H24)
      as (_ & _ & Hscript & _).
    exact (Hscript (fun _ => eq_refl) S24 S25).
Defined.

(** * Further properties of the code *)

(** ** [SimpleCache]: [cleanup], [clear], the counters and the statistics *)

Section cache_more.
Context {V : Type}.
Implicit Types (c : SimpleCache V) (d : list (string * Entry V)) (e : Entry V).

(** The keys [cleanup] deletes are those of the expired entries, so what
    stays is the entries that have not expired. *)
Lemma cleanup_keeps_unexpired (now : Z) d :
  dict_wf d ->
  foldl (fun d k => dict_del k d) d
        (filter (fun p => Cache.is_expired now p.2 = true) d).*1
  = filter (fun p => Cache.is_expired now p.2 = false) d.
Proof.
  intros Hwf. rewrite foldl_dict_del_filter. apply filter_ext_elem.
  intros [k e] Hin. simpl. split.
  - intros Hnin. destruct (Cache.is_expired now e) eqn:He; [|done].
    exfalso. apply Hnin. apply list_elem_of_fmap. exists (k, e). split; [done|].
    by apply list_elem_of_filter.
  - intros He Hk. apply list_elem_of_fmap in Hk as ([k' e'] & Hkk & Hin').
    simpl in Hkk. subst k'. apply list_elem_of_filter in Hin' as [He' Hin'].
    simpl in He'. apply dict_get_elem in Hin, Hin'; [|done..]. congruence.
Qed.

(** Among the entries that have not expired none has expired. *)
Lemma cleanup_leaves_none_expired (now : Z) d :
  filter (fun p => Cache.is_expired now p.2 = true)
         (filter (fun p => Cache.is_expired now p.2 = false) d) = [].
Proof.
  rewrite list_filter_filter.
  induction d as [|p d IH]; [done|].
  rewrite filter_cons. case_decide as Hp; [|done]. destruct Hp. congruence.
Qed.

(** What [cleanup] leaves and how many entries it removes. *)
Lemma cleanup_purges_expired_aux (now : Z) c :
  dict_wf (_cache c) ->
  _cache (Cache.cleanup now c).2
  = filter (fun p => Cache.is_expired now p.2 = false) (_cache c)
  /\ (length (filter (fun p => Cache.is_expired now p.2 = false) (_cache c))
      + length (filter (fun p => Cache.is_expired now p.2 = true) (_cache c)).*1
      = length (_cache c))%nat.
Proof.
  intros Hwf. split.
  - unfold Cache.cleanup. simpl. by apply cleanup_keeps_unexpired.
  - rewrite length_fmap.
    pose proof (length_filter_split (fun p => Cache.is_expired now p.2) (_cache c)).
    lia.
Qed.

(** X1.  On a store whose keys are distinct, [cleanup] removes exactly the
    entries that have expired and keeps the others in their order; it
    returns the number removed, adds it to the delete counter and touches no
    other counter; a second [cleanup] at the same time removes nothing. *)
Theorem cleanup_purges_expired (now : Z) c :
  dict_wf (_cache c) ->
  let r := Cache.cleanup now c in
  _cache r.2 = filter (fun p => Cache.is_expired now p.2 = false) (_cache c)
  /\ r.1 = length (filter (fun p => Cache.is_expired now p.2 = true) (_cache c))
  /\ (length (_cache r.2) + r.1 = length (_cache c))%nat
  /\ (forall k e, dict_get k (_cache r.2) = Some e
                  <-> dict_get k (_cache c) = Some e /\ now < expires e)
  /\ counters r.2 = (_hits c, _misses c, _sets c, (_deletes c + r.1)%nat)
  /\ (Cache.cleanup now r.2).1 = 0%nat.
Proof.
  intros Hwf r.
  assert (Hcache : _cache r.2
                   = filter (fun p => Cache.is_expired now p.2 = false) (_cache c)).
  { subst r. unfold Cache.cleanup. simpl. by apply cleanup_keeps_unexpired. }
  assert (Hcount : r.1 = length (filter (fun p => Cache.is_expired now p.2 = true)
                                        (_cache c))).
  { subst r. unfold Cache.cleanup. simpl. by rewrite length_fmap. }
  assert (Hctr : counters r.2
                 = (_hits c, _misses c, _sets c, (_deletes c + r.1)%nat)).
  { subst r. unfold Cache.cleanup, counters. simpl. by rewrite length_fmap. }
  clearbody r. destruct r as [n c']. simpl in *.
  split_and!; [done..| | |done|].
  - rewrite Hcache, Hcount.
    pose proof (length_filter_split (fun p => Cache.is_expired now p.2) (_cache c)).
    lia.
  - intros k e. rewrite Hcache, dict_get_filter by done. simpl.
    unfold Cache.is_expired. rewrite Z.leb_gt. done.
  - unfold Cache.cleanup. simpl. rewrite length_fmap, Hcache.
    by rewrite cleanup_leaves_none_expired.
Qed.

(** One call keeps the keys distinct, counts itself, and adds to the
    entries held and deleted at most the one entry a [set] stores. *)
Lemma step_accounts (op : Op V) c :
  dict_wf (_cache c) ->
  dict_wf (_cache (step c op))
  /\ (_hits (step c op) + _misses (step c op)
      = _hits c + _misses c + (if is_get op then 1 else 0))%nat
  /\ (_sets (step c op) = _sets c + (if is_set op then 1 else 0))%nat
  /\ (length (_cache (step c op)) + _deletes (step c op)
      <= length (_cache c) + _deletes c + (if is_set op then 1 else 0))%nat.
Proof.
  intros Hwf. destruct op as [now key v ttl|now now' key|key| |now]; simpl.
  - unfold Cache.set.
    set (c1 := if _ && _ then _ else c).
    assert (Hc1 : dict_wf (_cache c1)
                  /\ (_hits c1 = _hits c /\ _misses c1 = _misses c
                      /\ _sets c1 = _sets c)
                  /\ (dict_in key (_cache c) = true -> c1 = c)
                  /\ (length (_cache c1) + _deletes c1
                      = length (_cache c) + _deletes c)%nat
                  /\ (key ∉ dict_keys (_cache c) -> key ∉ dict_keys (_cache c1))).
    { subst c1. destruct (max_size c <=? _); simpl; [|by split_and!].
      destruct (dict_in key (_cache c)) eqn:Hin; simpl; [by split_and!|].
      unfold Cache._evict_oldest.
      destruct (Cache.oldest_key (_cache c)) as [k|] eqn:Hk; [|by split_and!].
      simpl. assert (Hkin : k ∈ dict_keys (_cache c)).
      { unfold Cache.oldest_key in Hk.
        destruct (dict_keys (_cache c)) as [|k0 ks] eqn:Hkeys; [done|].
        injection Hk as <-. apply py_min_elem. }
      pose proof (length_dict_del_in k (_cache c) Hwf Hkin).
      split_and!; [by apply dict_wf_del|done..|lia|].
      intros Hnin. rewrite dict_keys_del. intros Hf.
      by apply list_elem_of_filter in Hf as [_ Hf]. }
    destruct Hc1 as (Hwf1 & (Hh & Hm & Hs) & Hsame & Hlen & Hnin).
    simpl. split_and!; [by apply dict_wf_set|lia|lia|].
    destruct (dict_in key (_cache c)) eqn:Hin.
    + rewrite (Hsame eq_refl).
      rewrite length_dict_set_in by by apply dict_in_true. lia.
    + rewrite length_dict_set_notin; [lia|].
      apply Hnin. apply dict_get_None_keys. by apply dict_in_false.
  - unfold Cache.get. destruct (dict_get key (_cache c)) as [e|] eqn:Hg.
    + assert (Hkin : key ∈ dict_keys (_cache c)) by by eapply dict_get_Some_keys.
      destruct (now <? expires e); simpl.
      * rewrite length_dict_set_in by done.
        split_and!; [by apply dict_wf_set|lia..].
      * pose proof (length_dict_del_in key (_cache c) Hwf Hkin).
        split_and!; [by apply dict_wf_del|lia..].
    + simpl. split_and!; [done|lia..].
  - unfold Cache.delete. destruct (dict_in key (_cache c)) eqn:Hin; simpl.
    + apply dict_in_true in Hin.
      pose proof (length_dict_del_in key (_cache c) Hwf Hin).
      split_and!; [by apply dict_wf_del|lia..].
    + split_and!; [done|lia..].
  - split_and!; [apply dict_wf_nil|lia..].
  - destruct (cleanup_purges_expired_aux now c Hwf) as (Hd & Hlen).
    unfold Cache.cleanup in *. simpl in *. rewrite Hd.
    split_and!; [by apply dict_wf_filter|lia..].
Qed.
End cache_more.

Section cache_history.
Context {V : Type}.
Implicit Types (c : SimpleCache V) (d : list (string * Entry V)) (e : Entry V).

(** X2.  The counters account for every call.  After any sequence of
    [set], [get], [delete], [clear] and [cleanup] calls on a new store, the
    keys are distinct, hits and misses together count the [get] calls,
    [_sets] counts the [set] calls, and the entries held plus the entries
    deleted never exceed the [set] calls. *)
Theorem counters_account_for_history (dttl cap : Z) (ops : list (Op V)) :
  let c := run ops (Cache.init dttl cap) in
  dict_wf (_cache c)
  /\ (_hits c + _misses c = n_gets ops)%nat
  /\ _sets c = n_sets ops
  /\ (length (_cache c) + _deletes c <= _sets c)%nat.
Proof.
  assert (Hgen : forall ops c0, dict_wf (_cache c0) ->
            dict_wf (_cache (run ops c0))
            /\ (_hits (run ops c0) + _misses (run ops c0)
                = _hits c0 + _misses c0 + n_gets ops)%nat
            /\ (_sets (run ops c0) = _sets c0 + n_sets ops)%nat
            /\ (length (_cache (run ops c0)) + _deletes (run ops c0)
                <= length (_cache c0) + _deletes c0 + n_sets ops)%nat).
  { clear ops. induction ops as [|op ops IH]; intros c0 Hwf.
    - unfold run, n_gets, n_sets. simpl. split_and!; [done|lia..].
    - destruct (step_accounts op c0 Hwf) as (Hwf1 & Hg1 & Hs1 & Hl1).
      destruct (IH (step c0 op) Hwf1) as (Hwf2 & Hg2 & Hs2 & Hl2).
      change (run (op :: ops) c0) with (run ops (step c0 op)).
      assert (Hng : n_gets (op :: ops)
                    = ((if is_get op then 1 else 0) + n_gets ops)%nat).
      { unfold n_gets. rewrite filter_cons.
        destruct (is_get op); case_decide; done. }
      assert (Hns : n_sets (op :: ops)
                    = ((if is_set op then 1 else 0) + n_sets ops)%nat).
      { unfold n_sets. rewrite filter_cons.
        destruct (is_set op); case_decide; done. }
      rewrite Hng, Hns. split_and!; [done|lia..]. }
  intros c. subst c.
  destruct (Hgen ops (Cache.init dttl cap)) as (Hwf & Hg & Hs & Hl).
  { apply dict_wf_nil. }
  simpl in *. split_and!; [done|lia..].
Qed.

(** X3.  Which entry [_evict_oldest] removes.  On an empty store it does
    nothing.  Otherwise it removes one entry and counts one delete: the
    entry whose [last_accessed] is least, and among several such the one
    inserted first; the other entries keep their order. *)
Theorem eviction_takes_first_oldest c :
  dict_wf (_cache c) ->
  (_cache c = [] -> Cache._evict_oldest c = c)
  /\ (_cache c ≠ [] ->
      exists l1 k e l2,
        _cache c = l1 ++ (k, e) :: l2
        /\ Cache._evict_oldest c
           = mkCache (l1 ++ l2) (default_ttl c) (max_size c)
                     (_hits c) (_misses c) (_sets c) (S (_deletes c))
        /\ (forall p, p ∈ l1 -> last_accessed e < last_accessed p.2)
        /\ (forall p, p ∈ l2 -> last_accessed e <= last_accessed p.2)).
Proof.
  intros Hwf. split.
  { intros Hnil. unfold Cache._evict_oldest, Cache.oldest_key. by rewrite Hnil. }
  intros Hne. unfold Cache._evict_oldest, Cache.oldest_key.
  destruct (dict_keys (_cache c)) as [|k0 ks] eqn:Hkeys.
  { destruct (_cache c); [done|discriminate]. }
  destruct (py_min_first (Cache.age_of (_cache c)) k0 ks)
    as (l1k & l2k & Heq & Hlt & Hle).
  set (k := py_min (Cache.age_of (_cache c)) k0 ks) in *.
  rewrite <- Hkeys in Heq. unfold dict_keys in Heq.
  apply fmap_app_inv in Heq as (l1 & l2' & Hl1 & Hl2 & Hd).
  symmetry in Hl2. apply fmap_cons_inv in Hl2 as ([k' e] & l2 & Hk & Hl2 & ->).
  simpl in Hk. subst k'.
  assert (Hage : forall p, p ∈ _cache c -> Cache.age_of (_cache c) p.1
                                            = last_accessed p.2).
  { intros [kp ep] Hp. apply age_of_get. by apply dict_get_elem. }
  assert (Hk : Cache.age_of (_cache c) k = last_accessed e).
  { apply (Hage (k, e)). rewrite Hd. apply elem_of_app. right. left. }
  assert (Hnd : (k ∉ dict_keys l1) /\ (k ∉ dict_keys l2)).
  { unfold dict_wf, dict_keys in Hwf. rewrite Hd, fmap_app, fmap_cons in Hwf.
    apply NoDup_app in Hwf as (_ & Hdisj & Hnd2). apply NoDup_cons in Hnd2 as [Hk2 _].
    split; [|done]. intros Hk1. apply (Hdisj k Hk1). left. }
  exists l1, k, e, l2. split_and!.
  - done.
  - f_equal. rewrite Hd. apply dict_del_middle; apply Hnd.
  - intros p Hp. rewrite <- Hk, <- Hage.
    + apply Hlt. rewrite Hl1. by apply list_elem_of_fmap_2.
    + rewrite Hd. apply elem_of_app. by left.
  - intros p Hp. rewrite <- Hk, <- Hage.
    + apply Hle. rewrite Hl2. by apply list_elem_of_fmap_2.
    + rewrite Hd. apply elem_of_app. right. by right.
Qed.

Variable str_len : V -> nat.

(** X4.  The statistics agree with [cleanup].  When [get_stats] answers,
    active and expired entries add up to the entries held, the expired
    ones are those a [cleanup] at the same time removes, and after that
    [cleanup] the statistics show no expired entry, the same active ones,
    the same hit rate, and the removed entries among the deletes. *)
Theorem stats_agree_with_cleanup (now : Z) c (st : Stats) :
  dict_wf (_cache c) ->
  Cache.get_stats str_len now c = Some st ->
  total_entries st = length (_cache c)
  /\ (active_entries st + expired_entries st = total_entries st)%nat
  /\ expired_entries st = (Cache.cleanup now c).1
  /\ exists st',
       Cache.get_stats str_len now (Cache.cleanup now c).2 = Some st'
       /\ expired_entries st' = 0%nat
       /\ active_entries st' = active_entries st
       /\ total_entries st' = active_entries st
       /\ hit_rate st' = hit_rate st
       /\ deletes st' = (deletes st + expired_entries st)%nat.
Proof.
  intros Hwf Hst.
  destruct (cleanup_purges_expired_aux now c Hwf) as (Hcache & Hlen).
  assert (Hn : (Cache.cleanup now c).1
               = length (filter (fun p => Cache.is_expired now p.2 = true)
                                (_cache c))).
  { unfold Cache.cleanup. simpl. by rewrite length_fmap. }
  assert (Hctr : counters (Cache.cleanup now c).2
                 = (_hits c, _misses c, _sets c,
                    (_deletes c + (Cache.cleanup now c).1)%nat)).
  { unfold Cache.cleanup, counters. simpl. by rewrite length_fmap. }
  rewrite length_fmap in Hlen.
  set (r := Cache.cleanup now c) in *. clearbody r. destruct r as [n c'].
  simpl in *. unfold counters in Hctr. injection Hctr as Hh Hm Hs Hd.
  assert (Hexp : length (filter (fun p => Cache.is_expired now p.2 = true)
                                (_cache c')) = 0%nat).
  { by rewrite Hcache, cleanup_leaves_none_expired. }
  unfold Cache.get_stats in *. rewrite Hh, Hm, Hs, Hd, Hexp.
  destruct (if bool_decide (0 < _hits c + _misses c)%nat
            then py_truediv (_hits c) (_hits c + _misses c)
            else Some 0%Q) as [rate|]; [|done].
  simpl in *. injection Hst as <-. simpl.
  split_and!; [done|lia|lia|].
  eexists. split; [done|]. simpl. rewrite Hcache. split_and!; [done|lia|lia|done|lia].
Qed.
End cache_history.

Lemma cleanup_purges_expired_witness :
  dict_wf (_cache store_ab)
  /\ (Cache.cleanup 65 store_ab).1 = 1%nat
  /\ dict_keys (_cache (Cache.cleanup 65 store_ab).2) = ["a"%string]
  /\ counters (Cache.cleanup 65 store_ab).2 = (0%nat, 0%nat, 2%nat, 1%nat).
Proof.
  assert (Hwf : dict_wf (_cache store_ab)).
  { unfold dict_wf. apply (bool_decide_unpack _). vm_compute. exact I. }
  pose proof (cleanup_purges_expired 65 store_ab Hwf)
    as (Hcache & Hcount & _ & _ & Hctr & _).
  split; [exact Hwf|]. split; [exact Hcount|]. split.
  - rewrite Hcache. reflexivity.
  - exact Hctr.
Defined.

Lemma eviction_takes_first_oldest_witness :
  dict_wf (_cache store_ab)
  /\ exists l1 k e l2,
       _cache store_ab = l1 ++ (k, e) :: l2
       /\ _cache (Cache._evict_oldest store_ab) = l1 ++ l2.
Proof.
  assert (Hwf : dict_wf (_cache store_ab)).
  { unfold dict_wf. apply (bool_decide_unpack _). vm_compute. exact I. }
  pose proof (eviction_takes_first_oldest store_ab Hwf) as [_ Hfull].
  assert (Hne : _cache store_ab ≠ []) by (vm_compute; discriminate).
  destruct (Hfull Hne) as (l1 & k & e & l2 & Hd & Hev & _).
  split; [exact Hwf|]. exists l1, k, e, l2. split; [exact Hd|].
  rewrite Hev. reflexivity.
Defined.

Lemma stats_agree_with_cleanup_witness :
  dict_wf (_cache store_ab)
  /\ exists st,
       Cache.get_stats (fun n : nat => 1%nat) 65 store_ab = Some st
       /\ total_entries st = 2%nat
       /\ expired_entries st = 1%nat.
Proof.
  assert (Hwf : dict_wf (_cache store_ab)).
  { unfold dict_wf. apply (bool_decide_unpack _). vm_compute. exact I. }
  assert (Hst : exists st, Cache.get_stats (fun n : nat => 1%nat) 65 store_ab = Some st).
  { eexists. vm_compute. reflexivity. }
  destruct Hst as [st Hst].
  pose proof (stats_agree_with_cleanup (fun n : nat => 1%nat) 65 store_ab st Hwf Hst)
    as (Htotal & _ & Hexp & _).
  split; [exact Hwf|]. exists st. split; [exact Hst|]. split.
  - rewrite Htotal. reflexivity.
  - rewrite Hexp. reflexivity.
Defined.

(** ** [PersistentCache]: [set], [delete] and a restart *)

Section persistent_more.
Context {V : Type}.
Variable can_mkdir : bool.
Variable can_unlink : string -> bool.
Variable file_of_key : string -> string.
Variable dumped : string -> Entry V -> FileContent V.
Variable can_write : string -> bool.
Implicit Types (files : list (string * FileContent V)) (p : PersistentCache V).

(** When one file only stores a record under [k], a load binds [k] to
    that record if it has not expired, and to nothing otherwise. *)
Lemma last_live_only (t : Z) (k fk : string) (e : Entry V) files :
  dict_wf files ->
  (fk, Stored k e) ∈ files ->
  (forall f e0, (f, Stored k e0) ∈ files -> f = fk) ->
  last_live t k files = if t <? expires e then Some e else None.
Proof.
  intros Hwf Hin Honly. unfold last_live.
  destruct (last (omap (live_under t k) files)) as [x|] eqn:Hlast.
  - apply last_Some_elem_of in Hlast.
    apply list_elem_of_omap in Hlast as ([f c] & Hf & Hlu).
    apply live_under_Some in Hlu as [Hc Hlt]. simpl in Hc. subst c.
    assert (f = fk) as -> by by eapply Honly.
    apply dict_get_elem in Hin, Hf; [|done..].
    assert (x = e) as -> by congruence.
    by destruct (Z.ltb_spec t (expires e)); [|lia].
  - apply last_None in Hlast.
    destruct (Z.ltb_spec t (expires e)) as [Hlt|]; [|done].
    assert (Hx : e ∈ omap (live_under t k) files).
    { apply list_elem_of_omap. exists (fk, Stored k e). split; [done|].
      by apply live_under_Some. }
    rewrite Hlast in Hx. by apply elem_of_nil in Hx.
Qed.

(** No file stores a record under [k]: a load does not bind [k]. *)
Lemma last_live_none (t : Z) (k : string) files :
  (forall f e0, (f, Stored k e0) ∉ files) ->
  last_live t k files = None.
Proof.
  intros Hnone. unfold last_live.
  destruct (last (omap (live_under t k) files)) as [x|] eqn:Hlast; [|done].
  apply last_Some_elem_of in Hlast.
  apply list_elem_of_omap in Hlast as ([f c] & Hf & Hlu).
  apply live_under_Some in Hlu as [Hc _]. simpl in Hc. subst c.
  by apply Hnone in Hf.
Qed.

(** The files of a directory after one of them has been written. *)
Lemma elem_of_dict_set (f f' : string) (c c' : FileContent V) files :
  dict_wf files ->
  (f', c') ∈ dict_set f c files
  <-> (f' = f /\ c' = c) \/ (f' ≠ f /\ (f', c') ∈ files).
Proof.
  intros Hwf. rewrite <- dict_get_elem by by apply dict_wf_set.
  destruct (decide (f' = f)) as [->|Hne].
  - rewrite dict_get_set_eq. split.
    + intros [= ->]. by left.
    + intros [[_ ->]|[? _]]; done.
  - rewrite dict_get_set_ne by done. rewrite dict_get_elem by done. split.
    + intros ?. by right.
    + intros [[? _]|[_ ?]]; done.
Qed.

(** The entry [set] leaves under its key. *)
Lemma set_lookup_self (now : Z) (k : string) (v : V) (ttl : option Z)
    (c : SimpleCache V) :
  dict_get k (_cache (Cache.set now k v ttl c))
  = Some (fresh_entry now v (default (default_ttl c) ttl)).
Proof.
  unfold Cache.set. simpl. by rewrite dict_get_set_eq.
Qed.

(** The directory after [PersistentCache.set], when the file can be
    written. *)
Lemma set_dir (now : Z) (k : string) (v : V) (ttl : option Z) p files :
  cache_dir p = Some files ->
  can_write (file_of_key k) = true ->
  cache_dir (Persistent.set file_of_key dumped can_write now k v ttl p)
  = Some (dict_set (file_of_key k)
            (dumped k (fresh_entry now v (default (default_ttl (mem p)) ttl)))
            files).
Proof.
  intros Hdir Hw. unfold Persistent.set, Persistent._save_to_disk. cbn [mem cache_dir].
  rewrite set_lookup_self, Hdir, Hw. done.
Qed.

(** A construction over an existing directory in which every file that
    holds no live record can be unlinked: it returns, and what it leaves in
    memory and in the directory. *)
Lemma init_over (t : Z) files (dttl cap : Z) :
  dict_wf files ->
  (forall f, f ∈ files -> live t f = false -> can_unlink f.1 = true) ->
  exists q,
    Persistent.init can_mkdir can_unlink t (Some files) dttl cap = Some q
    /\ cache_dir q = Some (filter (fun f => live t f = true) files)
    /\ (forall k, dict_get k (_cache (mem q)) = last_live t k files)
    /\ max_size (mem q) = cap.
Proof.
  intros Hwf Hok.
  destruct (init_returns can_mkdir can_unlink t (Some files) dttl cap) as [q Hq];
    [done..|].
  destruct (init_returned can_mkdir can_unlink t (Some files) dttl cap q Hq)
    as (Hdir & Hmem & _ & _ & Hcap).
  exists q. split_and!; [done|by apply Hdir|done..].
Qed.

(** The cases of [PersistentCache.delete] on a key that memory holds. *)
Lemma delete_held (k : string) p files :
  cache_dir p = Some files ->
  dict_in k (_cache (mem p)) = true ->
  let m := mkCache (dict_del k (_cache (mem p))) (default_ttl (mem p))
                   (max_size (mem p)) (_hits (mem p)) (_misses (mem p))
                   (_sets (mem p)) (S (_deletes (mem p))) in
  Persistent.delete can_unlink file_of_key k p
  = if dict_in (file_of_key k) files
    then if can_unlink (file_of_key k)
         then (Some true, mkPersistent m (Some (dict_del (file_of_key k) files)))
         else (None, mkPersistent m (Some files))
    else (Some true, mkPersistent m (Some files)).
Proof.
  intros Hdir Hin. unfold Persistent.delete, Cache.delete. by rewrite Hin, Hdir.
Qed.

(** X5.  A value stored with [PersistentCache.set] survives a restart.
    When the directory exists, the file of the key can be written and
    [json.dump] leaves the record [e'] in it, and no other file stores the
    key, then constructing a cache over the directory at time [t] returns
    a cache, provided every file of the directory that holds no live
    record at [t] can be unlinked.  That cache holds [e'] under the key
    while [t] is before its expiry; from the expiry on it does not hold the
    key and has deleted the file. *)
Theorem persistent_set_survives_restart (now t : Z) (k : string) (v : V)
    (ttl : option Z) p files (e' : Entry V) (dttl cap : Z) :
  cache_dir p = Some files ->
  dict_wf files ->
  can_write (file_of_key k) = true ->
  dumped k (fresh_entry now v (default (default_ttl (mem p)) ttl)) = Stored k e' ->
  (forall f e0, (f, Stored k e0) ∈ files -> f = file_of_key k) ->
  let p' := Persistent.set file_of_key dumped can_write now k v ttl p in
  (forall f, f ∈ default [] (cache_dir p') -> live t f = false ->
             can_unlink f.1 = true) ->
  exists q,
    Persistent.init can_mkdir can_unlink t (cache_dir p') dttl cap = Some q
    /\ (t < expires e' -> dict_get k (_cache (mem q)) = Some e')
    /\ (expires e' <= t ->
        dict_get k (_cache (mem q)) = None
        /\ file_of_key k ∉ dict_keys (default [] (cache_dir q))).
Proof.
  intros Hdir Hwf Hw Hdump Honly p' Hok.
  assert (Hdir' : cache_dir p' = Some (dict_set (file_of_key k) (Stored k e') files)).
  { subst p'. rewrite (set_dir now k v ttl p files Hdir Hw). by rewrite Hdump. }
  assert (Hwf' : dict_wf (dict_set (file_of_key k) (Stored k e') files))
    by by apply dict_wf_set.
  assert (Hlast : last_live t k (dict_set (file_of_key k) (Stored k e') files)
                  = if t <? expires e' then Some e' else None).
  { apply (last_live_only t k (file_of_key k)); [done| |].
    - apply elem_of_dict_set; [done|]. by left.
    - intros f e0 Hin. apply elem_of_dict_set in Hin; [|done].
      destruct Hin as [[-> _]|[_ Hin]]; [done|]. by eapply Honly. }
  rewrite Hdir' in Hok |- *. simpl in Hok.
  destruct (init_over t _ dttl cap Hwf' Hok) as (q & Hq & Hqdir & Hqmem & _).
  exists q. split; [done|]. rewrite Hqmem, Hlast. split.
  - intros Hlt. by destruct (Z.ltb_spec t (expires e')); [|lia].
  - intros Hle. split.
    + by destruct (Z.ltb_spec t (expires e')); [lia|].
    + rewrite Hqdir. simpl.
      intros Hin. apply list_elem_of_fmap in Hin as ([f c] & Hf & Hin).
      simpl in Hf. subst f. apply list_elem_of_filter in Hin as [Hlive Hin].
      apply elem_of_dict_set in Hin; [|done].
      destruct Hin as [[_ ->]|[Hne _]]; [|done].
      unfold live in Hlive. simpl in Hlive. apply Z.ltb_lt in Hlive. lia.
Qed.

(** X6.  [PersistentCache.delete].  A key held in memory is removed from
    memory first.  Then the file of the key, when the directory lists it,
    is unlinked: if that fails, [delete] raises with the entry already gone
    from memory and the file still there; otherwise the answer is [True],
    the file is gone, every other file is left as it is, and when no other
    file stored the key, a cache constructed over the directory afterwards
    (every file without a live record being unlinkable, so that the
    construction returns) does not hold the key.  A key that memory does
    not hold is not deleted: the answer is [False] and nothing changes, so
    a file of that key stays in the directory. *)
Theorem persistent_delete_removes_the_file (t : Z) (k : string) p files
    (dttl cap : Z) :
  cache_dir p = Some files ->
  dict_wf files ->
  let r := Persistent.delete can_unlink file_of_key k p in
  (dict_in k (_cache (mem p)) = true ->
     dict_get k (_cache (mem r.2)) = None
     /\ _deletes (mem r.2) = S (_deletes (mem p))
     /\ (dict_in (file_of_key k) files = true ->
         can_unlink (file_of_key k) = false ->
         r.1 = None /\ cache_dir r.2 = Some files)
     /\ (dict_in (file_of_key k) files = false
         \/ can_unlink (file_of_key k) = true ->
         r.1 = Some true
         /\ cache_dir r.2 = Some (dict_del (file_of_key k) files)
         /\ (forall f, f ≠ file_of_key k ->
               dict_get f (default [] (cache_dir r.2)) = dict_get f files)
         /\ ((forall f e0, (f, Stored k e0) ∈ files -> f = file_of_key k) ->
             (forall f, f ∈ dict_del (file_of_key k) files -> live t f = false ->
                        can_unlink f.1 = true) ->
             exists q,
               Persistent.init can_mkdir can_unlink t (cache_dir r.2) dttl cap
               = Some q
               /\ dict_get k (_cache (mem q)) = None)))
  /\ (dict_in k (_cache (mem p)) = false -> r = (Some false, p)).
Proof.
  intros Hdir Hwf r. subst r. split.
  - intros Hin. rewrite (delete_held k p files Hdir Hin).
    assert (Hgone : dict_in (file_of_key k) files = false
                    \/ can_unlink (file_of_key k) = true ->
                    (if dict_in (file_of_key k) files
                     then if can_unlink (file_of_key k)
                          then Some (dict_del (file_of_key k) files)
                          else Some files
                     else Some files)
                    = Some (dict_del (file_of_key k) files)).
    { intros [Hno|Hyes].
      - rewrite Hno. f_equal. symmetry. apply dict_del_notin.
        by apply dict_get_None_keys, dict_in_false.
      - rewrite Hyes. destruct (dict_in (file_of_key k) files) eqn:Hl; [done|].
        f_equal. symmetry. apply dict_del_notin.
        by apply dict_get_None_keys, dict_in_false. }
    split_and!.
    + destruct (dict_in (file_of_key k) files), (can_unlink (file_of_key k));
        apply dict_get_del_eq.
    + by destruct (dict_in (file_of_key k) files), (can_unlink (file_of_key k)).
    + intros -> ->. done.
    + intros Hcase. apply Hgone in Hcase as Hfiles.
      assert (Hafter : cache_dir
                (if dict_in (file_of_key k) files
                 then if can_unlink (file_of_key k)
                      then (Some true,
                            mkPersistent
                              (mkCache (dict_del k (_cache (mem p)))
                                 (default_ttl (mem p)) (max_size (mem p))
                                 (_hits (mem p)) (_misses (mem p)) (_sets (mem p))
                                 (S (_deletes (mem p))))
                              (Some (dict_del (file_of_key k) files)))
                      else (None,
                            mkPersistent
                              (mkCache (dict_del k (_cache (mem p)))
                                 (default_ttl (mem p)) (max_size (mem p))
                                 (_hits (mem p)) (_misses (mem p)) (_sets (mem p))
                                 (S (_deletes (mem p))))
                              (Some files))
                 else (Some true,
                       mkPersistent
                         (mkCache (dict_del k (_cache (mem p)))
                            (default_ttl (mem p)) (max_size (mem p))
                            (_hits (mem p)) (_misses (mem p)) (_sets (mem p))
                            (S (_deletes (mem p))))
                         (Some files))).2
              = Some (dict_del (file_of_key k) files)).
      { rewrite <- Hfiles.
        by destruct (dict_in (file_of_key k) files), (can_unlink (file_of_key k)). }
      rewrite Hafter. split_and!.
      * destruct Hcase as [-> | ->]; [done|].
        by destruct (dict_in (file_of_key k) files).
      * done.
      * intros f Hne. by apply dict_get_del_ne.
      * intros Honly Hok.
        assert (Hwfd : dict_wf (dict_del (file_of_key k) files)) by by apply dict_wf_del.
        destruct (init_over t _ dttl cap Hwfd Hok) as (q & Hq & _ & Hqmem & _).
        exists q. split; [done|]. rewrite Hqmem.
        apply last_live_none. intros f e0 Hf.
        apply dict_get_elem in Hf; [|done].
        destruct (decide (f = file_of_key k)) as [->|Hne].
        -- by rewrite dict_get_del_eq in Hf.
        -- rewrite dict_get_del_ne in Hf by done.
           apply dict_get_elem in Hf; [|done]. by apply Honly in Hf.
  - intros Hin. unfold Persistent.delete, Cache.delete. rewrite Hin. by destruct p.
Qed.

(** X7.  [PersistentCache.set] writes the file of its key and no other:
    no file is deleted, also not the file of an entry that the [set]
    evicts from memory.  A record [eo] stored under another key [ko]
    therefore is in memory again after a restart before its expiry, evicted
    or not, whenever the restart returns a cache, as it does when every
    file of the directory that holds no live record can be unlinked. *)
Theorem persistent_set_leaves_other_files (now t : Z) (k ko fo : string) (v : V)
    (ttl : option Z) p files (eo : Entry V) (dttl cap : Z) :
  cache_dir p = Some files ->
  dict_wf files ->
  (fo, Stored ko eo) ∈ files ->
  (forall f e0, (f, Stored ko e0) ∈ files -> f = fo) ->
  fo ≠ file_of_key k ->
  (forall e e0, dumped k e ≠ Stored ko e0) ->
  t < expires eo ->
  let p' := Persistent.set file_of_key dumped can_write now k v ttl p in
  mem p' = Cache.set now k v ttl (mem p)
  /\ (forall f, f ≠ file_of_key k ->
        dict_get f (default [] (cache_dir p')) = dict_get f files)
  /\ ((forall f, f ∈ default [] (cache_dir p') -> live t f = false ->
                 can_unlink f.1 = true) ->
      exists q,
        Persistent.init can_mkdir can_unlink t (cache_dir p') dttl cap = Some q
        /\ dict_get ko (_cache (mem q)) = Some eo).
Proof.
  intros Hdir Hwf Hin Honly Hfo Hdump Hlt p'.
  assert (Hcases : cache_dir p' = Some files
                   \/ exists c, (forall e0, c ≠ Stored ko e0)
                                /\ cache_dir p'
                                   = Some (dict_set (file_of_key k) c files)).
  { subst p'. unfold Persistent.set, Persistent._save_to_disk. cbn [mem cache_dir].
    rewrite set_lookup_self, Hdir.
    destruct (can_write (file_of_key k)); [|by left].
    right. eexists. split; [|done]. intros e0. apply Hdump. }
  split_and!.
  - subst p'. unfold Persistent.set, Persistent._save_to_disk. cbn [mem cache_dir].
    rewrite set_lookup_self, Hdir. by destruct (can_write (file_of_key k)).
  - intros f Hne. destruct Hcases as [->|(c & _ & ->)]; [done|]. simpl.
    by apply dict_get_set_ne.
  - intros Hok.
    destruct Hcases as [Hd|(c & Hc & Hd)]; rewrite Hd in Hok |- *; simpl in Hok.
    + destruct (init_over t _ dttl cap Hwf Hok) as (q & Hq & _ & Hqmem & _).
      exists q. split; [done|]. rewrite Hqmem.
      rewrite (last_live_only t ko fo eo) by done.
      by destruct (Z.ltb_spec t (expires eo)); [|lia].
    + assert (Hwf' : dict_wf (dict_set (file_of_key k) c files))
        by by apply dict_wf_set.
      destruct (init_over t _ dttl cap Hwf' Hok) as (q & Hq & _ & Hqmem & _).
      exists q. split; [done|]. rewrite Hqmem.
      rewrite (last_live_only t ko fo eo).
      * by destruct (Z.ltb_spec t (expires eo)); [|lia].
      * done.
      * apply elem_of_dict_set; [done|]. by right.
      * intros f e0 Hf. apply elem_of_dict_set in Hf; [|done].
        destruct Hf as [[_ Hf]|[_ Hf]].
        -- symmetry in Hf. by apply Hc in Hf.
        -- by eapply Honly.
Qed.
End persistent_more.

Lemma persistent_set_survives_restart_witness :
  cache_dir persistent0 = Some disk0_live
  /\ exists q,
       Persistent.init true unlink_ok 50
         (cache_dir (Persistent.set sample_file_of_key sample_dumped
                       sample_can_write 10 "k" 7%nat None persistent0))
         3600 10 = Some q
       /\ dict_get "k"%string (_cache (mem q)) = Some (fresh_entry 10 7%nat 3600).
Proof.
  assert (Hdir : cache_dir persistent0 = Some disk0_live) by (vm_compute; reflexivity).
  assert (Hwf : dict_wf disk0_live).
  { unfold dict_wf. apply (bool_decide_unpack _). vm_compute. exact I. }
  assert (Honly : forall f e0, (f, Stored "k" e0) ∈ disk0_live
                               -> f = sample_file_of_key "k").
  { intros f e0 Hin. apply elem_of_cons in Hin as [Hin|Hin]; [discriminate Hin|].
    by apply elem_of_nil in Hin. }
  destruct (persistent_set_survives_restart true unlink_ok sample_file_of_key
              sample_dumped sample_can_write 10 50 "k"%string 7%nat None
              persistent0 disk0_live (fresh_entry 10 7%nat 3600) 3600 10
              Hdir Hwf eq_refl eq_refl Honly (fun f _ _ => eq_refl))
    as (q & Hq & Hlive & _).
  split; [exact Hdir|]. exists q. split; [exact Hq|].
  apply Hlive. vm_compute. reflexivity.
Defined.

Lemma persistent_delete_removes_the_file_witness :
  dict_in "year:2024"%string (_cache (mem persistent0)) = true
  /\ (Persistent.delete unlink_ok sample_file_of_key "year:2024" persistent0).1
     = Some true
  /\ cache_dir (Persistent.delete unlink_ok sample_file_of_key "year:2024"
                                  persistent0).2
     = Some []
  /\ (Persistent.delete unlink_denied sample_file_of_key "year:2024" persistent0).1
     = None
  /\ dict_get "year:2024"%string
       (_cache (mem (Persistent.delete unlink_denied sample_file_of_key "year:2024"
                                       persistent0).2)) = None
  /\ Persistent.delete unlink_ok sample_file_of_key "year:2023" persistent0
     = (Some false, persistent0).
Proof.
  assert (Hdir : cache_dir persistent0 = Some disk0_live) by (vm_compute; reflexivity).
  assert (Hwf : dict_wf disk0_live).
  { unfold dict_wf. apply (bool_decide_unpack _). vm_compute. exact I. }
  assert (Hin : dict_in "year:2024"%string (_cache (mem persistent0)) = true)
    by (vm_compute; reflexivity).
  assert (Hlisted : dict_in (sample_file_of_key "year:2024") disk0_live = true)
    by (vm_compute; reflexivity).
  pose proof (persistent_delete_removes_the_file true unlink_ok sample_file_of_key
                50 "year:2024"%string persistent0 disk0_live 3600 10 Hdir Hwf)
    as [Hheld _].
  pose proof (persistent_delete_removes_the_file true unlink_denied
                sample_file_of_key 50 "year:2024"%string persistent0 disk0_live
                3600 10 Hdir Hwf)
    as [Hdenied _].
  pose proof (persistent_delete_removes_the_file true unlink_ok sample_file_of_key
                50 "year:2023"%string persistent0 disk0_live 3600 10 Hdir Hwf)
    as [_ Habsent].
  destruct (Hheld Hin) as (_ & _ & _ & Hgone).
  destruct (Hgone (or_intror eq_refl)) as (Htrue & Hfiles & _).
  destruct (Hdenied Hin) as (Hmem & _ & Hraise & _).
  destruct (Hraise Hlisted eq_refl) as [Hnone _].
  split; [exact Hin|]. split; [exact Htrue|]. split; [|split; [exact Hnone|split]].
  - rewrite Hfiles. reflexivity.
  - exact Hmem.
  - apply Habsent. vm_compute. reflexivity.
Defined.

Lemma persistent_set_leaves_other_files_witness :
  dict_get "year:2024"%string
    (_cache (mem (Persistent.set sample_file_of_key sample_dumped
                    sample_can_write 110 "k" 7%nat None persistent0))) = None
  /\ exists q,
       Persistent.init true unlink_ok 120
         (cache_dir (Persistent.set sample_file_of_key sample_dumped
                       sample_can_write 110 "k" 7%nat None persistent0))
         3600 10 = Some q
       /\ dict_get "year:2024"%string (_cache (mem q))
          = Some (mkEntry 24%nat 500 0 0 0).
Proof.
  assert (Hdir : cache_dir persistent0 = Some disk0_live) by (vm_compute; reflexivity).
  assert (Hwf : dict_wf disk0_live).
  { unfold dict_wf. apply (bool_decide_unpack _). vm_compute. exact I. }
  assert (Hin : ("1f.cache"%string, Stored "year:2024" (mkEntry 24%nat 500 0 0 0))
                ∈ disk0_live) by apply list_elem_of_here.
  assert (Honly : forall f e0, (f, Stored "year:2024" e0) ∈ disk0_live
                               -> f = "1f.cache"%string).
  { intros f e0 Hf. apply elem_of_cons in Hf as [Hf|Hf]; [by injection Hf|].
    by apply elem_of_nil in Hf. }
  assert (Hfo : "1f.cache"%string ≠ sample_file_of_key "k") by (vm_compute; discriminate).
  assert (Hdump : forall (e e0 : Entry nat),
            sample_dumped "k" e ≠ Stored "year:2024" e0) by (intros e e0; discriminate).
  assert (Hlt : 120 < expires (mkEntry 24%nat 500 0 0 0)) by (vm_compute; reflexivity).
  pose proof (persistent_set_leaves_other_files true unlink_ok sample_file_of_key
                sample_dumped sample_can_write 110 120 "k"%string "year:2024"%string
                "1f.cache"%string 7%nat None persistent0 disk0_live
                (mkEntry 24%nat 500 0 0 0) 3600 10
                Hdir Hwf Hin Honly Hfo Hdump Hlt) as (Hmem & _ & Hback).
  split; [|exact (Hback (fun f _ _ => eq_refl))]. rewrite Hmem. vm_compute. reflexivity.
Defined.

(** ** The decorator [cache_result] *)

(** [set] counts itself and leaves hits and misses. *)
Lemma set_counters {V : Type} (now : Z) (k : string) (v : V) (ttl : option Z)
    (c : SimpleCache V) :
  _hits (Cache.set now k v ttl c) = _hits c
  /\ _misses (Cache.set now k v ttl c) = _misses c
  /\ _sets (Cache.set now k v ttl c) = S (_sets c).
Proof.
  unfold Cache.set. cbn [_hits _misses _sets].
  destruct (_ && _); [|done]. unfold Cache._evict_oldest.
  by destruct (Cache.oldest_key (_cache c)).
Qed.

Section cache_result_facts.
Context {A R : Type}.
Variable CACHE_TTL : Z.
Variable default_key : A -> string.
Variable ttl : option Z.
Variable key_func : option (A -> string).
Variable func : A -> option R.
Implicit Types (cache : SimpleCache (option R)) (args : A).

Local Abbreviation wrapper :=
  (CacheAside.wrapper true CACHE_TTL default_key ttl key_func true func).
Local Abbreviation cache_key := (CacheAside.cache_key default_key key_func).
Local Abbreviation lifetime := (CacheAside.ttl_or_default CACHE_TTL ttl).

(** A call of the wrapper that runs [func] leaves its result in the cache,
    under the key of the arguments. *)
Lemma wrapper_stores (t_get t_get' t_set : Z) args cache (res : option R) cache1 :
  wrapper t_get t_get' t_set args cache = (res, true, cache1) ->
  res = func args
  /\ dict_get (cache_key args) (_cache cache1)
     = Some (fresh_entry t_set (func args) lifetime).
Proof.
  unfold CacheAside.wrapper. simpl.
  destruct (Cache.get t_get t_get' (cache_key args) cache) as [cr c'].
  destruct cr as [[r0|]|]; intros [= <- <-]; by rewrite set_lookup_self.
Qed.

(** The wrapper on a cache that holds a live entry under the key. *)
Lemma wrapper_on_live (t_get t_get' t_set : Z) args cache (e : Entry (option R)) :
  dict_get (cache_key args) (_cache cache) = Some e ->
  t_get < expires e ->
  exists cache1,
    Cache.get t_get t_get' (cache_key args) cache = (Some (value e), cache1)
    /\ _hits cache1 = S (_hits cache) /\ _sets cache1 = _sets cache
    /\ wrapper t_get t_get' t_set args cache
       = match value e with
         | Some r => (Some r, false, cache1)
         | None => (func args, true,
                    Cache.set t_set (cache_key args) (func args) (Some lifetime) cache1)
         end.
Proof.
  intros Hg Hlt. eexists. split; [by apply get_hit|].
  split; [done|]. split; [done|].
  unfold CacheAside.wrapper. simpl. rewrite (get_hit _ _ _ _ _ Hg Hlt).
  by destruct (value e).
Qed.

(** X8.  Memoisation.  With caching enabled, a call that runs [func] and
    obtains a value [r] other than [None] stores [r] under the cache key of
    its arguments, to expire one lifetime ([ttl], or [CACHE_TTL] when [ttl]
    is missing or zero) after the clock of the [set].  On any cache that
    holds under a key an entry with a value [r] other than [None] that has
    not expired (one that has not been evicted, deleted, cleared or
    overwritten since it was stored), a call whose arguments have that key
    returns [r] without running [func], whatever [func] would return for
    them, counts one hit and stores nothing; it leaves the entry under its
    key with the same value and expiry, only the last access refreshed,
    and every other key as it was, so that the next such call is served
    from the cache as well. *)
Theorem cache_result_memoizes :
  lifetime = match ttl with
             | Some 0 | None => CACHE_TTL
             | Some t => t
             end
  /\ (forall (t1 t1' t2 : Z) args cache cache1 (r : R),
        wrapper t1 t1' t2 args cache = (Some r, true, cache1) ->
        func args = Some r
        /\ dict_get (cache_key args) (_cache cache1)
           = Some (fresh_entry t2 (Some r) lifetime)
        /\ expires (fresh_entry t2 (Some r) lifetime) = t2 + lifetime)
  /\ (forall (t3 t3' t4 : Z) args' cache' (e : Entry (option R)) (r : R),
        dict_get (cache_key args') (_cache cache') = Some e ->
        value e = Some r ->
        t3 < expires e ->
        exists cache2,
          wrapper t3 t3' t4 args' cache' = (Some r, false, cache2)
          /\ _hits cache2 = S (_hits cache')
          /\ _sets cache2 = _sets cache'
          /\ dict_get (cache_key args') (_cache cache2) = Some (touched t3' e)
          /\ value (touched t3' e) = Some r
          /\ expires (touched t3' e) = expires e
          /\ (forall k, k ≠ cache_key args' ->
                dict_get k (_cache cache2) = dict_get k (_cache cache'))).
Proof.
  split_and!.
  - unfold CacheAside.ttl_or_default. destruct ttl as [[| |]|]; done.
  - intros t1 t1' t2 args cache cache1 r Hfirst.
    destruct (wrapper_stores _ _ _ _ _ _ _ Hfirst) as [Hres Hstored].
    rewrite <- Hres in Hstored. by split_and!.
  - intros t3 t3' t4 args' cache' e r Hheld Hvalue Hlt.
    eexists. split_and!.
    + unfold CacheAside.wrapper. simpl.
      rewrite (get_hit t3 t3' _ cache' e Hheld Hlt). by rewrite Hvalue.
    + done.
    + done.
    + simpl. apply dict_get_set_eq.
    + done.
    + done.
    + intros k Hne. simpl. by rewrite dict_get_set_ne.
Qed.

(** X9.  A result [None] is stored but never served.  When a call
    returns [None], it has run [func] and stored the [None]; a later call
    with the same key, made while that entry is live, counts a hit, runs
    [func] again on its own arguments, returns what it gives and stores
    it. *)
Theorem cache_result_recomputes_none (t1 t1' t2 t3 t3' t4 : Z) args args' cache
    cache1 (called : bool) :
  wrapper t1 t1' t2 args cache = (None, called, cache1) ->
  cache_key args' = cache_key args ->
  t3 < t2 + lifetime ->
  called = true
  /\ func args = None
  /\ dict_get (cache_key args) (_cache cache1) = Some (fresh_entry t2 None lifetime)
  /\ exists cache2,
       wrapper t3 t3' t4 args' cache1 = (func args', true, cache2)
       /\ _hits cache2 = S (_hits cache1)
       /\ _sets cache2 = S (_sets cache1)
       /\ dict_get (cache_key args') (_cache cache2)
          = Some (fresh_entry t4 (func args') lifetime).
Proof.
  intros Hfirst Hkey Hlt.
  assert (Hcalled : called = true).
  { revert Hfirst. unfold CacheAside.wrapper. simpl.
    destruct (Cache.get t1 t1' (cache_key args) cache) as [cr c'].
    by destruct cr as [[r0|]|]; intros [= ? ? ?]. }
  subst called.
  destruct (wrapper_stores _ _ _ _ _ _ _ Hfirst) as [Hres Hstored].
  rewrite <- Hres in Hstored.
  split_and!; [done..|].
  rewrite <- Hkey in Hstored.
  destruct (wrapper_on_live t3 t3' t4 args' cache1 _ Hstored Hlt)
    as (cache2 & _ & Hhits & Hsets & Hw).
  simpl in Hw. eexists. split; [exact Hw|].
  destruct (set_counters t4 (cache_key args') (func args') (Some lifetime) cache2)
    as (Hh & _ & Hs).
  split_and!.
  - by rewrite Hh.
  - by rewrite Hs, Hsets.
  - apply set_lookup_self.
Qed.
End cache_result_facts.

Lemma cache_result_memoizes_witness :
  exists cache1 cache2 cache3,
    CacheAside.wrapper true 3600 constant_key (Some 0) None true half
      0 0 1 8%nat empty_store = (Some 4%nat, true, cache1)
    /\ CacheAside.wrapper true 3600 constant_key (Some 0) None true half
         50 50 51 5%nat cache1 = (Some 4%nat, false, cache2)
    /\ CacheAside.wrapper true 3600 constant_key (Some 0) None true half
         3600 3600 3600 0%nat cache2 = (Some 4%nat, false, cache3).
Proof.
  destruct (cache_result_memoizes 3600 constant_key (Some 0) None half)
    as (_ & Hstore & Hserve).
  assert (Hfirst : CacheAside.wrapper true 3600 constant_key (Some 0) None true half
                     0 0 1 8%nat empty_store
                   = (Some 4%nat, true,
                      (CacheAside.wrapper true 3600 constant_key (Some 0) None true
                         half 0 0 1 8%nat empty_store).2))
    by (vm_compute; reflexivity).
  destruct (Hstore 0 0 1 8%nat empty_store _ 4%nat Hfirst) as (_ & Hheld & Hexp).
  destruct (Hserve 50 50 51 5%nat _ _ 4%nat Hheld eq_refl)
    as (cache2 & Hw2 & _ & _ & Hheld2 & Hvalue2 & Hexp2 & _).
  { vm_compute. reflexivity. }
  destruct (Hserve 3600 3600 3600 0%nat cache2 _ 4%nat Hheld2 Hvalue2)
    as (cache3 & Hw3 & _).
  { vm_compute. reflexivity. }
  eexists _, cache2, cache3. split; [exact Hfirst|]. split; [exact Hw2|exact Hw3].
Defined.

Lemma cache_result_recomputes_none_witness :
  exists cache2,
    CacheAside.wrapper true 3600 constant_key None None true half
      50 50 51 8%nat
      (CacheAside.wrapper true 3600 constant_key None None true half
         0 0 1 0%nat empty_store).2
    = (Some 4%nat, true, cache2).
Proof.
  destruct (cache_result_recomputes_none 3600 constant_key None None half
              0 0 1 50 50 51 0%nat 8%nat empty_store
              (CacheAside.wrapper true 3600 constant_key None None true half
                 0 0 1 0%nat empty_store).2
              true eq_refl eq_refl)
    as (_ & _ & _ & cache2 & Hw & _).
  { vm_compute. reflexivity. }
  exists cache2. exact Hw.
Defined.

(** ** Fetching a year: the two caching policies *)

Section fetching.
Variable http : Source -> Z -> option YearData.

(** The loop over the mirrors: the first mirror that answers wins, and its
    answer is cached under the year. *)
Lemma server_try_urls (year : Z) (cache : gmap Z YearData) :
  Server.try_urls http year [PRIMARY_DATA_SOURCE; BACKUP_DATA_SOURCE] cache
  = match http PRIMARY_DATA_SOURCE year with
    | Some data => (Some data, <[year := data]> cache)
    | None =>
        match http BACKUP_DATA_SOURCE year with
        | Some data => (Some data, <[year := data]> cache)
        | None => (None, cache)
        end
    end.
Proof.
  simpl. destruct (http PRIMARY_DATA_SOURCE year); [done|].
  by destruct (http BACKUP_DATA_SOURCE year).
Qed.

(** A fetch never drops or replaces a cached year. *)
Lemma server_fetch_keeps (year y : Z) (d : YearData) (cache : gmap Z YearData) :
  cache !! y = Some d ->
  (Server.fetch_holiday_data http year cache).2 !! y = Some d.
Proof.
  intros Hy. unfold Server.fetch_holiday_data.
  destruct (cache !! year) as [data|] eqn:Hc; [done|].
  rewrite server_try_urls.
  assert (Hne : y ≠ year) by congruence.
  destruct (http PRIMARY_DATA_SOURCE year); simpl.
  { by rewrite lookup_insert_ne. }
  destruct (http BACKUP_DATA_SOURCE year); simpl; [|done].
  by rewrite lookup_insert_ne.
Qed.

(** X10.  The server caches a year for good.  A fetch changes the cache
    at its own year only.  A cached year is answered from the cache, and
    the mirrors are not asked.  Otherwise the primary mirror is asked
    before the backup, the first answer is returned and cached, and every
    later fetch of that year returns it, whatever the mirrors then hold;
    when neither mirror answers, the fetch returns nothing and leaves the
    cache as it was. *)
Theorem server_fetch_caches_for_good (http' : Source -> Z -> option YearData)
    (year : Z) (cache : gmap Z YearData) :
  let r := Server.fetch_holiday_data http year cache in
  (forall y, y ≠ year -> r.2 !! y = cache !! y)
  /\ (forall data, cache !! year = Some data -> r = (Some data, cache))
  /\ (cache !! year = None ->
      r.1 = match http PRIMARY_DATA_SOURCE year with
            | Some data => Some data
            | None => http BACKUP_DATA_SOURCE year
            end)
  /\ (forall data, r.1 = Some data ->
        r.2 !! year = Some data
        /\ Server.fetch_holiday_data http' year r.2 = (Some data, r.2))
  /\ (r.1 = None ->
      r.2 = cache /\ cache !! year = None
      /\ http PRIMARY_DATA_SOURCE year = None
      /\ http BACKUP_DATA_SOURCE year = None).
Proof.
  intros r.
  assert (Hr : r = match cache !! year with
                   | Some data => (Some data, cache)
                   | None =>
                       match http PRIMARY_DATA_SOURCE year with
                       | Some data => (Some data, <[year := data]> cache)
                       | None =>
                           match http BACKUP_DATA_SOURCE year with
                           | Some data => (Some data, <[year := data]> cache)
                           | None => (None, cache)
                           end
                       end
                   end).
  { subst r. unfold Server.fetch_holiday_data. by rewrite server_try_urls. }
  clearbody r.
  destruct (cache !! year) as [data|] eqn:Hc.
  - subst r. simpl. split_and!; try done.
    + by intros ? [= ->].
    + intros d [= <-]. split; [done|].
      unfold Server.fetch_holiday_data. by rewrite Hc.
  - destruct (http PRIMARY_DATA_SOURCE year) as [d1|] eqn:H1;
      [|destruct (http BACKUP_DATA_SOURCE year) as [d2|] eqn:H2]; subst r; simpl.
    + split_and!; try done.
      * intros y Hne. by rewrite lookup_insert_ne.
      * intros d [= <-]. unfold Server.fetch_holiday_data.
        by rewrite lookup_insert_eq.
    + split_and!; try done.
      * intros y Hne. by rewrite lookup_insert_ne.
      * intros d [= <-]. unfold Server.fetch_holiday_data.
        by rewrite lookup_insert_eq.
    + split_and!; done.
Qed.

(** The same loop in the script, which also notes the expiry. *)
Lemma script_try_urls (h : Source -> Z -> option YearData) (t year : Z)
    (st : ScriptCache) :
  Script.try_urls h t year [PRIMARY_DATA_SOURCE; BACKUP_DATA_SOURCE] st
  = match (match h PRIMARY_DATA_SOURCE year with
           | Some data => Some data
           | None => h BACKUP_DATA_SOURCE year
           end) with
    | Some data =>
        (Some data,
         mkScriptCache (<[year := data]> (holiday_cache st))
                       (<[year := t + 24 * 3600]> (cache_expiry st)))
    | None => (None, st)
    end.
Proof.
  simpl. destruct (h PRIMARY_DATA_SOURCE year); [done|].
  by destruct (h BACKUP_DATA_SOURCE year).
Qed.

(** X11.  The script caches a year for a day.  After a fetch at time [t]
    has returned data, the year is cached with an expiry after [t] (24
    hours after [t] when the data came from a mirror).  Before the expiry
    every fetch returns the cached data and asks no mirror.  From the
    expiry on the mirrors are asked again: their answer replaces the cached
    one, and when neither answers the fetch returns nothing, although the
    expired data is still in the cache. *)
Theorem script_fetch_caches_for_a_day (http' : Source -> Z -> option YearData)
    (t year : Z) (st st' : ScriptCache) (data : YearData) :
  Script.fetch_holiday_data http t year st = (Some data, st') ->
  exists expiry,
    holiday_cache st' !! year = Some data
    /\ cache_expiry st' !! year = Some expiry
    /\ t < expiry
    /\ (st' = st \/ expiry = t + 86400)
    /\ (forall t', t' < expiry ->
          Script.fetch_holiday_data http' t' year st' = (Some data, st'))
    /\ (forall t', expiry <= t' ->
          (Script.fetch_holiday_data http' t' year st').1
          = match http' PRIMARY_DATA_SOURCE year with
            | Some d => Some d
            | None => http' BACKUP_DATA_SOURCE year
            end)
    /\ (forall t', expiry <= t' ->
          http' PRIMARY_DATA_SOURCE year = None ->
          http' BACKUP_DATA_SOURCE year = None ->
          Script.fetch_holiday_data http' t' year st' = (None, st')).
Proof.
  intros Hfetch.
  assert (Hst' : exists expiry,
            holiday_cache st' !! year = Some data
            /\ cache_expiry st' !! year = Some expiry
            /\ t < expiry /\ (st' = st \/ expiry = t + 86400)).
  { revert Hfetch. unfold Script.fetch_holiday_data. rewrite script_try_urls.
    set (answer := match http PRIMARY_DATA_SOURCE year with
                   | Some d => Some d
                   | None => http BACKUP_DATA_SOURCE year
                   end).
    assert (Hmiss : match answer with
                    | Some d =>
                        (Some d,
                         mkScriptCache (<[year := d]> (holiday_cache st))
                           (<[year := t + 24 * 3600]> (cache_expiry st)))
                    | None => (None, st)
                    end = (Some data, st') ->
                    exists expiry,
                      holiday_cache st' !! year = Some data
                      /\ cache_expiry st' !! year = Some expiry
                      /\ t < expiry /\ (st' = st \/ expiry = t + 86400)).
    { destruct answer as [d|]; [|done]. intros [= <- <-]. simpl.
      exists (t + 86400). rewrite !lookup_insert_eq.
      split_and!; [done|f_equal; lia|lia|by right]. }
    destruct (holiday_cache st !! year) as [d0|] eqn:Hc; [|done].
    destruct (cache_expiry st !! year) as [e0|] eqn:He; [|done].
    destruct (Z.ltb_spec t e0) as [Hlt|]; [|done].
    intros [= <- <-]. exists e0. split_and!; [done..|by left]. }
  destruct Hst' as (expiry & Hc & He & Hlt & Hor).
  exists expiry. split_and!; [done..| | |].
  - intros t' Ht'. unfold Script.fetch_holiday_data. rewrite Hc, He.
    by destruct (Z.ltb_spec t' expiry); [|lia].
  - intros t' Ht'. unfold Script.fetch_holiday_data. rewrite Hc, He.
    destruct (Z.ltb_spec t' expiry); [lia|]. rewrite script_try_urls.
    destruct (http' PRIMARY_DATA_SOURCE year); [done|].
    by destruct (http' BACKUP_DATA_SOURCE year).
  - intros t' Ht' H1 H2. unfold Script.fetch_holiday_data. rewrite Hc, He.
    destruct (Z.ltb_spec t' expiry); [lia|]. rewrite script_try_urls.
    by rewrite H1, H2.
Qed.

(** X12.  No tool of the server drops or replaces a cached year: a year
    that is in [_holiday_cache] before a call of [holiday_info],
    [current_year_holidays], [next_holiday] or [current_year_work_days] is
    there afterwards, with the same data. *)
Theorem server_tools_keep_cached_years (now_str : string) (date : option string)
    (current_year : Z) (today : Py.date) (cache : gmap Z YearData)
    (y : Z) (d : YearData) :
  cache !! y = Some d ->
  (Server.holiday_info http now_str date cache).2 !! y = Some d
  /\ (Server.current_year_holidays http current_year cache).2 !! y = Some d
  /\ (Server.next_holiday http today cache).2 !! y = Some d
  /\ (Server.current_year_work_days http current_year cache).2 !! y = Some d.
Proof.
  intros Hy. split_and!.
  - unfold Server.holiday_info.
    destruct (Py.strptime _) as [date_obj|]; [|done].
    destruct (Py.int _) as [year|]; [|done].
    pose proof (server_fetch_keeps year y d cache Hy) as Hk.
    destruct (Server.fetch_holiday_data http year cache) as [[data|] cache1];
      [|done].
    destruct (truthy data); [|done].
    by destruct (find_date _ _).
  - unfold Server.current_year_holidays.
    pose proof (server_fetch_keeps current_year y d cache Hy) as Hk.
    destruct (Server.fetch_holiday_data http current_year cache)
      as [[data|] cache1]; [|done].
    destruct (truthy data); [|done].
    by destruct (Server.collect_holidays _).
  - unfold Server.next_holiday.
    pose proof (server_fetch_keeps (Py.year today) y d cache Hy) as Hk.
    destruct (Server.fetch_holiday_data http (Py.year today) cache)
      as [[data|] cache1]; [|done].
    destruct (truthy data); [|done].
    destruct (Server.scan_current today _) as [[found|]|]; [done| |done].
    pose proof (server_fetch_keeps (Py.year today + 1) y d cache1 Hk) as Hk'.
    by destruct (Server.fetch_holiday_data http (Py.year today + 1) cache1).
  - unfold Server.current_year_work_days.
    pose proof (server_fetch_keeps current_year y d cache Hy) as Hk.
    destruct (Server.fetch_holiday_data http current_year cache)
      as [[data|] cache1]; [|done].
    destruct (truthy data); [|done].
    by destruct (Server.collect_work_days _).
Qed.
End fetching.

Lemma script_fetch_caches_for_a_day_witness :
  Script.fetch_holiday_data http_down 100 2024
    (Script.fetch_holiday_data http_24_25 0 2024 empty_script_cache).2
  = (Some feed_2024,
     (Script.fetch_holiday_data http_24_25 0 2024 empty_script_cache).2).
Proof.
  assert (Hfetch : Script.fetch_holiday_data http_24_25 0 2024 empty_script_cache
                   = (Some feed_2024,
                      (Script.fetch_holiday_data http_24_25 0 2024
                         empty_script_cache).2))
    by (vm_compute; reflexivity).
  destruct (script_fetch_caches_for_a_day http_24_25 http_down 0 2024
              empty_script_cache _ feed_2024 Hfetch)
    as (expiry & _ & He & _ & _ & Hserve & _).
  apply Hserve.
  assert (Hexp : Some expiry = Some 86400).
  { rewrite <- He. vm_compute. reflexivity. }
  injection Hexp as ->. lia.
Defined.

Lemma server_tools_keep_cached_years_witness :
  cache_2024 !! 2024 = Some feed_2024
  /\ (Server.next_holiday http_24_25 december_30 cache_2024).2 !! 2024
     = Some feed_2024.
Proof.
  assert (Hy : cache_2024 !! 2024 = Some feed_2024) by (vm_compute; reflexivity).
  destruct (server_tools_keep_cached_years http_24_25 ""%string None 2024
              december_30 cache_2024 2024 feed_2024 Hy) as (_ & _ & Hnext & _).
  split; [exact Hy|exact Hnext].
Defined.

(** ** The day lookup of the server and of the script, side by side *)

(** The record the search returns is the first one that carries the date. *)
Lemma find_date_found (date : string) (days : list DayRecord) (day : DayRecord) :
  find_date date days = Some day ->
  first_such (fun d => bool_decide (Feed.date d = Some date)) days day.
Proof.
  induction days as [|x days IH]; simpl; [done|].
  case_bool_decide as Hx.
  - intros [= <-]. exists [], days. split_and!; [done|by apply bool_decide_eq_true|].
    intros y Hy. by apply elem_of_nil in Hy.
  - intros Hf. destruct (IH Hf) as (l1 & l2 & -> & Hday & Hl1).
    exists (x :: l1), l2. split_and!; [done..|].
    intros y Hy. apply elem_of_cons in Hy as [->|Hy]; [|by apply Hl1].
    by apply bool_decide_eq_false.
Qed.

Section lookups.
Variable http : Source -> Z -> option YearData.

(** X13.  On a date that parses, the two lookups agree.  When the year of
    the date resolves to the same data for both, the script's
    [get_holiday_info] returns the answer of the server's [holiday_info]
    without [weekday_name_en], which the server sets to the weekday of the
    date, and the script's [is_holiday] returns its date, flags, type and
    name.  They fail together, the server with its message for missing
    data and the script with its own. *)
Theorem holiday_info_agree (now_str : string) (t cy : Z) (date : string)
    (date_obj : Py.date) (cache : gmap Z YearData) (st : ScriptCache) :
  Py.strptime date = Some date_obj ->
  (Script.fetch_holiday_data http t (Py.year date_obj) st).1
  = (Server.fetch_holiday_data http (Py.year date_obj) cache).1 ->
  match (Server.holiday_info http now_str (Some date) cache).1 with
  | Ok info =>
      (Script.get_holiday_info http t cy date st).1 = Ok (without_weekday info)
      /\ hi_weekday_name_en info = Some (weekday_name date_obj)
      /\ (Script.is_holiday http t cy date st).1
         = Ok (mkIsHoliday date (hi_is_holiday info) (hi_is_work_day info)
                           (hi_type info) (hi_name info))
  | Err e =>
      e = CannotGetData
      /\ (Script.get_holiday_info http t cy date st).1 = Err NoHolidayData
      /\ (Script.is_holiday http t cy date st).1 = Err NoHolidayData
  end.
Proof.
  intros Hs Hsame.
  assert (Hne : String.eqb date "" = false) by (by destruct date).
  pose proof (strptime_year date date_obj Hs) as Hyear.
  unfold Script.is_holiday, Script.get_holiday_info, Script.get_date_year,
    Server.holiday_info.
  rewrite Hne. cbv iota. rewrite Hs, Hyear. simpl.
  destruct (Server.fetch_holiday_data http (Py.year date_obj) cache)
    as [o cache1].
  destruct (Script.fetch_holiday_data http t (Py.year date_obj) st) as [o' st1].
  simpl in Hsame. subst o'.
  destruct o as [data|]; [|done].
  destruct (truthy data); [|done].
  destruct (find_date date (days_of data)) as [day|]; simpl; done.
Qed.

(** X14.  On an ASCII string that does not parse as a date, they differ.
    The server rejects it before it fetches anything.  The script fetches
    the year the string starts with (the current year when there is none)
    and answers only when a record of that year carries the very string as
    its date; its answer then is that record's. *)
Theorem holiday_info_on_bad_date (now_str : string) (t cy : Z) (date : string)
    (cache : gmap Z YearData) (st : ScriptCache) :
  Py.isascii date = true ->
  Py.strptime date = None ->
  date ≠ ""%string ->
  Server.holiday_info http now_str (Some date) cache = (Err BadDateFormat, cache)
  /\ (forall info,
        (Script.get_holiday_info http t cy date st).1 = Ok info ->
        exists data day,
          (Script.fetch_holiday_data http t (Script.get_date_year cy date) st).1
          = Some data
          /\ first_such (fun d => bool_decide (Feed.date d = Some date))
                        (days_of data) day
          /\ info = info_of_record date day None)
  /\ (forall e, (Script.get_holiday_info http t cy date st).1 = Err e ->
                e = NoHolidayData \/ e = QueryFailed).
Proof.
  intros _ Hs Hne. split_and!.
  - unfold Server.holiday_info.
    assert (String.eqb date "" = false) as -> by (by apply String.eqb_neq).
    cbv iota. by rewrite Hs.
  - intros info. unfold Script.get_holiday_info.
    destruct (Script.fetch_holiday_data http t (Script.get_date_year cy date) st)
      as [[data|] st1]; [|done].
    destruct (truthy data); [|done].
    destruct (find_date date (days_of data)) as [day|] eqn:Hfind.
    + intros [= <-]. exists data, day. split; [done|]. split; [|done].
      by apply find_date_found.
    + by rewrite Hs.
  - intros e. unfold Script.get_holiday_info.
    destruct (Script.fetch_holiday_data http t (Script.get_date_year cy date) st)
      as [[data|] st1]; [|intros [= <-]; by left].
    destruct (truthy data); [|intros [= <-]; by left].
    destruct (find_date date (days_of data)) as [day|]; [done|].
    rewrite Hs. intros [= <-]. by right.
Qed.
End lookups.

Lemma holiday_info_agree_witness :
  exists info,
    (Server.holiday_info http_24_25 ""%string (Some "2024-10-01"%string)
       empty_cache).1 = Ok info
    /\ (Script.get_holiday_info http_24_25 0 2024 "2024-10-01"%string
          empty_script_cache).1 = Ok (without_weekday info).
Proof.
  assert (Hs : Py.strptime "2024-10-01" = Some (Py.mkDate 2024 10 1))
    by (vm_compute; reflexivity).
  assert (Hsame : (Script.fetch_holiday_data http_24_25 0 2024 empty_script_cache).1
                  = (Server.fetch_holiday_data http_24_25 2024 empty_cache).1)
    by (vm_compute; reflexivity).
  pose proof (holiday_info_agree http_24_25 ""%string 0 2024 "2024-10-01"%string
                (Py.mkDate 2024 10 1) empty_cache empty_script_cache Hs Hsame)
    as Hagree.
  assert (Hserver : exists info,
            (Server.holiday_info http_24_25 ""%string (Some "2024-10-01"%string)
               empty_cache).1 = Ok info)
    by (eexists; vm_compute; reflexivity).
  destruct Hserver as [info Hinfo]. rewrite Hinfo in Hagree.
  destruct Hagree as [Hscript _]. exists info. split; [exact Hinfo|exact Hscript].
Defined.

Lemma holiday_info_on_bad_date_witness :
  Server.holiday_info http_24_25 ""%string (Some "tomorrow"%string) empty_cache
  = (Err BadDateFormat, empty_cache)
  /\ Server.holiday_info http_24_25 ""%string (Some "2024-02-30"%string) empty_cache
     = (Err BadDateFormat, empty_cache)
  /\ (Script.get_holiday_info http_24_25 0 2024 "2024-02-30"%string
                              empty_script_cache).1 = Err QueryFailed.
Proof.
  assert (Ha : Py.isascii "tomorrow" = true) by (vm_compute; reflexivity).
  assert (Hs : Py.strptime "tomorrow" = None) by (vm_compute; reflexivity).
  assert (Hne : "tomorrow"%string ≠ ""%string) by discriminate.
  assert (Ha' : Py.isascii "2024-02-30" = true) by (vm_compute; reflexivity).
  assert (Hs' : Py.strptime "2024-02-30" = None) by (vm_compute; reflexivity).
  assert (Hne' : "2024-02-30"%string ≠ ""%string) by discriminate.
  destruct (holiday_info_on_bad_date http_24_25 ""%string 0 2024 "tomorrow"%string
              empty_cache empty_script_cache Ha Hs Hne) as [Hserver _].
  destruct (holiday_info_on_bad_date http_24_25 ""%string 0 2024
              "2024-02-30"%string empty_cache empty_script_cache Ha' Hs' Hne')
    as (Hserver' & _ & Hscript).
  split; [exact Hserver|]. split; [exact Hserver'|].
  destruct (Script.get_holiday_info http_24_25 0 2024 "2024-02-30"%string
              empty_script_cache).1 as [info|e] eqn:Hr.
  - vm_compute in Hr. discriminate Hr.
  - vm_compute in Hr. injection Hr as <-. reflexivity.
Defined.

(** ** The make-up work days of a year *)

Section work_days.
Variable http : Source -> Z -> option YearData.
Implicit Types (day : DayRecord) (days : list DayRecord).

Lemma collect_work_days_fields days :
  (forall day, day ∈ days -> is_work_record day = true -> is_Some (Feed.date day)) ->
  exists items,
    Server.collect_work_days days = Some items
    /\ item_fields <$> items
       = record_fields <$> filter (fun d => is_work_record d = true) days.
Proof.
  induction days as [|x days IH]; intros Hdate.
  - by exists [].
  - destruct IH as (items & Hitems & Hfields).
    { intros y Hy. apply Hdate. by apply list_elem_of_further. }
    rewrite filter_cons.
    change (Server.collect_work_days (x :: days))
      with (if is_work_record x
            then item ← Server.holiday_item x;
                 items ← Server.collect_work_days days; Some (item :: items)
            else Server.collect_work_days days).
    case_decide as Hx.
    + destruct (Hdate x (list_elem_of_here _ _) Hx) as [s Hs].
      rewrite Hx. unfold Server.holiday_item. rewrite Hs. simpl. rewrite Hitems. simpl.
      eexists. split; [done|].
      rewrite !fmap_cons, Hfields. f_equal.
      unfold item_fields, record_fields. simpl. by rewrite Hs.
    + apply not_true_is_false in Hx. rewrite Hx. by exists items.
Qed.

(** X15.  The work-day tools, on a feed whose records carry [isOffDay]
    as a boolean or not at all.  When the year's data is resolved, the
    server's [current_year_work_days] returns the records whose [isOffDay]
    is the boolean false and whose name is not empty, projected to date,
    name and note, in the order of the list, and counts them; a record
    without the key [isOffDay] is not listed.  The script's
    [get_current_year_work_days] returns the named records whose
    [isOffDay] is false or missing, and does not fail on a missing date.
    Every record the server lists the script lists too, none of them is a
    holiday record, and the script lists more only where the key
    [isOffDay] is missing. *)
Theorem work_days_for_year (year : Z) :
  (forall cache data,
     (Server.fetch_holiday_data http year cache).1 = Some data ->
     truthy data = true ->
     (forall day, day ∈ days_of data -> is_work_record day = true ->
                  is_Some (Feed.date day)) ->
     exists yw,
       (Server.current_year_work_days http year cache).1 = Ok yw
       /\ yw_year yw = year
       /\ yw_total_count yw = length (yw_work_days yw)
       /\ item_fields <$> yw_work_days yw
          = record_fields
              <$> filter (fun d => is_work_record d = true) (days_of data))
  /\ (forall current_time st data,
     (Script.fetch_holiday_data http current_time year st).1 = Some data ->
     truthy data = true ->
     exists yw,
       (Script.get_current_year_work_days http current_time year st).1 = Ok yw
       /\ yw_year yw = year
       /\ yw_total_count yw = length (yw_work_days yw)
       /\ item_fields <$> yw_work_days yw
          = record_fields
              <$> filter (fun d => is_work_record_script d = true) (days_of data))
  /\ (forall day, is_work_record day = true ->
                  is_work_record_script day = true
                  /\ is_holiday_record day = false)
  /\ (forall day, is_work_record_script day = true ->
                  is_work_record day = false -> Feed.isOffDay day = None).
Proof.
  split_and!.
  - intros cache data Hfetch Htruthy Hdate.
    unfold Server.current_year_work_days.
    destruct (Server.fetch_holiday_data http year cache) as [o cache'].
    simpl in Hfetch. subst o. rewrite Htruthy.
    destruct (collect_work_days_fields _ Hdate) as (items & -> & Hfields).
    eexists. simpl. by split_and!.
  - intros current_time st data Hfetch Htruthy.
    unfold Script.get_current_year_work_days.
    destruct (Script.fetch_holiday_data http current_time year st) as [o st'].
    simpl in Hfetch. subst o. rewrite Htruthy.
    assert (Hfields :
      item_fields <$> (Script.holiday_item
                         <$> filter (fun d => is_work_record_script d = true)
                               (days_of data))
      = record_fields
          <$> filter (fun d => is_work_record_script d = true) (days_of data)).
    { rewrite <- list_fmap_compose. by apply list_fmap_ext. }
    eexists. simpl. split_and!; [done..|]. exact Hfields.
  - intros day. unfold is_work_record, is_work_record_script, is_holiday_record,
      off_day.
    destruct (Feed.isOffDay day) as [[]|]; simpl; try done.
  - intros day. unfold is_work_record, is_work_record_script, off_day.
    destruct (Feed.isOffDay day) as [[]|]; simpl; try done.
    by intros ->.
Qed.
End work_days.

(** ** The calendar: ordinals grow with the date *)

Section calendar.
Implicit Types (y m d : Z) (a b : Py.date).

Lemma valid_date_inv y m d :
  Py.valid_date y m d = true ->
  1 <= y <= 9999 /\ 1 <= m <= 12 /\ 1 <= d <= Py._days_in_month y m.
Proof.
  unfold Py.valid_date. rewrite !andb_true_iff, !Z.leb_le. lia.
Qed.

Lemma month_cases m :
  1 <= m <= 12 ->
  m = 1 \/ m = 2 \/ m = 3 \/ m = 4 \/ m = 5 \/ m = 6
  \/ m = 7 \/ m = 8 \/ m = 9 \/ m = 10 \/ m = 11 \/ m = 12.
Proof. lia. Qed.

(** A year has 365 days, and one more when it is a leap year. *)
Lemma days_before_year_succ y :
  Py._days_before_year (y + 1)
  = Py._days_before_year y + 365 + (if Py._is_leap y then 1 else 0).
Proof.
  unfold Py._days_before_year, Py._is_leap. cbv zeta.
  replace (y + 1 - 1) with y by lia.
  destruct (Z.eqb_spec (y mod 4) 0) as [H4|H4];
    destruct (Z.eqb_spec (y mod 100) 0) as [H100|H100];
    destruct (Z.eqb_spec (y mod 400) 0) as [H400|H400]; cbn [andb orb negb];
    revert H4 H100 H400; Z.div_mod_to_equations; lia.
Qed.

Lemma days_before_year_mono y1 y2 :
  y1 < y2 ->
  Py._days_before_year y1 + 365 + (if Py._is_leap y1 then 1 else 0)
  <= Py._days_before_year y2.
Proof.
  intros Hlt.
  assert (Hgen : forall n : nat,
            Py._days_before_year (y1 + 1)
            <= Py._days_before_year (y1 + 1 + Z.of_nat n)).
  { induction n as [|n IH].
    - replace (y1 + 1 + Z.of_nat 0) with (y1 + 1) by lia. lia.
    - replace (y1 + 1 + Z.of_nat (S n)) with (y1 + 1 + Z.of_nat n + 1) by lia.
      rewrite (days_before_year_succ (y1 + 1 + Z.of_nat n)).
      destruct (Py._is_leap (y1 + 1 + Z.of_nat n)); lia. }
  specialize (Hgen (Z.to_nat (y2 - y1 - 1))).
  replace (y1 + 1 + Z.of_nat (Z.to_nat (y2 - y1 - 1))) with y2 in Hgen by lia.
  rewrite (days_before_year_succ y1) in Hgen. lia.
Qed.

(** The day of the year of a date is within the year. *)
Lemma day_of_year_bound y m d :
  Py.valid_date y m d = true ->
  1 <= Py._days_before_month y m + d
    <= 365 + (if Py._is_leap y then 1 else 0).
Proof.
  intros Hv. apply valid_date_inv in Hv as (_ & Hm & Hd).
  apply month_cases in Hm.
  unfold Py._days_before_month, Py._days_in_month in *.
  destruct (Py._is_leap y);
    repeat (destruct Hm as [->|Hm]; [simpl in *; lia|]); subst m; simpl in *; lia.
Qed.

(** Within a year, a later month or a later day of the month is a later
    day of the year. *)
Lemma day_of_year_mono y m1 d1 m2 d2 :
  Py.valid_date y m1 d1 = true -> Py.valid_date y m2 d2 = true ->
  m1 < m2 \/ (m1 = m2 /\ d1 < d2) ->
  Py._days_before_month y m1 + d1 < Py._days_before_month y m2 + d2.
Proof.
  intros Hv1 Hv2 Hlt.
  apply valid_date_inv in Hv1 as (_ & Hm1 & Hd1).
  apply valid_date_inv in Hv2 as (_ & Hm2 & Hd2).
  destruct Hlt as [Hlt|[<- Hlt]]; [|lia].
  assert (Hnext : Py._days_before_month y m1 + Py._days_in_month y m1
                  <= Py._days_before_month y (m1 + 1)).
  { apply month_cases in Hm1.
    unfold Py._days_before_month, Py._days_in_month.
    destruct (Py._is_leap y);
      repeat (destruct Hm1 as [->|Hm1]; [simpl; lia|]); subst m1; simpl; lia. }
  assert (Hup : forall n : nat,
            m1 + 1 + Z.of_nat n <= 12 ->
            Py._days_before_month y (m1 + 1)
            <= Py._days_before_month y (m1 + 1 + Z.of_nat n)).
  { induction n as [|n IH]; intros Hn.
    - replace (m1 + 1 + Z.of_nat 0) with (m1 + 1) by lia. lia.
    - etransitivity; [apply IH; lia|].
      replace (m1 + 1 + Z.of_nat (S n)) with (m1 + 1 + Z.of_nat n + 1) by lia.
      assert (Hm : 1 <= m1 + 1 + Z.of_nat n <= 11) by lia.
      revert Hm. generalize (m1 + 1 + Z.of_nat n). intros m Hm.
      assert (Hc : 1 <= m <= 12) by lia. apply month_cases in Hc.
      unfold Py._days_before_month.
      destruct (Py._is_leap y);
        repeat (destruct Hc as [->|Hc]; [simpl; lia|]); subst m; simpl; lia. }
  specialize (Hup (Z.to_nat (m2 - m1 - 1))).
  replace (m1 + 1 + Z.of_nat (Z.to_nat (m2 - m1 - 1))) with m2 in Hup by lia.
  specialize (Hup ltac:(lia)). lia.
Qed.

(** A later date has a larger ordinal. *)
Lemma toordinal_mono a b :
  Py.valid_date (Py.year a) (Py.month a) (Py.day a) = true ->
  Py.valid_date (Py.year b) (Py.month b) (Py.day b) = true ->
  Py.date_gt a b = true ->
  Py.toordinal b < Py.toordinal a.
Proof.
  intros Ha Hb Hgt. unfold Py.toordinal, Py._ymd2ord.
  destruct a as [ya ma da], b as [yb mb db]. simpl in *.
  unfold Py.date_gt in Hgt. simpl in Hgt.
  apply orb_prop in Hgt as [Hy|Hgt].
  - apply Z.ltb_lt in Hy.
    pose proof (days_before_year_mono yb ya Hy).
    pose proof (day_of_year_bound ya ma da Ha).
    pose proof (day_of_year_bound yb mb db Hb). lia.
  - apply andb_prop in Hgt as [Hy Hgt]. apply Z.eqb_eq in Hy. subst yb.
    assert (Hmd : mb < ma \/ (mb = ma /\ db < da)).
    { apply orb_prop in Hgt as [Hm|Hgt]; [left; by apply Z.ltb_lt|].
      apply andb_prop in Hgt as [Hm Hd]. right.
      split; [by apply Z.eqb_eq|by apply Z.ltb_lt]. }
    pose proof (day_of_year_mono ya mb db ma da Hb Ha Hmd). lia.
Qed.

(** What [strptime] returns is a date. *)
Lemma strptime_valid (s : string) a :
  Py.strptime s = Some a ->
  Py.valid_date (Py.year a) (Py.month a) (Py.day a) = true.
Proof.
  destruct s as [|y1 [|y2 [|y3 [|y4 [|dash rest]]]]]; try discriminate.
  unfold Py.strptime.
  destruct (Py.digit y1) as [d1|]; [|discriminate].
  destruct (Py.digit y2) as [d2|]; [|discriminate].
  destruct (Py.digit y3) as [d3|]; [|discriminate].
  destruct (Py.digit y4) as [d4|]; [|discriminate].
  simpl. destruct (Ascii.eqb dash "-"); [|discriminate].
  destruct (Py.parse_m _) as [m|]; [|discriminate]. simpl.
  destruct ((Py.split_dash rest).2) as [ds|]; [|discriminate]. simpl.
  destruct (Py.parse_d ds) as [dd|]; [|discriminate]. simpl.
  destruct (Py.valid_date _ _ _) eqn:Hv; [|discriminate].
  by intros [= <-].
Qed.
End calendar.

(** ** Printed dates, [get_weekday] and the days to the next holiday *)

Lemma years_print_four_digits : forallb prints_four_digits (seqZ 1000 9000) = true.
Proof. vm_compute. reflexivity. Qed.

Lemma years_print_fewer_digits : forallb prints_fewer_digits (seqZ 1 999) = true.
Proof. vm_compute. reflexivity. Qed.

Lemma months_days_parse :
  forallb (fun m => forallb (month_day_parse m) (seqZ 1 31)) (seqZ 1 12) = true.
Proof. vm_compute. reflexivity. Qed.

Lemma forallb_seqZ (f : Z -> bool) (lo len x : Z) :
  forallb f (seqZ lo len) = true -> lo <= x < lo + len -> f x = true.
Proof.
  intros Hall Hx. rewrite forallb_forall in Hall. apply Hall.
  apply list_elem_of_In, elem_of_seqZ. lia.
Qed.

(** A date printed by [{year}-{month:02d}-{day:02d}] parses back when the
    year has four digits. *)
Lemma strptime_format_date (y m d : Z) :
  Py.valid_date y m d = true -> 1000 <= y ->
  Py.strptime (Py.format_date y m d) = Some (Py.mkDate y m d).
Proof.
  intros Hv Hy. pose proof (valid_date_inv y m d Hv) as (Hy' & Hm & Hd).
  assert (Hd31 : d <= 31).
  { apply month_cases in Hm. unfold Py._days_in_month in Hd.
    destruct (Py._is_leap y);
      repeat (destruct Hm as [->|Hm]; [simpl in Hd; lia|]); subst m; simpl in Hd; lia. }
  pose proof (forallb_seqZ _ 1000 9000 y years_print_four_digits ltac:(lia)) as Hyear.
  pose proof (forallb_seqZ _ 1 12 m months_days_parse ltac:(lia)) as Hmd.
  cbv beta in Hmd.
  pose proof (forallb_seqZ _ 1 31 d Hmd ltac:(lia)) as Hmd'.
  unfold month_day_parse in Hmd'. cbv zeta in Hmd'.
  apply andb_prop in Hmd' as [Hpm Hpd].
  apply bool_decide_eq_true in Hpm, Hpd.
  unfold prints_four_digits in Hyear. unfold Py.format_date.
  destruct (Py.str_int y) as [|a [|b [|c [|e [|]]]]]; try discriminate.
  change (Py.strptime
            (String a (String b (String c (String e
               (String "-" (Py.format_02d m ++ "-" ++ Py.format_02d d)%string)))))
          = Some (Py.mkDate y m d)).
  unfold Py.strptime.
  destruct (Py.digit a) as [da|]; [|discriminate].
  destruct (Py.digit b) as [db|]; [|discriminate].
  destruct (Py.digit c) as [dc|]; [|discriminate].
  destruct (Py.digit e) as [de|]; [|discriminate].
  apply Z.eqb_eq in Hyear.
  change (Ascii.eqb "-" "-") with true. cbv iota. cbn [mbind option_bind].
  rewrite Hpm. cbn [mbind option_bind].
  destruct ((Py.split_dash (Py.format_02d m ++ "-" ++ Py.format_02d d)).2)
    as [ds|]; [|discriminate].
  cbn [mbind option_bind] in Hpd |- *. rewrite Hpd. cbn [mbind option_bind].
  rewrite Hyear, Hv. done.
Qed.

(** With a year below 1000 the printed date has fewer than four digits
    before the dash, and does not parse. *)
Lemma strptime_short_year (s rest : string) :
  match s with
  | String _ EmptyString
  | String _ (String _ EmptyString)
  | String _ (String _ (String _ EmptyString)) => true
  | _ => false
  end = true ->
  Py.strptime (s ++ "-" ++ rest) = None.
Proof.
  assert (Hdash : Py.digit "-" = None) by (vm_compute; reflexivity).
  destruct s as [|a [|b [|c [|]]]]; try discriminate; intros _;
    destruct rest as [|r1 [|r2 [|r3 rest]]];
    unfold Py.strptime; cbv [String.append]; rewrite ?Hdash;
    repeat match goal with
           | |- context [Py.digit ?x] =>
               lazymatch x with
               | Ascii _ _ _ _ _ _ _ _ => fail
               | _ => destruct (Py.digit x)
               end
           end; try reflexivity.
Qed.

Section weekday_tool.
Variable http : Source -> Z -> option YearData.

(** X16.  [get_weekday].  It fails exactly on what is no calendar date.
    On a date the index is 1 (Monday) to 7 (Sunday), the two names are the
    entries of the lists at that position, and [is_weekend] holds on 6 and
    7.  The date string it returns parses back to the date with
    [strptime] when the year has four digits, and does not parse when the
    year is below 1000. *)
Theorem get_weekday_answers (year month day : Z) :
  (Py.valid_date year month day = false ->
   Server.get_weekday year month day = Err QueryFailed)
  /\ (Py.valid_date year month day = true ->
      exists w,
        Server.get_weekday year month day = Ok w
        /\ 1 <= wi_weekday_index w <= 7
        /\ weekdays_en !! Z.to_nat (wi_weekday_index w - 1)
           = Some (wi_weekday_name_en w)
        /\ weekdays_cn !! Z.to_nat (wi_weekday_index w - 1)
           = Some (wi_weekday_name_cn w)
        /\ (wi_is_weekend w = true <-> 6 <= wi_weekday_index w)
        /\ (1000 <= year -> Py.strptime (wi_date w) = Some (Py.mkDate year month day))
        /\ (year < 1000 -> Py.strptime (wi_date w) = None)).
Proof.
  unfold Server.get_weekday. split; intros Hv; rewrite Hv; [done|].
  eexists. split; [done|]. simpl.
  pose proof (weekday_range (Py.mkDate year month day)) as Hr.
  set (i := Py.weekday (Py.mkDate year month day)) in *.
  replace (i + 1 - 1) with i by lia.
  assert (Hi : exists n : nat, i = Z.of_nat n /\ (n < 7)%nat).
  { exists (Z.to_nat i). lia. }
  destruct Hi as (n & -> & Hn). rewrite Nat2Z.id.
  split_and!.
  - lia.
  - lia.
  - do 7 (destruct n as [|n]; [done|]). lia.
  - do 7 (destruct n as [|n]; [done|]). lia.
  - rewrite Z.leb_le. lia.
  - intros Hy. by apply strptime_format_date.
  - intros Hy. unfold Py.format_date.
    apply strptime_short_year.
    apply valid_date_inv in Hv as (Hy' & _).
    exact (forallb_seqZ _ 1 999 year years_print_fewer_digits ltac:(lia)).
Qed.

(** X17.  [get_weekday] and [holiday_info] agree.  The date string
    [get_weekday] returns for a date with a four-digit year is accepted by
    [holiday_info]; the answer names the same weekday, and when no record
    of the year carries the date, it is a day off exactly when
    [get_weekday] calls it a weekend.  The only failure left is missing
    data. *)
Theorem get_weekday_matches_holiday_info (now_str : string) (year month day : Z)
    (cache : gmap Z YearData) (w : WeekdayInfo) :
  1000 <= year ->
  Server.get_weekday year month day = Ok w ->
  match (Server.holiday_info http now_str (Some (wi_date w)) cache).1 with
  | Ok info =>
      hi_date info = wi_date w
      /\ hi_weekday_name_en info = Some (wi_weekday_name_en w)
      /\ (hi_type info = "normal"%string -> hi_is_holiday info = wi_is_weekend w)
  | Err e => e = CannotGetData
  end.
Proof.
  intros Hy Hw. unfold Server.get_weekday in Hw.
  destruct (Py.valid_date year month day) eqn:Hv; [|done].
  injection Hw as <-. simpl.
  pose proof (strptime_format_date year month day Hv Hy) as Hs.
  pose proof (strptime_year _ _ Hs) as Hyear. simpl in Hyear.
  assert (Hne : String.eqb (Py.format_date year month day) "" = false).
  { destruct (Py.format_date year month day); [discriminate Hs|done]. }
  unfold Server.holiday_info. rewrite Hne. cbv iota. rewrite Hs, Hyear.
  destruct (Server.fetch_holiday_data http year cache) as [[data|] cache1];
    [|done].
  destruct (truthy data); [|done].
  destruct (find_date _ (days_of data)) as [rec|]; simpl.
  - split_and!; [done..|]. by destruct (off_day rec).
  - done.
Qed.

(** X18.  The days to a holiday of the current year.  When today is a
    date and the server's [next_holiday] finds the holiday in the list of
    the current year, the answer's [days_until] is at least 1. *)
Theorem next_holiday_counts_ahead (today : Py.date) (cache cache1 : gmap Z YearData)
    (data : YearData) (day : DayRecord) :
  Py.valid_date (Py.year today) (Py.month today) (Py.day today) = true ->
  Server.fetch_holiday_data http (Py.year today) cache = (Some data, cache1) ->
  truthy data = true ->
  holidays_dated (days_of data) ->
  first_such (upcoming today) (days_of data) day ->
  exists a,
    (Server.next_holiday http today cache).1 = Ok a
    /\ nh_date a = Feed.date day
    /\ 1 <= nh_days_until a.
Proof.
  intros Hv Hfetch Htruthy Hdated Hfirst.
  pose proof (scan_current_first today _ day Hdated Hfirst) as Hscan.
  destruct Hfirst as (l1 & l2 & Hdays & Hup & _).
  unfold upcoming in Hup. apply andb_prop in Hup as [Hrec Hgt].
  destruct (parsed_date day) as [d|] eqn:Hd; [|done].
  destruct (answer_reports today day Hrec) as (a & Ha & Hdate & _ & _ & d' & Hd' & Hn).
  { by rewrite Hd. }
  exists a. unfold Server.next_holiday. rewrite Hfetch, Htruthy, Hscan. simpl.
  split_and!; [done..|].
  assert (d' = d) as -> by congruence.
  assert (Hvd : Py.valid_date (Py.year d) (Py.month d) (Py.day d) = true).
  { unfold parsed_date in Hd. destruct (Feed.date day) as [s|]; [|done].
    by apply (strptime_valid s). }
  pose proof (toordinal_mono d today Hvd Hv Hgt). lia.
Qed.
End weekday_tool.

Lemma get_weekday_matches_holiday_info_witness :
  Server.get_weekday 2024 10 1 = Ok october_1_weekday
  /\ match (Server.holiday_info http_24_25 ""%string
              (Some (wi_date october_1_weekday)) empty_cache).1 with
     | Ok info =>
         hi_date info = wi_date october_1_weekday
         /\ hi_weekday_name_en info = Some (wi_weekday_name_en october_1_weekday)
         /\ (hi_type info = "normal"%string ->
             hi_is_holiday info = wi_is_weekend october_1_weekday)
     | Err e => e = CannotGetData
     end.
Proof.
  assert (Hw : Server.get_weekday 2024 10 1 = Ok october_1_weekday)
    by (vm_compute; reflexivity).
  split; [exact Hw|].
  apply (get_weekday_matches_holiday_info http_24_25 ""%string 2024 10 1
           empty_cache october_1_weekday); [lia|exact Hw].
Defined.

Lemma next_holiday_counts_ahead_witness :
  exists a,
    (Server.next_holiday http_24_25 june_16 empty_cache).1 = Ok a
    /\ nh_date a = Some "2024-10-06"%string
    /\ 1 <= nh_days_until a.
Proof.
  assert (Hfetch : Server.fetch_holiday_data http_24_25 (Py.year june_16) empty_cache
                   = (Some feed_2024, cache_2024)) by (vm_compute; reflexivity).
  exact (next_holiday_counts_ahead http_24_25 june_16 empty_cache cache_2024
           feed_2024 national_day eq_refl Hfetch eq_refl feed_2024_dated
           national_day_is_first).
Defined.

(** ** Least recently used, and the size bound at a restart *)

Section cache_lru.
Context {V : Type}.
Implicit Types (c : SimpleCache V) (e : Entry V).

(** X19.  A key that was just read is not the next one evicted.  After a
    hit on [k] whose clock is later than the last access of some other
    entry, [_evict_oldest] leaves [k] in the store, and so does a [set] of
    another key, also when the store is full: eviction goes by the time of
    the last access, which [get] refreshes. *)
Theorem recently_read_entry_survives_eviction (now now' t : Z)
    (k k2 k3 : string) c (e e2 : Entry V) (v3 : V) (ttl : option Z) :
  dict_get k (_cache c) = Some e ->
  now < expires e ->
  dict_get k2 (_cache c) = Some e2 ->
  k2 ≠ k ->
  last_accessed e2 < now' ->
  k3 ≠ k ->
  let c1 := (Cache.get now now' k c).2 in
  dict_get k (_cache c1) = Some (touched now' e)
  /\ dict_get k (_cache (Cache._evict_oldest c1)) = Some (touched now' e)
  /\ dict_get k (_cache (Cache.set t k3 v3 ttl c1)) = Some (touched now' e).
Proof.
  intros Hk Hlive Hk2 Hne Hla Hk3 c1.
  assert (Hc1 : _cache c1 = dict_set k (touched now' e) (_cache c)).
  { subst c1. by rewrite (get_hit now now' k c e Hk Hlive). }
  assert (Hget : dict_get k (_cache c1) = Some (touched now' e)).
  { rewrite Hc1. apply dict_get_set_eq. }
  assert (Hevict : dict_get k (_cache (Cache._evict_oldest c1))
                   = Some (touched now' e)).
  { unfold Cache._evict_oldest.
    destruct (Cache.oldest_key (_cache c1)) as [ko|] eqn:Hko; [|done].
    destruct (oldest_key_spec (_cache c1)) as (ko' & eo & Hko' & Heo & Hold).
    { intros Hnil. by rewrite Hnil in Hget. }
    assert (ko' = ko) as -> by congruence.
    simpl. destruct (decide (ko = k)) as [->|Hneq].
    - assert (eo = touched now' e) as -> by congruence.
      assert (Hk2' : dict_get k2 (_cache c1) = Some e2).
      { rewrite Hc1. by rewrite dict_get_set_ne. }
      specialize (Hold k2 e2 Hk2'). simpl in Hold. lia.
    - by rewrite dict_get_del_ne. }
  split_and!; [done..|].
  unfold Cache.set. simpl. rewrite dict_get_set_ne by done.
  by destruct (_ && _).
Qed.
End cache_lru.

Section load_size.
Context {V : Type}.
Variable can_mkdir : bool.
Variable can_unlink : string -> bool.
Implicit Types (files : list (string * FileContent V)) (m : list (string * Entry V)).

(** A loop that returns, over files that store distinct keys, none of them
    in memory, has added one entry for every live file. *)
Lemma load_length (t : Z) files m dir
    (st' : list (string * Entry V) * list (string * FileContent V)) :
  NoDup (dict_keys m ++ stored_keys files) ->
  Persistent.load_files can_unlink t (m, dir) files = Some st' ->
  length st'.1
  = (length m + length (filter (fun f => live t f = true) files))%nat.
Proof.
  revert m dir. induction files as [|[fname content] files IH]; intros m dir Hnd Hload.
  - simpl in Hload. injection Hload as <-. simpl. lia.
  - assert (Hnd' : NoDup (dict_keys m ++ stored_keys files)).
    { unfold stored_keys in Hnd. rewrite omap_cons in Hnd.
      fold (stored_keys files) in Hnd.
      destruct content as [| |key entry]; simpl in Hnd; [done..|].
      apply NoDup_app in Hnd as (Hm & Hdisj & Hks).
      apply NoDup_cons in Hks as [_ Hks].
      apply NoDup_app. split_and!; [done| |done].
      intros x Hx Hx'. apply (Hdisj x Hx). by right. }
    simpl in Hload. rewrite load_file_cases in Hload.
    rewrite filter_cons.
    destruct (live t (fname, content)) eqn:Hlive.
    + rewrite decide_True by done. simpl in Hload.
      destruct content as [| |key entry]; [done..|].
      assert (Hnin : key ∉ dict_keys m).
      { unfold stored_keys in Hnd. rewrite omap_cons in Hnd. simpl in Hnd.
        apply NoDup_app in Hnd as (_ & Hdisj & _).
        intros Hin. apply (Hdisj key Hin). by left. }
      rewrite dict_set_notin in Hload by done.
      assert (Hnd2 : NoDup (dict_keys (m ++ [(key, entry)]) ++ stored_keys files)).
      { unfold dict_keys. rewrite fmap_app. simpl. rewrite <- app_assoc.
        unfold stored_keys in Hnd. rewrite omap_cons in Hnd. exact Hnd. }
      rewrite (IH _ _ Hnd2 Hload). rewrite length_app. simpl. lia.
    + rewrite decide_False by congruence.
      destruct (can_unlink (fname, content).1); [|done]. simpl in Hload.
      by rewrite (IH _ _ Hnd' Hload).
Qed.

(** X20.  The size bound is not applied at a restart.  Over a directory
    whose files store distinct keys, and in which every file without a live
    record can be unlinked, constructing a [PersistentCache] returns a
    cache that holds one entry for every file with a live record, however
    small [max_size] is; nothing is evicted while loading. *)
Theorem load_ignores_max_size (t : Z) files (dttl cap : Z) :
  dict_wf files ->
  NoDup (stored_keys files) ->
  (forall f, f ∈ files -> live t f = false -> can_unlink f.1 = true) ->
  exists p,
    Persistent.init can_mkdir can_unlink t (Some files) dttl cap = Some p
    /\ max_size (mem p) = cap
    /\ size (mem p) = Z.of_nat (length (filter (fun f => live t f = true) files))
    /\ _deletes (mem p) = 0%nat
    /\ cache_dir p = Some (filter (fun f => live t f = true) files).
Proof.
  intros Hwf Hnd Hok.
  destruct (load_files_returns can_unlink t files ([], files) Hok) as [st Hst].
  exists (mkPersistent (Cache.with_cache (Cache.init dttl cap) st.1) (Some st.2)).
  split_and!.
  - unfold Persistent.init, Persistent._load_from_disk, Persistent.mkdir.
    simpl. by rewrite Hst.
  - done.
  - unfold size. simpl. by rewrite (load_length t files [] files st Hnd Hst).
  - done.
  - simpl. f_equal. exact (load_files_dir can_unlink t [] files [] st Hwf Hst).
Qed.
End load_size.

Lemma recently_read_entry_survives_eviction_witness :
  dict_get "a"%string
    (_cache (Cache.set 20 "c" 3%nat None (Cache.get 10 10 "a" store_ab).2))
  = Some (touched 10 (fresh_entry 0 1%nat 3600))
  /\ dict_get "b"%string
       (_cache (Cache.set 20 "c" 3%nat None (Cache.get 10 10 "a" store_ab).2))
     = None.
Proof.
  destruct (recently_read_entry_survives_eviction 10 10 20 "a"%string "b"%string
              "c"%string store_ab (fresh_entry 0 1%nat 3600)
              (fresh_entry 5 2%nat 60) 3%nat None eq_refl)
    as (_ & _ & Hset).
  - vm_compute. reflexivity.
  - vm_compute. reflexivity.
  - discriminate.
  - vm_compute. reflexivity.
  - discriminate.
  - split; [exact Hset|]. vm_compute. reflexivity.
Defined.

Lemma load_ignores_max_size_witness :
  exists p,
    Persistent.init true unlink_ok 100 (Some disk0) 3600 0 = Some p
    /\ max_size (mem p) = 0
    /\ size (mem p) = 1.
Proof.
  assert (Hwf : dict_wf disk0).
  { unfold dict_wf. apply (bool_decide_unpack _). vm_compute. exact I. }
  assert (Hnd : NoDup (stored_keys disk0)).
  { apply (bool_decide_unpack _). vm_compute. exact I. }
  destruct (load_ignores_max_size true unlink_ok 100 disk0 3600 0 Hwf Hnd
              (fun f _ _ => eq_refl))
    as (p & Hp & Hcap & Hsize & _).
  exists p. split; [exact Hp|]. split; [exact Hcap|].
  rewrite Hsize. vm_compute. reflexivity.
Defined.

(** ** The script compares date strings *)

Lemma days_print_two_digits : forallb prints_two_digits (seqZ 1 31) = true.
Proof. vm_compute. reflexivity. Qed.

(** The digit characters, with their values. *)
Lemma digit_cases (c : ascii) (v : Z) :
  Py.digit c = Some v ->
  (c, v) ∈ [("0", 0); ("1", 1); ("2", 2); ("3", 3); ("4", 4);
            ("5", 5); ("6", 6); ("7", 7); ("8", 8); ("9", 9)]%char.
Proof.
  destruct c as [[] [] [] [] [] [] [] []]; vm_compute; intros Hd;
    first [discriminate Hd
          | injection Hd as <-; repeat first [apply list_elem_of_here
                                             | apply list_elem_of_further]].
Qed.

(** Digit characters compare as their values. *)
Lemma digit_compare (c1 c2 : ascii) (v1 v2 : Z) :
  Py.digit c1 = Some v1 -> Py.digit c2 = Some v2 ->
  Ascii.compare c1 c2 = (v1 ?= v2).
Proof.
  intros H1 H2. apply digit_cases in H1, H2.
  repeat (apply elem_of_cons in H1 as [[= -> ->]|H1];
          [repeat (apply elem_of_cons in H2 as [[= -> ->]|H2]; [reflexivity|]);
           by apply elem_of_nil in H2|]).
  by apply elem_of_nil in H1.
Qed.

(** The ten characters of a printed date. *)
Lemma format_date_shape (y m d : Z) :
  Py.valid_date y m d = true -> 1000 <= y ->
  exists y1 y2 y3 y4 m1 m2 d1 d2 vy1 vy2 vy3 vy4 vm1 vm2 vd1 vd2,
    Py.format_date y m d
    = String y1 (String y2 (String y3 (String y4 (String "-"
        (String m1 (String m2 (String "-" (String d1 (String d2 "")))))))))
    /\ Py.digit y1 = Some vy1 /\ Py.digit y2 = Some vy2
    /\ Py.digit y3 = Some vy3 /\ Py.digit y4 = Some vy4
    /\ Py.digit m1 = Some vm1 /\ Py.digit m2 = Some vm2
    /\ Py.digit d1 = Some vd1 /\ Py.digit d2 = Some vd2
    /\ y = 1000 * vy1 + 100 * vy2 + 10 * vy3 + vy4
    /\ m = 10 * vm1 + vm2 /\ d = 10 * vd1 + vd2.
Proof.
  intros Hv Hy. pose proof (valid_date_inv y m d Hv) as (Hy' & Hm & Hd).
  assert (Hd31 : d <= 31).
  { apply month_cases in Hm. unfold Py._days_in_month in Hd.
    destruct (Py._is_leap y);
      repeat (destruct Hm as [->|Hm]; [simpl in Hd; lia|]); subst m; simpl in Hd; lia. }
  pose proof (forallb_seqZ _ 1000 9000 y years_print_four_digits ltac:(lia)) as Hpy.
  pose proof (forallb_seqZ _ 1 31 m days_print_two_digits ltac:(lia)) as Hpm.
  pose proof (forallb_seqZ _ 1 31 d days_print_two_digits ltac:(lia)) as Hpd.
  unfold prints_four_digits in Hpy. unfold prints_two_digits in Hpm, Hpd.
  unfold Py.format_date.
  destruct (Py.str_int y) as [|y1 [|y2 [|y3 [|y4 [|]]]]]; try discriminate.
  destruct (Py.format_02d m) as [|m1 [|m2 [|]]]; try discriminate.
  destruct (Py.format_02d d) as [|d1 [|d2 [|]]]; try discriminate.
  destruct (Py.digit y1) as [vy1|] eqn:Ey1; [|discriminate].
  destruct (Py.digit y2) as [vy2|] eqn:Ey2; [|discriminate].
  destruct (Py.digit y3) as [vy3|] eqn:Ey3; [|discriminate].
  destruct (Py.digit y4) as [vy4|] eqn:Ey4; [|discriminate].
  destruct (Py.digit m1) as [vm1|] eqn:Em1; [|discriminate].
  destruct (Py.digit m2) as [vm2|] eqn:Em2; [|discriminate].
  destruct (Py.digit d1) as [vd1|] eqn:Ed1; [|discriminate].
  destruct (Py.digit d2) as [vd2|] eqn:Ed2; [|discriminate].
  apply Z.eqb_eq in Hpy, Hpm, Hpd.
  exists y1, y2, y3, y4, m1, m2, d1, d2, vy1, vy2, vy3, vy4, vm1, vm2, vd1, vd2.
  split_and!; first [reflexivity | assumption | lia].
Qed.

(** On printed dates the order of the strings is the order of the dates. *)
Lemma format_date_ltb (a b : Py.date) :
  Py.valid_date (Py.year a) (Py.month a) (Py.day a) = true ->
  Py.valid_date (Py.year b) (Py.month b) (Py.day b) = true ->
  1000 <= Py.year a -> 1000 <= Py.year b ->
  String.ltb (Py.format_date (Py.year a) (Py.month a) (Py.day a))
             (Py.format_date (Py.year b) (Py.month b) (Py.day b))
  = Py.date_gt b a.
Proof.
  intros Hva Hvb Hya Hyb.
  destruct (format_date_shape _ _ _ Hva Hya)
    as (y1 & y2 & y3 & y4 & m1 & m2 & d1 & d2 & vy1 & vy2 & vy3 & vy4 & vm1 & vm2
        & vd1 & vd2 & -> & Hy1 & Hy2 & Hy3 & Hy4 & Hm1 & Hm2 & Hd1 & Hd2
        & Hy & Hm & Hd).
  destruct (format_date_shape _ _ _ Hvb Hyb)
    as (z1 & z2 & z3 & z4 & n1 & n2 & e1 & e2 & wy1 & wy2 & wy3 & wy4 & wm1 & wm2
        & wd1 & wd2 & -> & Hz1 & Hz2 & Hz3 & Hz4 & Hn1 & Hn2 & He1 & He2
        & Hz & Hn & He).
  unfold Py.date_gt. rewrite Hy, Hm, Hd, Hz, Hn, He.
  unfold String.ltb. cbn [String.compare].
  rewrite (digit_compare _ _ _ _ Hy1 Hz1), (digit_compare _ _ _ _ Hy2 Hz2),
    (digit_compare _ _ _ _ Hy3 Hz3), (digit_compare _ _ _ _ Hy4 Hz4),
    (digit_compare _ _ _ _ Hm1 Hn1), (digit_compare _ _ _ _ Hm2 Hn2),
    (digit_compare _ _ _ _ Hd1 He1), (digit_compare _ _ _ _ Hd2 He2).
  change (Ascii.compare "-" "-") with Eq. cbv iota.
  pose proof (digit_facts _ _ Hy1) as [? _]. pose proof (digit_facts _ _ Hy2) as [? _].
  pose proof (digit_facts _ _ Hy3) as [? _]. pose proof (digit_facts _ _ Hy4) as [? _].
  pose proof (digit_facts _ _ Hm1) as [? _]. pose proof (digit_facts _ _ Hm2) as [? _].
  pose proof (digit_facts _ _ Hd1) as [? _]. pose proof (digit_facts _ _ Hd2) as [? _].
  pose proof (digit_facts _ _ Hz1) as [? _]. pose proof (digit_facts _ _ Hz2) as [? _].
  pose proof (digit_facts _ _ Hz3) as [? _]. pose proof (digit_facts _ _ Hz4) as [? _].
  pose proof (digit_facts _ _ Hn1) as [? _]. pose proof (digit_facts _ _ Hn2) as [? _].
  pose proof (digit_facts _ _ He1) as [? _]. pose proof (digit_facts _ _ He2) as [? _].
  clear Hy1 Hy2 Hy3 Hy4 Hm1 Hm2 Hd1 Hd2 Hz1 Hz2 Hz3 Hz4 Hn1 Hn2 He1 He2
    Hva Hvb Hya Hyb Hy Hm Hd Hz Hn He.
  repeat (match goal with
          | |- context [(?x ?= ?y)] => destruct (Z.compare_spec x y)
          end; cbv iota);
    symmetry;
    repeat match goal with
           | |- context [?x <? ?y] => destruct (Z.ltb_spec x y)
           | |- context [?x =? ?y] => destruct (Z.eqb_spec x y)
           end; simpl; first [reflexivity | lia].
Qed.

Section script_countdown.
Variable http : Source -> Z -> option YearData.

(** What the script's loop returns is an element whose date string is
    above today's; it fails only on a record without a date. *)
Lemma script_scan_found (current_date : string) (l : list DayRecord) :
  match Script.scan current_date l with
  | Some (Some day) =>
      day ∈ l /\ exists s, Feed.date day = Some s /\ String.ltb current_date s = true
  | Some None => True
  | None => exists day, day ∈ l /\ Feed.date day = None
  end.
Proof.
  induction l as [|x l IH]; simpl; [done|].
  destruct (Feed.date x) as [s|] eqn:Hs; simpl.
  - destruct (String.ltb current_date s) eqn:Hlt.
    + split; [apply list_elem_of_here|]. by exists s.
    + destruct (Script.scan current_date l) as [[day|]|]; [|done|].
      * destruct IH as [Hin Hday]. split; [by apply list_elem_of_further|done].
      * destruct IH as (day & Hin & Hday). exists day.
        split; [by apply list_elem_of_further|done].
  - exists x. split; [apply list_elem_of_here|done].
Qed.

Lemma canonical_date_parses (s : string) (a : Py.date) :
  canonical_date s a -> Py.strptime s = Some a.
Proof.
  intros (Hv & Hy & ->). rewrite strptime_format_date by done. by destruct a.
Qed.

(** X21.  The script counts the days ahead.  When today's string and the
    dates of the off days of both years are written [YYYY-MM-DD] with two
    digits for month and day, the comparison of the strings in
    [get_next_holiday] is the comparison of the dates: an answer has
    [days_until] at least 1, the only failure is that no later off day is
    found, and [get_holiday_countdown] returns the same name, date, days
    and note, or the same failure. *)
Theorem script_counts_days_ahead (current_date : string) (today : Py.date)
    (current_year t1 t2 : Z) (st st1 st2 : ScriptCache) (d1 d2 : option YearData) :
  canonical_date current_date today ->
  Script.fetch_holiday_data http t1 current_year st = (d1, st1) ->
  Script.fetch_holiday_data http t2 (current_year + 1) st1 = (d2, st2) ->
  off_days_canonical (Script.usable_days d1 ++ Script.usable_days d2) ->
  match (Script.get_next_holiday http current_date current_year t1 t2 st).1 with
  | Ok a =>
      1 <= nh_days_until a
      /\ (Script.get_holiday_countdown http current_date current_year t1 t2 st).1
         = Ok (mkCountdown (nh_name a) (nh_date a) (nh_days_until a) (nh_note a))
  | Err e =>
      e = NoFutureHoliday
      /\ (Script.get_holiday_countdown http current_date current_year t1 t2 st).1
         = Err NoFutureHoliday
  end.
Proof.
  intros Htoday Hf1 Hf2 Hcanon.
  unfold Script.get_holiday_countdown, Script.get_next_holiday.
  rewrite Hf1, Hf2, <- filter_app.
  set (days := Script.usable_days d1 ++ Script.usable_days d2) in *.
  pose proof (script_scan_found current_date
                (filter (fun day => off_day day = true) days)) as Hscan.
  destruct (Script.scan current_date (filter (fun day => off_day day = true) days))
    as [[day|]|].
  - destruct Hscan as (Hin & s & Hs & Hlt).
    apply list_elem_of_filter in Hin as [Hoff Hin].
    destruct (Hcanon day Hin Hoff) as (s' & a & Hs' & Ha).
    assert (s' = s) as -> by congruence.
    pose proof (canonical_date_parses _ _ Ha) as Hpa.
    pose proof (canonical_date_parses _ _ Htoday) as Hpt.
    unfold Script.next_answer. rewrite Hs. simpl. rewrite Hpa, Hpt. simpl.
    split; [|done].
    destruct Htoday as (Hvt & Hyt & ->). destruct Ha as (Hva & Hya & ->).
    rewrite format_date_ltb in Hlt by done.
    pose proof (toordinal_mono a today Hva Hvt Hlt). unfold Py.days_between. lia.
  - done.
  - destruct Hscan as (day & Hin & Hnone).
    apply list_elem_of_filter in Hin as [Hoff Hin].
    destruct (Hcanon day Hin Hoff) as (s' & a & Hs' & _). congruence.
Qed.
End script_countdown.

(** A record whose date parses and prints back as it is written has a
    date written [YYYY-MM-DD]. *)
Lemma canonical_record (day : DayRecord) :
  match Feed.date day with
  | Some s =>
      match Py.strptime s with
      | Some a =>
          String.eqb s (Py.format_date (Py.year a) (Py.month a) (Py.day a))
          && (1000 <=? Py.year a)
      | None => false
      end
  | None => false
  end = true ->
  exists s a, Feed.date day = Some s /\ canonical_date s a.
Proof.
  destruct (Feed.date day) as [s|]; [|done].
  destruct (Py.strptime s) as [a|] eqn:Hs; [|done].
  intros Hc. apply andb_prop in Hc as [Heq Hy].
  apply String.eqb_eq in Heq. apply Z.leb_le in Hy.
  exists s, a. split; [done|]. split_and!; [|done..].
  by apply (strptime_valid s).
Defined.

Lemma feed_2024_canonical :
  off_days_canonical
    (Script.usable_days (Some feed_2024) ++ Script.usable_days (Some feed_2025)).
Proof.
  intros day Hday Hoff.
  each_element Hday
    ltac:(first [discriminate Hoff
                | apply canonical_record; vm_compute; reflexivity]).
Defined.

Lemma script_counts_days_ahead_witness :
  match (Script.get_next_holiday http_24_25 "2024-06-16" 2024 0 0
           empty_script_cache).1 with
  | Ok a =>
      1 <= nh_days_until a
      /\ (Script.get_holiday_countdown http_24_25 "2024-06-16" 2024 0 0
            empty_script_cache).1
         = Ok (mkCountdown (nh_name a) (nh_date a) (nh_days_until a) (nh_note a))
  | Err e =>
      e = NoFutureHoliday
      /\ (Script.get_holiday_countdown http_24_25 "2024-06-16" 2024 0 0
            empty_script_cache).1
         = Err NoFutureHoliday
  end.
Proof.
  assert (Htoday : canonical_date "2024-06-16" june_16).
  { split_and!; [vm_compute; reflexivity|vm_compute; discriminate
                |vm_compute; reflexivity]. }
  assert (Hf1 : Script.fetch_holiday_data http_24_25 0 2024 empty_script_cache
                = (Some feed_2024,
                   (Script.fetch_holiday_data http_24_25 0 2024
                      empty_script_cache).2)) by (vm_compute; reflexivity).
  assert (Hf2 : Script.fetch_holiday_data http_24_25 0 (2024 + 1)
                  (Script.fetch_holiday_data http_24_25 0 2024 empty_script_cache).2
                = (Some feed_2025,
                   (Script.fetch_holiday_data http_24_25 0 (2024 + 1)
                      (Script.fetch_holiday_data http_24_25 0 2024
                         empty_script_cache).2).2)) by (vm_compute; reflexivity).
  exact (script_counts_days_ahead http_24_25 "2024-06-16" june_16 2024 0 0
           empty_script_cache _ _ (Some feed_2024) (Some feed_2025)
           Htoday Hf1 Hf2 feed_2024_canonical).
Defined.

(** ** The lists of a year and the lookup of a day *)

Section lists_and_lookup.
Variable http : Source -> Z -> option YearData.

(** The search finds nothing only when no record carries the date. *)
Lemma find_date_missing (date : string) (days : list DayRecord) :
  find_date date days = None ->
  forall day, day ∈ days -> Feed.date day ≠ Some date.
Proof.
  induction days as [|x days IH]; simpl.
  - intros _ day Hin. by apply elem_of_nil in Hin.
  - case_bool_decide as Hx; [done|].
    intros Hf day Hin. apply elem_of_cons in Hin as [->|Hin]; [done|by apply IH].
Qed.

(** X22.  The lookup classifies a day as the lists do.  For a cached
    year, a record of the year's list whose date lies in that year, and
    which is the only record with that date, is what [holiday_info]
    answers from when asked for the date: a record that
    [current_year_holidays] lists ([isOffDay] true, named) is answered as
    type [holiday] and a day off, a record that [current_year_work_days]
    lists as type [work] and a work day, with the record's name; the cache
    is left as it is. *)
Theorem listed_days_are_classified (now_str : string) (year : Z)
    (cache : gmap Z YearData) (data : YearData) (day : DayRecord)
    (s : string) (d : Py.date) :
  cache !! year = Some data ->
  truthy data = true ->
  day ∈ days_of data ->
  Feed.date day = Some s ->
  Py.strptime s = Some d ->
  Py.year d = year ->
  (forall day', day' ∈ days_of data -> Feed.date day' = Some s -> day' = day) ->
  exists info,
    Server.holiday_info http now_str (Some s) cache = (Ok info, cache)
    /\ hi_date info = s
    /\ hi_name info = default ""%string (Feed.name day)
    /\ (is_holiday_record day = true ->
        hi_type info = "holiday"%string
        /\ hi_is_holiday info = true /\ hi_is_work_day info = false)
    /\ (is_work_record day = true ->
        hi_type info = "work"%string
        /\ hi_is_holiday info = false /\ hi_is_work_day info = true).
Proof.
  intros Hc Htruthy Hin Hdate Hs Hyear Honly.
  assert (Hne : String.eqb s "" = false) by (by destruct s).
  pose proof (strptime_year s d Hs) as Hint. rewrite Hyear in Hint.
  assert (Hfind : find_date s (days_of data) = Some day).
  { destruct (find_date s (days_of data)) as [day'|] eqn:Hf.
    - apply find_date_found in Hf as (l1 & l2 & Hdays & Hday' & _).
      apply bool_decide_eq_true in Hday'. f_equal. apply Honly; [|done].
      rewrite Hdays. apply elem_of_app. right. apply list_elem_of_here.
    - by destruct (find_date_missing s _ Hf day Hin). }
  unfold Server.holiday_info. rewrite Hne. cbv iota. rewrite Hs, Hint.
  unfold Server.fetch_holiday_data. rewrite Hc, Htruthy, Hfind.
  eexists. split; [done|]. unfold info_of_record. simpl.
  split_and!; [done..| |].
  - unfold is_holiday_record. intros Hh. apply andb_prop in Hh as [-> _]. done.
  - unfold is_work_record, off_day. intros Hw. apply andb_prop in Hw as [Hoff _].
    by destruct (Feed.isOffDay day) as [[]|].
Qed.
End lists_and_lookup.

Lemma listed_days_are_classified_witness :
  exists info,
    Server.holiday_info http_down ""%string (Some "2024-10-06"%string) cache_2024
    = (Ok info, cache_2024)
    /\ hi_type info = "holiday"%string
    /\ hi_name info = "国庆节"%string.
Proof.
  assert (Hc : cache_2024 !! 2024 = Some feed_2024) by (vm_compute; reflexivity).
  assert (Hin : national_day ∈ days_of feed_2024).
  { do 3 apply list_elem_of_further. apply list_elem_of_here. }
  assert (Hs : Py.strptime "2024-10-06" = Some (Py.mkDate 2024 10 6))
    by (vm_compute; reflexivity).
  assert (Honly : forall day', day' ∈ days_of feed_2024 ->
                    Feed.date day' = Some "2024-10-06"%string -> day' = national_day).
  { intros day' Hday' Hd.
    each_element Hday' ltac:(first [discriminate Hd | reflexivity]). }
  destruct (listed_days_are_classified http_down ""%string 2024 cache_2024 feed_2024
              national_day "2024-10-06"%string (Py.mkDate 2024 10 6)
              Hc eq_refl Hin eq_refl Hs eq_refl Honly)
    as (info & Hinfo & _ & Hname & Hhol & _).
  exists info. split; [exact Hinfo|]. split.
  - exact (proj1 (Hhol eq_refl)).
  - exact Hname.
Defined.
